(** * Inventory and order reconciliation between the storefront and Bunjang

    A shallow embedding of the reconciliation core of the middleware:
    - [src/services/orderService.js]: [processShopifyOrderForBunjang],
      [syncBunjangOrderStatuses], [updateShopifyOrderFromBunjangStatus];
    - [src/services/inventoryService.js]: [syncBunjangInventoryToShopify] and
      the operations built on it;
    - [src/routes/webhook.routes.js]: the order webhooks and the
      product-deleted webhook;
    - [src/schedulers/orderSyncScheduler.js]: [scheduleOrderStatusSync],
      [manualOrderSync] and the hourly task.

    The asynchronous JavaScript code is written in a state-and-exception
    monad. The state is the pair of the local variables of the running
    function and the [world]: the mapping store, the storefront data the
    code writes (order tags and metafields, on-hand quantities), the
    sequence of collaborator calls issued so far and the log. What the
    collaborators answer is given by a [remote] oracle indexed by the number
    of calls issued so far, so every theorem holds for every behaviour of
    the two marketplaces, including a failure of any call. *)

From stdpp Require Import gmap strings list fin_maps pretty.
From Stdlib Require Import QArith Ascii.

Local Open Scope string_scope.
Local Open Scope Z_scope.

(** ** JavaScript values *)

(** An identifier that the remote APIs deliver as a number or as a string. *)
Inductive jsId :=
| IdNum (n : Z)
| IdStr (s : string).

Global Instance jsId_eq_dec : EqDecision jsId.
Proof. solve_decision. Defined.

(** [String(id)] and the interpolation of an id in a template literal. *)
Definition String_of_id (i : jsId) : string :=
  match i with
  | IdNum n => pretty n
  | IdStr s => s
  end.

(** Truthiness of the values the code tests with [!x], [x && y], [x || y]. *)
Definition truthy_id (i : jsId) : bool :=
  match i with
  | IdNum n => negb (n =? 0)
  | IdStr s => negb (String.eqb s "")
  end.

Definition truthy_string (s : string) : bool := negb (String.eqb s "").

Definition truthy_num (n : Z) : bool := negb (n =? 0).

(** [x || d] on an optional string and on an optional number. *)
Definition or_string (x : option string) (d : string) : string :=
  match x with
  | Some s => if truthy_string s then s else d
  | None => d
  end.

Definition or_num (x : option Z) (d : Z) : Z :=
  match x with
  | Some n => if truthy_num n then n else d
  | None => d
  end.

(** A JSON document. A string that is a JSON text is represented by the
    document it denotes: [JSON.stringify] yields such a text and
    [JSON.parse] gives the document back. *)
#[local] Set Warnings "-register-all".

Inductive json :=
| JNull
| JBool (b : bool)
| JNum (n : Z)
| JStr (s : string)
| JArr (l : list json).

(** The text held by a metafield or passed as its value: a JSON text, the
    ISO-8601 text of an instant (given by its milliseconds since the epoch),
    or another string, which is no JSON text. *)
Inductive metaText :=
| JsonText (doc : json)
| IsoDateText (ms : Z)
| PlainText (s : string).

Definition JSON_stringify_strings (l : list string) : metaText :=
  JsonText (JArr (map JStr l)).

Definition truthy_text (t : metaText) : bool :=
  match t with
  | JsonText _ => true
  | IsoDateText _ => true
  | PlainText s => truthy_string s
  end.

(** ** Strings *)

(** The character of code 34. *)
Definition dquote : string := String (ascii_of_nat 34) EmptyString.

(** [s.split(sep)] for a separator of one character. *)
Fixpoint split_on (sep : ascii) (s : string) : list string :=
  match s with
  | EmptyString => [EmptyString]
  | String c rest =>
      if Ascii.eqb c sep then EmptyString :: split_on sep rest
      else
        match split_on sep rest with
        | [] => [String c EmptyString]
        | h :: t => String c h :: t
        end
  end.

(** The strings of the model are the UTF-8 encodings of the JavaScript
    strings. [String.prototype.trim] strips the white space and the line
    terminators of ECMAScript: U+0009 to U+000D, U+0020, U+00A0, U+1680,
    U+2000 to U+200A, U+2028, U+2029, U+202F, U+205F, U+3000 and U+FEFF,
    given here by their encodings. *)
Definition white_space : list (list ascii) :=
  map (map ascii_of_nat)
    [[9]; [10]; [11]; [12]; [13]; [32]; [194; 160]; [225; 154; 128];
     [226; 128; 128]; [226; 128; 129]; [226; 128; 130]; [226; 128; 131];
     [226; 128; 132]; [226; 128; 133]; [226; 128; 134]; [226; 128; 135];
     [226; 128; 136]; [226; 128; 137]; [226; 128; 138];
     [226; 128; 168]; [226; 128; 169]; [226; 128; 175]; [226; 129; 159];
     [227; 128; 128]; [239; 187; 191]]%nat.

Fixpoint starts_with (e cs : list ascii) : bool :=
  match e, cs with
  | [], _ => true
  | a :: e', c :: cs' => Ascii.eqb a c && starts_with e' cs'
  | _ :: _, [] => false
  end.

(** What is left of [cs] without the character of [codes] it starts with. *)
Definition strip_one (codes : list (list ascii)) (cs : list ascii) : option (list ascii) :=
  match List.find (fun e => starts_with e cs) codes with
  | Some e => Some (drop (length e) cs)
  | None => None
  end.

(** Strips the characters of [codes] that [cs] starts with; [fuel] bounds
    their number. *)
Fixpoint strip_all (codes : list (list ascii)) (fuel : nat) (cs : list ascii) : list ascii :=
  match fuel with
  | O => cs
  | S fuel =>
      match strip_one codes cs with
      | Some rest => strip_all codes fuel rest
      | None => cs
      end
  end.

Definition trim_start_units (cs : list ascii) : list ascii :=
  strip_all white_space (length cs) cs.

(** From the end: the same on the reversed text with the reversed encodings. *)
Definition trim_end_units (cs : list ascii) : list ascii :=
  rev (strip_all (map (@rev ascii) white_space) (length cs) (rev cs)).

Definition trim_start (s : string) : string :=
  String.string_of_list_ascii (trim_start_units (String.list_ascii_of_string s)).

Definition trim_end (s : string) : string :=
  String.string_of_list_ascii (trim_end_units (String.list_ascii_of_string s)).

Definition trim (s : string) : string :=
  String.string_of_list_ascii
    (trim_end_units (trim_start_units (String.list_ascii_of_string s))).

(** ** Errors (src/utils/customErrors and the errors of the API clients) *)

Inductive fieldMessage :=
| FieldText (s : string)
| RequestedRange (diffDays : Q).

Inductive jsError :=
| ValidationError (message : string) (errors : list (string * fieldMessage))
| RemoteApiError (message : string) (errorCode : option string) (reason : option string)
| JsError (name message : string).

Definition is_ValidationError (e : jsError) : bool :=
  match e with
  | ValidationError _ _ => true
  | _ => false
  end.

(** [apiError.originalError?.response?.data?.errorCode] *)
Definition originalErrorCode (e : jsError) : option string :=
  match e with
  | RemoteApiError _ code _ => code
  | _ => None
  end.

(** ** Documents of the mapping store (src/models/syncedProduct.model) *)

Inductive syncStatusT := SYNCED | ERROR | PENDING | PARTIAL_ERROR | SKIPPED_NO_CHANGE.

Global Instance syncStatusT_eq_dec : EqDecision syncStatusT.
Proof. solve_decision. Defined.

(** The fields of a mapping that the services read and write. The schema
    (src/models/syncedProduct.model.js) declares [shopifyGid], [bunjangPid],
    [bunjangProductName], [bunjangQuantity] and [syncStatus]; [shopifyData],
    [lastSyncedAt] and [lastInventorySyncAt] are the further fields that the
    services name in their queries and writes. A mapping of the store may
    hold them; [SyncedProduct.create] drops them, since the schema is
    strict (see [schema_cast]). *)
Record SyncedProduct := mkSyncedProduct {
  shopifyGid : option string;
  shopifyData_id : option jsId;
  shopifyData_title : option string;
  shopifyData_handle : option string;
  bunjangPid : option string;
  bunjangProductName : option string;
  syncStatus : option syncStatusT;
  lastSyncedAt : option Z;
  bunjangQuantity : option Z;
  lastInventorySyncAt : option Z
}.

(** ** Payloads *)

Record lineItem := mkLineItem {
  li_id : Z;
  product_id : Z;
  variant_id : Z;
  quantity : Z
}.

Record shopifyOrder := mkShopifyOrder {
  order_id : option Z;
  admin_graphql_api_id : option string;
  line_items : option (list lineItem);
  cancelled_at : option string
}.

(** The argument of [createBunjangOrderV2]. The product id is
    [parseInt(bunjangPid)]; it is kept as the string it is parsed from. *)
Record bunjangOrderPayload := mkPayload {
  payload_product_id_parseInt : string;
  payload_product_price : Z;
  payload_deliveryPrice : Z
}.

Record metafieldInput := mkMetafield {
  mf_namespace : string;
  mf_key : string;
  mf_value : metaText;
  mf_type : string
}.

(** ** What the collaborators answer *)

Record bunjangProductDetails := mkDetails {
  d_price : option Z;
  d_quantity : option Z;
  d_shippingFee : option Z
}.

Record bunjangApiResponse := mkApiResponse {
  resp_id : option jsId
}.

(** A property that holds a number, holds [null], or is missing. *)
Inductive jsNumber :=
| Num (n : Z)
| NumNull
| NumMissing.

Record pointBalance := mkBalance {
  balance : jsNumber
}.

Record productNode := mkProductNode {
  p_id : string;
  p_title : string;
  p_handle : string;
  p_tags : list string
}.

Record inventoryLevel := mkLevel {
  level_location_id : string;
  level_location_name : string;
  level_available : Z
}.

Record variantNode := mkVariant {
  v_id : string;
  v_inventoryItem_id : string;
  v_tracked : bool;
  v_inventoryLevels : list inventoryLevel
}.

Record userError := mkUserError {
  ue_code : string;
  ue_message : string
}.

Record bunjangOrderItem := mkOrderItem {
  oi_status : string;
  oi_product_id : Z;
  oi_purchaseConfirmedAt : option string
}.

Record bunjangOrder := mkBunjangOrder {
  bo_id : jsId;
  bo_orderItems : list bunjangOrderItem
}.

Record ordersResponse := mkOrdersResponse {
  or_data : option (list bunjangOrder);
  or_totalPages : option Z
}.

(** The collaborators, as the code sees them. Every field takes the number
    of calls issued before the one it answers. *)
Record remote := mkRemote {
  (** the call fails (the promise is rejected) with this error *)
  fault : nat -> option jsError;
  (** [new Date()], in milliseconds since the epoch *)
  now : nat -> Z;
  (** storefront, [product(id) { id title handle tags }] *)
  productTags : nat -> string -> option productNode;
  (** storefront, first variant of [product(id)]; [None] when the product
      is missing or has no variant *)
  productVariant : nat -> string -> option variantNode;
  (** storefront, [inventoryItem(id) { inventoryLevels }] *)
  inventoryLevelsOf : nat -> string -> list inventoryLevel;
  (** storefront, the [userErrors] of [inventorySetOnHandQuantities] *)
  setOnHandUserErrors : nat -> string -> string -> Z -> list userError;
  (** storefront, ids of the orders found by a tag search *)
  ordersByTag : nat -> string -> list string;
  (** marketplace *)
  productDetails : nat -> string -> option bunjangProductDetails;
  createOrderResponse : nat -> bunjangOrderPayload -> option bunjangApiResponse;
  pointBalanceResponse : nat -> option pointBalance;
  ordersChanged : nat -> Z -> Z -> Z -> option ordersResponse
}.

(** [config.bunjang], not part of the sources: taken as a parameter. *)
Record config := mkConfig {
  orderIdentifierPrefix : option string;
  lowBalanceThreshold : option Z
}.

(** ** Calls and the world *)

Inductive call :=
| GetOrderMetafield (orderGid namespace key : string)
| UpdateOrder (orderGid : string) (tags : list string) (metafields : list metafieldInput)
| ProductTagsQuery (productGid : string)
| ProductVariantsQuery (productGid : string)
| InventoryLevelsQuery (inventoryItemId : string)
| InventorySetOnHandQuantities (reason inventoryItemId locationId : string) (qty : Z)
| EnableInventoryTracking (inventoryItemId : string)
| ActivateInventoryAtLocation (inventoryItemId locationId : string)
| UpdateInventoryLevel (inventoryItemId locationId : string) (qty : Z)
| FindOrderByTag (query : string)
| GetBunjangProductDetails (pid : string)
| CreateBunjangOrderV2 (payload : bunjangOrderPayload)
| GetBunjangPointBalance
| GetBunjangOrders (statusUpdateStartDate statusUpdateEndDate page size : Z)
| DbFindOneByProduct (productId : Z)
| DbFindOneByPid (pid : string)
| DbFindSynced (limit : nat)
| DbCreate (doc : SyncedProduct)
| DbUpdateOne (pid : string) (qty : Z)
| DbDeleteOne (productGid : string)
| Sleep (ms : Z).

Inductive logLevel := LDebug | LInfo | LWarn | LError.

Record world := mkWorld {
  db : list SyncedProduct;
  orderTags : gmap string (list string);
  orderMetafields : gmap (string * string * string) metaText;
  onHand : gmap (string * string) Z;
  calls : list call;
  logs : list (logLevel * string)
}.

Definition set_db (f : list SyncedProduct -> list SyncedProduct) (w : world) : world :=
  mkWorld (f (db w)) (orderTags w) (orderMetafields w) (onHand w) (calls w) (logs w).

Definition set_orderTags (f : gmap string (list string) -> gmap string (list string))
    (w : world) : world :=
  mkWorld (db w) (f (orderTags w)) (orderMetafields w) (onHand w) (calls w) (logs w).

Definition set_orderMetafields
    (f : gmap (string * string * string) metaText -> gmap (string * string * string) metaText)
    (w : world) : world :=
  mkWorld (db w) (orderTags w) (f (orderMetafields w)) (onHand w) (calls w) (logs w).

Definition set_onHand (f : gmap (string * string) Z -> gmap (string * string) Z)
    (w : world) : world :=
  mkWorld (db w) (orderTags w) (orderMetafields w) (f (onHand w)) (calls w) (logs w).

Definition record_call (c : call) (w : world) : world :=
  mkWorld (db w) (orderTags w) (orderMetafields w) (onHand w) (calls w ++ [c]) (logs w).

Definition record_log (l : logLevel) (msg : string) (w : world) : world :=
  mkWorld (db w) (orderTags w) (orderMetafields w) (onHand w) (calls w) (logs w ++ [(l, msg)]).

(** ** The monad of asynchronous functions *)

Inductive completion (A : Type) :=
| Normal (a : A)
| Throw (e : jsError).

Arguments Normal {A} a.
Arguments Throw {A} e.

(** A computation over local variables of type [L]. The locals and the
    world survive a [Throw]: what was done before the exception stays done. *)
Definition prog (L A : Type) : Type := L * world -> completion A * (L * world).

Definition ret {L A} (a : A) : prog L A := fun s => (Normal a, s).

Definition bind {L A B} (m : prog L A) (k : A -> prog L B) : prog L B :=
  fun s =>
    match m s with
    | (Normal a, s') => k a s'
    | (Throw e, s') => (Throw e, s')
    end.

Definition throw {L A} (e : jsError) : prog L A := fun s => (Throw e, s).

Definition try_catch {L A} (m : prog L A) (handler : jsError -> prog L A) : prog L A :=
  fun s =>
    match m s with
    | (Normal a, s') => (Normal a, s')
    | (Throw e, s') => handler e s'
    end.

Definition get_local {L} : prog L L := fun s => (Normal (fst s), s).

Definition set_local {L} (f : L -> L) : prog L unit :=
  fun s => (Normal tt, (f (fst s), snd s)).

Definition get_world {L} : prog L world := fun s => (Normal (snd s), s).

Definition set_world {L} (f : world -> world) : prog L unit :=
  fun s => (Normal tt, (fst s, f (snd s))).

(** A function called from another one runs on locals of its own. *)
Definition scoped {L L' A} (init : L') (m : prog L' A) : prog L A :=
  fun s =>
    match m (init, snd s) with
    | (r, s') => (r, (fst s, snd s'))
    end.

(** Runs a function on a world. *)
Definition run {A} (m : prog unit A) (w : world) : completion A * world :=
  match m (tt, w) with
  | (r, s') => (r, snd s')
  end.

Declare Scope prog_scope.
Delimit Scope prog_scope with prog.

Notation "'let*' x ':=' m 'in' k" := (bind m (fun x => k))
  (at level 10, x name, m at level 100, k at level 200) : prog_scope.
Notation "m '>>>' k" := (bind m (fun _ => k))
  (at level 100, k at level 200, right associativity) : prog_scope.

Local Open Scope prog_scope.

Definition logger {L} (l : logLevel) (msg : string) : prog L unit :=
  set_world (record_log l msg).

(** [for (const x of xs) body] *)
Fixpoint for_of {L X} (xs : list X) (body : X -> prog L unit) : prog L unit :=
  match xs with
  | [] => ret tt
  | x :: rest => body x >>> for_of rest body
  end.

(** ** The collaborators *)

Section Services.

Context (env : remote) (cfg : config).

Section Gateways.

Context {L : Type}.

(** Issues a call: it is recorded, and it returns its number or fails as
    the oracle says. *)
Definition invoke (c : call) : prog L nat :=
  fun s =>
    let n := length (calls (snd s)) in
    let s' := (fst s, record_call c (snd s)) in
    match fault env n with
    | Some e => (Throw e, s')
    | None => (Normal n, s')
    end.

(** [await new Promise(resolve => setTimeout(resolve, ms))] *)
Definition sleep (ms : Z) : prog L unit :=
  set_world (record_call (Sleep ms)).

(** [new Date()] *)
Definition new_Date : prog L Z :=
  fun s => (Normal (now env (length (calls (snd s)))), s).

(** *** Storefront gateway (src/services/shopifyService) *)

(** Modelled from the spec: [getOrderMetafield(orderRef, namespace, key)]
    reads the metadata recorded on the storefront order. *)
Definition getOrderMetafield (orderGid namespace key : string) : prog L (option metaText) :=
  let* _ := invoke (GetOrderMetafield orderGid namespace key) in
  let* w := get_world in
  ret (orderMetafields w !! (orderGid, namespace, key)).

Definition merge_tags (old new : list string) : list string :=
  remove_dups (old ++ new)%list.

Definition upsert_metafields (orderGid : string) (mfs : list metafieldInput)
    (store : gmap (string * string * string) metaText) : gmap (string * string * string) metaText :=
  foldl (fun acc mf => <[(orderGid, mf_namespace mf, mf_key mf) := mf_value mf]> acc) store mfs.

(** Modelled from the spec: [updateOrder({id, tags?, metafields?})] merges
    the tags into the ones of the order and writes the metafields. *)
Definition updateOrder (orderGid : string) (tags : list string)
    (metafields : list metafieldInput) : prog L unit :=
  let* _ := invoke (UpdateOrder orderGid tags metafields) in
  set_world (set_orderTags (fun m => <[orderGid := merge_tags (default [] (m !! orderGid)) tags]> m))
  >>> set_world (set_orderMetafields (upsert_metafields orderGid metafields)).

Definition queryProductTags (productGid : string) : prog L (option productNode) :=
  let* n := invoke (ProductTagsQuery productGid) in
  ret (productTags env n productGid).

Definition queryProductVariants (productGid : string) : prog L (option variantNode) :=
  let* n := invoke (ProductVariantsQuery productGid) in
  ret (productVariant env n productGid).

Definition queryInventoryLevels (inventoryItemId : string) : prog L (list inventoryLevel) :=
  let* n := invoke (InventoryLevelsQuery inventoryItemId) in
  ret (inventoryLevelsOf env n inventoryItemId).

(** Modelled from the spec: the set-on-hand-quantity request pins the
    quantity at one location; with a non-empty error list nothing is set. *)
Definition inventorySetOnHandQuantities (reason inventoryItemId locationId : string) (qty : Z)
    : prog L (list userError) :=
  let* n := invoke (InventorySetOnHandQuantities reason inventoryItemId locationId qty) in
  let errors := setOnHandUserErrors env n inventoryItemId locationId qty in
  match errors with
  | [] => set_world (set_onHand (fun m => <[(inventoryItemId, locationId) := qty]> m))
          >>> ret errors
  | _ => ret errors
  end.

Definition enableInventoryTracking (inventoryItemId : string) : prog L unit :=
  let* _ := invoke (EnableInventoryTracking inventoryItemId) in ret tt.

Definition activateInventoryAtLocation (inventoryItemId locationId : string) : prog L unit :=
  let* _ := invoke (ActivateInventoryAtLocation inventoryItemId locationId) in ret tt.

(** Modelled from the spec: [updateInventoryLevel(itemId, locationId, qty)]
    is the direct update that forces the quantity at the location. *)
Definition updateInventoryLevel (inventoryItemId locationId : string) (qty : Z) : prog L unit :=
  let* _ := invoke (UpdateInventoryLevel inventoryItemId locationId qty) in
  set_world (set_onHand (fun m => <[(inventoryItemId, locationId) := qty]> m)).

Definition findOrderByTag (query : string) : prog L (list string) :=
  let* n := invoke (FindOrderByTag query) in
  ret (ordersByTag env n query).

(** *** Remote marketplace gateway (src/services/bunjangService) *)

Definition getBunjangProductDetails (pid : string) : prog L (option bunjangProductDetails) :=
  let* n := invoke (GetBunjangProductDetails pid) in
  ret (productDetails env n pid).

Definition createBunjangOrderV2 (payload : bunjangOrderPayload)
    : prog L (option bunjangApiResponse) :=
  let* n := invoke (CreateBunjangOrderV2 payload) in
  ret (createOrderResponse env n payload).

Definition getBunjangPointBalance : prog L (option pointBalance) :=
  let* n := invoke GetBunjangPointBalance in
  ret (pointBalanceResponse env n).

Definition getBunjangOrders (startDate endDate page size : Z) : prog L (option ordersResponse) :=
  let* n := invoke (GetBunjangOrders startDate endDate page size) in
  ret (ordersChanged env n startDate endDate page).

(** *** Product mapping store (the SyncedProduct model) *)

Definition productGid_of (productId : Z) : string :=
  "gid://shopify/Product/" +:+ pretty productId.

(** The query [{ $or: [ { shopifyGid: `gid://shopify/Product/${productId}` },
    { 'shopifyData.id': productId }, { 'shopifyData.id': String(productId) } ] }] *)
Definition matches_product (productId : Z) (d : SyncedProduct) : bool :=
  bool_decide (shopifyGid d = Some (productGid_of productId))
  || bool_decide (shopifyData_id d = Some (IdNum productId))
  || bool_decide (shopifyData_id d = Some (IdStr (pretty productId))).

Definition matches_pid (pid : string) (d : SyncedProduct) : bool :=
  bool_decide (bunjangPid d = Some pid).

Definition SyncedProduct_findOne_byProduct (productId : Z) : prog L (option SyncedProduct) :=
  let* _ := invoke (DbFindOneByProduct productId) in
  let* w := get_world in
  ret (List.find (matches_product productId) (db w)).

Definition SyncedProduct_findOne_byPid (pid : string) : prog L (option SyncedProduct) :=
  let* _ := invoke (DbFindOneByPid pid) in
  let* w := get_world in
  ret (List.find (matches_pid pid) (db w)).

(** [find({ syncStatus: 'SYNCED', bunjangPid: { $exists: true } }).limit(n)] *)
Definition is_synced_with_pid (d : SyncedProduct) : bool :=
  bool_decide (syncStatus d = Some SYNCED) && bool_decide (bunjangPid d <> None).

Definition SyncedProduct_find_synced (limit : nat) : prog L (list SyncedProduct) :=
  let* _ := invoke (DbFindSynced limit) in
  let* w := get_world in
  ret (take limit (List.filter is_synced_with_pid (db w))).

(** What the schema makes of a document given to [create]
    (src/models/syncedProduct.model.js): it is strict, so the paths it does
    not declare ([shopifyData], [lastSyncedAt], [lastInventorySyncAt]) are
    dropped; the strings declared with [trim: true] are trimmed; a missing
    [syncStatus] is PENDING. *)
Definition schema_cast (doc : SyncedProduct) : SyncedProduct :=
  mkSyncedProduct (trim <$> shopifyGid doc) None None None
    (trim <$> bunjangPid doc) (trim <$> bunjangProductName doc)
    (Some (default PENDING (syncStatus doc))) None (bunjangQuantity doc) None.

(** [bunjangPid] is required: a missing or empty one fails the validation. *)
Definition has_required (d : SyncedProduct) : bool :=
  match bunjangPid d with
  | Some pid => truthy_string pid
  | None => false
  end.

(** The unique indexes: [bunjangPid], and [shopifyGid] where it is present
    (the index is sparse). *)
Definition same_key (d d' : SyncedProduct) : bool :=
  bool_decide (bunjangPid d' = bunjangPid d)
  || match shopifyGid d with
     | Some gid => bool_decide (shopifyGid d' = Some gid)
     | None => false
     end.

Definition requiredError : jsError :=
  JsError "ValidationError"
    "SyncedProduct validation failed: bunjangPid: Path `bunjangPid` is required.".

Definition duplicateKeyError : jsError :=
  JsError "MongoServerError" "E11000 duplicate key error collection".

(** [SyncedProduct.create(doc)]: the document is cast and validated before
    the store is asked; the store refuses a document whose key is taken. *)
Definition SyncedProduct_create (doc : SyncedProduct) : prog L SyncedProduct :=
  let stored := schema_cast doc in
  if has_required stored then
    let* _ := invoke (DbCreate doc) in
    let* w := get_world in
    if existsb (same_key stored) (db w) then throw duplicateKeyError
    else set_world (set_db (fun l => (l ++ [stored])%list)) >>> ret stored
  else throw requiredError.

Definition set_inventory_fields (qty : Z) (at_ms : Z) (d : SyncedProduct) : SyncedProduct :=
  mkSyncedProduct (shopifyGid d) (shopifyData_id d) (shopifyData_title d) (shopifyData_handle d)
    (bunjangPid d) (bunjangProductName d) (syncStatus d) (lastSyncedAt d)
    (Some qty) (Some at_ms).

(** [updateOne] changes the first document that matches. *)
Fixpoint update_first (p : SyncedProduct -> bool) (f : SyncedProduct -> SyncedProduct)
    (l : list SyncedProduct) : list SyncedProduct :=
  match l with
  | [] => []
  | d :: rest => if p d then f d :: rest else d :: update_first p f rest
  end.

Definition SyncedProduct_updateOne_inventory (pid : string) (qty : Z) (at_ms : Z) : prog L unit :=
  let* _ := invoke (DbUpdateOne pid qty) in
  set_world (set_db (update_first (matches_pid pid) (set_inventory_fields qty at_ms))).

Definition SyncedProduct_deleteOne (productGid : string) : prog L unit :=
  let* _ := invoke (DbDeleteOne productGid) in
  set_world (set_db (fun l =>
    match list_find (fun d => shopifyGid d = Some productGid) l with
    | Some (i, _) => delete i l
    | None => l
    end)).

End Gateways.

(** ** src/services/orderService.js *)

(** The two variables [processShopifyOrderForBunjang] assigns in its loop. *)
Record orderLocals := mkOrderLocals {
  bunjangOrderSuccessfullyCreatedOverall : bool;
  createdBunjangOrderIds : list string
}.

Record orderResult := mkOrderResult {
  success : bool;
  alreadyProcessed : option bool;
  bunjangOrderIds : option json;
  message : option string
}.

Definition JSON_parse {L} (t : metaText) : prog L json :=
  match t with
  | JsonText doc => ret doc
  | _ => throw (JsError "SyntaxError" "Unexpected token in JSON")
  end.

(** Lines 23-25: the id, the global id and the non-empty array of line
    items of an order that passes the check. *)
Definition validated (o : shopifyOrder) : option (Z * string * list lineItem) :=
  match order_id o, admin_graphql_api_id o, line_items o with
  | Some id, Some gid, Some (item :: items) =>
      if truthy_num id && truthy_string gid then Some (id, gid, item :: items) else None
  | _, _, _ => None
  end.

(** Line 27 *)
Definition bunjangOrderIdentifier (shopifyOrderId : Z) : string :=
  or_string (orderIdentifierPrefix cfg) "BunjangOrder-" +:+ pretty shopifyOrderId.

(** Lines 31-40: the result to return when the order was processed before. *)
Definition checkAlreadyProcessed {L} (shopifyOrderGid : string) : prog L (option orderResult) :=
  try_catch
    (let* existingMetafield := getOrderMetafield shopifyOrderGid "bunjang" "order_ids" in
     match existingMetafield with
     | Some value =>
         if truthy_text value then
           logger LInfo "Bunjang order already exists for Shopify Order. Skipping."
           >>> let* ids := JSON_parse value in
           ret (Some (mkOrderResult true (Some true) (Some ids) None))
         else ret None
     | None => ret None
     end)
    (fun error =>
       logger LWarn "Could not check existing order metadata" >>> ret None).

(** Lines 55-101: linking from the [bunjang_pid:] tag of the product. *)
Definition autoLinkFromTags {L} (productId : Z) : prog L (option SyncedProduct) :=
  try_catch
    (let productGid := productGid_of productId in
     let* product := queryProductTags productGid in
     match product with
     | Some product =>
         match List.find (String.prefix "bunjang_pid:") (p_tags product) with
         | Some bunjangPidTag =>
             match nth_error (split_on ":" bunjangPidTag) 1 with
             | Some part =>
                 let bunjangPid := trim part in
                 let* at_ms := new_Date in
                 let* created := SyncedProduct_create
                   (mkSyncedProduct (Some (p_id product)) (Some (IdNum productId))
                      (Some (p_title product)) (Some (p_handle product))
                      (Some bunjangPid) (Some (p_title product)) (Some SYNCED)
                      (Some at_ms) None None) in
                 logger LInfo "Auto-synced product from tags" >>> ret (Some created)
             | None => throw (JsError "TypeError" "Cannot read properties of undefined")
             end
         | None => ret None
         end
     | None => ret None
     end)
    (fun error => logger LError "Error fetching product tags" >>> ret None).

(** Lines 46-56 *)
Definition resolveLineItem {L} (item : lineItem) : prog L (option SyncedProduct) :=
  let productId := product_id item in
  let* syncedProduct := SyncedProduct_findOne_byProduct productId in
  match syncedProduct with
  | Some d => ret (Some d)
  | None =>
      logger LInfo "Product not in DB, checking Shopify tags"
      >>> autoLinkFromTags productId
  end.

(** Lines 183-206: the class of a failure of the order creation. *)
Inductive errorClass := NotAvailable | PriceChanged | InsufficientPoints | CreateFail.

Definition class_name (c : errorClass) : string :=
  match c with
  | NotAvailable => "NotAvailable"
  | PriceChanged => "PriceChanged"
  | InsufficientPoints => "InsufficientPoints"
  | CreateFail => "CreateFail"
  end.

(** The [switch] of lines 192-205. *)
Definition classify_errorCode (errorCode : string) : errorClass :=
  if String.eqb errorCode "PRODUCT_NOT_FOUND" then NotAvailable
  else if String.eqb errorCode "PRODUCT_SOLD_OUT" then NotAvailable
  else if String.eqb errorCode "PRODUCT_ON_HOLD" then NotAvailable
  else if String.eqb errorCode "INVALID_PRODUCT_PRICE" then PriceChanged
  else if String.eqb errorCode "POINT_SHORTAGE" then InsufficientPoints
  else CreateFail.

Definition classify (apiError : jsError) : errorClass :=
  match originalErrorCode apiError with
  | Some errorCode => if truthy_string errorCode then classify_errorCode errorCode else CreateFail
  | None => CreateFail
  end.

Definition errorTag (bunjangPid : string) (c : errorClass) : string :=
  "PID-" +:+ bunjangPid +:+ "-" +:+ class_name c.

Definition errorMarker (identifier : string) : string := identifier +:+ "_Error".

(** Lines 183-210: the [catch (apiError)] block. *)
Definition onCreateError {L} (identifier shopifyOrderGid bunjangPid : string)
    (apiError : jsError) : prog L unit :=
  let c := classify apiError in
  (match c with
   | InsufficientPoints => logger LError "CRITICAL: Insufficient Bunjang points"
   | _ => ret tt
   end)
  >>> logger LError "Failed to create Bunjang order"
  >>> updateOrder shopifyOrderGid [errorMarker identifier; errorTag bunjangPid c] [].

(** [pointBalance.balance < LOW_BALANCE_THRESHOLD]: [null] compares as 0, and
    a missing balance compares as NaN, which is below nothing. *)
Definition below (x : jsNumber) (limit : Z) : bool :=
  match x with
  | Num n => n <? limit
  | NumNull => 0 <? limit
  | NumMissing => false
  end.

(** Lines 161-178 *)
Definition checkPointBalance {L} (shopifyOrderGid : string) : prog L unit :=
  try_catch
    (let* pointBalance := getBunjangPointBalance in
     match pointBalance with
     | Some pb =>
         logger LInfo "Current Bunjang point balance"
         >>> let LOW_BALANCE_THRESHOLD := or_num (lowBalanceThreshold cfg) 1000000 in
         if below (balance pb) LOW_BALANCE_THRESHOLD then
           logger LWarn "LOW POINT BALANCE WARNING"
           >>> updateOrder shopifyOrderGid ["LowPointBalance"] []
         else ret tt
     | None => ret tt
     end)
    (fun balanceError => logger LWarn "Failed to check point balance").

(** [bunjangApiResponse && bunjangApiResponse.id] *)
Definition response_id (r : option bunjangApiResponse) : option jsId :=
  match r with
  | Some r =>
      match resp_id r with
      | Some i => if truthy_id i then Some i else None
      | None => None
      end
  | None => None
  end.

Definition push_created (id : string) (l : orderLocals) : orderLocals :=
  mkOrderLocals (bunjangOrderSuccessfullyCreatedOverall l) (createdBunjangOrderIds l ++ [id]).

Definition set_overall (b : bool) (l : orderLocals) : orderLocals :=
  mkOrderLocals b (createdBunjangOrderIds l).

(** Lines 147-210: the call that creates the order, and what follows it. *)
Definition submitOrder (identifier shopifyOrderGid bunjangPid : string)
    (payload : bunjangOrderPayload) : prog orderLocals unit :=
  try_catch
    (let* bunjangApiResponse := createBunjangOrderV2 payload in
     match response_id bunjangApiResponse with
     | Some bunjangOrderId =>
         logger LInfo "Successfully created Bunjang order"
         >>> set_local (push_created (String_of_id bunjangOrderId))
         >>> set_local (set_overall true)
         >>> updateOrder shopifyOrderGid ["BunjangOrder-" +:+ String_of_id bunjangOrderId] []
         >>> checkPointBalance shopifyOrderGid
     | None =>
         logger LError "Bunjang order creation response missing order ID"
         >>> updateOrder shopifyOrderGid
               [errorMarker identifier; "PID-" +:+ bunjangPid +:+ "-NoOrderId"] []
     end)
    (onCreateError identifier shopifyOrderGid bunjangPid).

(** Lines 111-215: the [try] of a linked line item. *)
Definition placeOrder (identifier shopifyOrderGid bunjangPid : string) (item : lineItem)
    : prog orderLocals unit :=
  try_catch
    (let* details := getBunjangProductDetails bunjangPid in
     match details with
     | None =>
         logger LWarn "Could not fetch details for Bunjang product"
         >>> updateOrder shopifyOrderGid
               [errorMarker identifier; "PID-" +:+ bunjangPid +:+ "-NotFound"] []
     | Some details =>
         let availableQuantity := or_num (d_quantity details) 0 in
         if availableQuantity <? quantity item then
           logger LWarn "Insufficient stock"
           >>> updateOrder shopifyOrderGid
                 [errorMarker identifier; "PID-" +:+ bunjangPid +:+ "-InsufficientStock"] []
         else
           let payload := mkPayload bunjangPid (or_num (d_price details) 0) 0 in
           logger LInfo "Creating Bunjang order"
           >>> submitOrder identifier shopifyOrderGid bunjangPid payload
     end)
    (fun error =>
       logger LError "Error processing Bunjang order"
       >>> updateOrder shopifyOrderGid
             [errorMarker identifier; "PID-" +:+ bunjangPid +:+ "-Exception"] []).

(** [!syncedProduct || !syncedProduct.bunjangPid] is false *)
Definition linked_pid (syncedProduct : option SyncedProduct) : option string :=
  match syncedProduct with
  | Some d =>
      match bunjangPid d with
      | Some pid => if truthy_string pid then Some pid else None
      | None => None
      end
  | None => None
  end.

(** Lines 43-216: the body of the loop over the line items. *)
Definition processLineItem (identifier shopifyOrderGid : string) (item : lineItem)
    : prog orderLocals unit :=
  let* syncedProduct := resolveLineItem item in
  match linked_pid syncedProduct with
  | None => logger LDebug "Shopify product is not linked to Bunjang. Skipping."
  | Some bunjangPid =>
      logger LInfo "Found Bunjang-linked item"
      >>> placeOrder identifier shopifyOrderGid bunjangPid item
  end.

Definition failureMessage : string := "번개장터 주문 생성 실패".

(** Lines 218-248 *)
Definition finishOrder (identifier shopifyOrderGid : string) : prog orderLocals orderResult :=
  let* l := get_local in
  (match createdBunjangOrderIds l with
   | [] => ret tt
   | _ =>
       let* at_ms := new_Date in
       updateOrder shopifyOrderGid ["BunjangOrderPlaced"; identifier]
         [mkMetafield "bunjang" "order_ids"
            (JSON_stringify_strings (createdBunjangOrderIds l)) "json";
          mkMetafield "bunjang" "order_created_at" (IsoDateText at_ms) "date_time"]
   end)
  >>> let* l := get_local in
  if bunjangOrderSuccessfullyCreatedOverall l then
    logger LInfo "Bunjang order(s) successfully created"
    >>> ret (mkOrderResult true None
               (Some (JArr (map JStr (createdBunjangOrderIds l)))) None)
  else
    logger LWarn "No Bunjang orders created"
    >>> ret (mkOrderResult false None None (Some failureMessage)).

Definition invalidOrderError : jsError :=
  ValidationError "유효하지 않은 Shopify 주문 데이터입니다. (ID 또는 line_items 누락)"
    [("shopifyOrder", FieldText "Order data invalid or missing line items.")].

(** Lines 17-249 *)
Definition processShopifyOrderForBunjang {L} (shopifyOrder : shopifyOrder) : prog L orderResult :=
  scoped (mkOrderLocals false [])
    (logger LInfo "Processing Shopify Order for Bunjang"
     >>> match validated shopifyOrder with
         | None => throw invalidOrderError
         | Some (shopifyOrderId, shopifyOrderGid, items) =>
             let identifier := bunjangOrderIdentifier shopifyOrderId in
             let* existing := checkAlreadyProcessed shopifyOrderGid in
             match existing with
             | Some result => ret result
             | None =>
                 for_of items (processLineItem identifier shopifyOrderGid)
                 >>> finishOrder identifier shopifyOrderGid
             end
         end).

(** *** Status sync *)

(** The argument of [new Date(x)]: an instant, or a value that is no date. *)
Inductive jsDate :=
| DateMs (ms : Z)
| InvalidDate.

(** [new Date(x).toISOString()]; the ISO text is given by its instant. *)
Definition toISOString {L} (d : jsDate) : prog L Z :=
  match d with
  | DateMs ms => ret ms
  | InvalidDate => throw (JsError "RangeError" "Invalid time value")
  end.

(** Line 266: [(new Date(endDateUTC) - new Date(startDateUTC)) / (1000 * 60 * 60 * 24)].
    The quotient is kept exact. The code compares its double with 15; the
    two dates are whole milliseconds, so the quotient is 15 or is at least
    1/86400000 away from it, far more than the rounding of a double near 15,
    and the comparison of the doubles is the comparison of the quotients. *)
Definition diffDays_of (startDateUTC endDateUTC : Z) : Q :=
  (inject_Z (endDateUTC - startDateUTC) / inject_Z (1000 * 60 * 60 * 24))%Q.

Definition Qgt_bool (x y : Q) : bool := negb (Qle_bool x y).

Definition dateRangeError (diffDays : Q) : jsError :=
  ValidationError "번개장터 주문 조회는 최대 15일 범위만 가능합니다."
    [("dateRange", RequestedRange diffDays)].

(** Lines 426-459: the stub only logs. *)
Definition updateShopifyFulfillmentStatus {L} (shopifyOrderGid bunjangStatus : string)
    (orderItem : bunjangOrderItem) : prog L unit :=
  logger LInfo "TODO: Update Shopify fulfillment".

Definition status_in (status : string) (l : list string) : bool :=
  existsb (String.eqb status) l.

(** Lines 355-416: one item of a remote order. *)
Definition syncOrderItemStatus {L} (shopifyOrderGid : string) (bunjangOrderId : jsId)
    (orderItem : bunjangOrderItem) : prog L unit :=
  let status := oi_status orderItem in
  logger LInfo "Bunjang order item status"
  >>> (if status_in status ["SHIP_READY"; "IN_TRANSIT"; "DELIVERY_COMPLETED"] then
         updateShopifyFulfillmentStatus shopifyOrderGid status orderItem
       else if String.eqb status "PURCHASE_CONFIRM" then
         let* at_ms := new_Date in
         updateOrder shopifyOrderGid []
           [mkMetafield "bunjang" "purchase_confirmed" (JsonText (JBool true))
              "single_line_text_field";
            mkMetafield "bunjang" "purchase_confirmed_at"
              (match oi_purchaseConfirmedAt orderItem with
               | Some s => if truthy_string s then PlainText s else IsoDateText at_ms
               | None => IsoDateText at_ms
               end) "date_time"]
       else if status_in status
                 ["CANCEL_REQUESTED_BEFORE_SHIPPING"; "REFUNDED"; "RETURN_REQUESTED"; "RETURNED"] then
         updateOrder shopifyOrderGid
           ["BunjangStatus-" +:+ status;
            "BunjangOrder-" +:+ String_of_id bunjangOrderId +:+ "-" +:+ status] []
       else ret tt)
  >>> let* at_ms := new_Date in
  updateOrder shopifyOrderGid []
    [mkMetafield "bunjang" "last_status_sync" (IsoDateText at_ms) "date_time";
     mkMetafield "bunjang" "last_bunjang_status" (PlainText status) "single_line_text_field"].

(** Lines 317-417 *)
Definition updateShopifyOrderFromBunjangStatus {L} (bunjangOrder : bunjangOrder) : prog L unit :=
  let bunjangOrderId := bo_id bunjangOrder in
  let searchQuery := "tag:" +:+ dquote +:+ "BunjangOrder-" +:+ String_of_id bunjangOrderId +:+ dquote in
  let* edges := findOrderByTag searchQuery in
  match edges with
  | [] => logger LWarn "No Shopify order found for Bunjang order"
  | shopifyOrderGid :: _ =>
      for_of (bo_orderItems bunjangOrder) (syncOrderItemStatus shopifyOrderGid bunjangOrderId)
  end.

Record statusSyncResult := mkStatusSyncResult {
  sync_success : bool;
  syncedOrders : Z;
  errors : Z
}.

(** Lines 289-297: the orders of one page; the two counters are returned. *)
Fixpoint syncOrdersOfPage {L} (orders : list bunjangOrder) (syncedCount errorCount : Z)
    : prog L (Z * Z) :=
  match orders with
  | [] => ret (syncedCount, errorCount)
  | order :: rest =>
      let* counts :=
        try_catch
          (updateShopifyOrderFromBunjangStatus order >>> ret (syncedCount + 1, errorCount))
          (fun error => logger LError "Failed to sync order" >>> ret (syncedCount, errorCount + 1)) in
      syncOrdersOfPage rest (fst counts) (snd counts)
  end.

(** [page < (ordersResponse.totalPages - 1)]; false when [totalPages] is missing. *)
Definition has_more (page : Z) (totalPages : option Z) : bool :=
  match totalPages with
  | Some t => page <? t - 1
  | None => false
  end.

(** Lines 279-301: the [while (hasMore)] loop. It runs as long as the
    marketplace announces more pages; [fuel] bounds the number of pages
    read, and [None] is returned when it is used up. *)
Fixpoint syncPages {L} (fuel : nat) (startDateUTC endDateUTC page syncedCount errorCount : Z)
    : prog L (option (Z * Z)) :=
  match fuel with
  | O => ret None
  | S fuel' =>
      let* ordersResponse := getBunjangOrders startDateUTC endDateUTC page 100 in
      match ordersResponse with
      | Some (mkOrdersResponse (Some data) totalPages) =>
          let* counts := syncOrdersOfPage data syncedCount errorCount in
          if has_more page totalPages then
            syncPages fuel' startDateUTC endDateUTC (page + 1) (fst counts) (snd counts)
          else ret (Some counts)
      | _ => ret (Some (syncedCount, errorCount))
      end
  end.

(** Lines 258-310 *)
Definition syncBunjangOrderStatuses {L} (fuel : nat) (startDate endDate : jsDate)
    : prog L (option statusSyncResult) :=
  logger LInfo "Starting Bunjang order status sync"
  >>> let* startDateUTC := toISOString startDate in
  let* endDateUTC := toISOString endDate in
  let diffDays := diffDays_of startDateUTC endDateUTC in
  if Qgt_bool diffDays 15 then throw (dateRangeError diffDays)
  else
    try_catch
      (let* counts := syncPages fuel startDateUTC endDateUTC 0 0 0 in
       match counts with
       | Some (syncedCount, errorCount) =>
           logger LInfo "Order status sync completed"
           >>> ret (Some (mkStatusSyncResult true syncedCount errorCount))
       | None => ret None
       end)
      (fun error => logger LError "Order status sync failed" >>> throw error).

(** ** src/services/inventoryService.js *)

Definition BUNJANG_WAREHOUSE_GID : string := "gid://shopify/Location/82604261625".

(** [!syncedProduct || !syncedProduct.shopifyGid] is false *)
Definition linked_gid (syncedProduct : option SyncedProduct) : option string :=
  match syncedProduct with
  | Some d =>
      match shopifyGid d with
      | Some gid => if truthy_string gid then Some gid else None
      | None => None
      end
  | None => None
  end.

(** Lines 84-86: one log line per inventory level. *)
Definition logInventoryLevels {L} (levels : list inventoryLevel) : prog L unit :=
  for_of levels (fun edge => logger LInfo "inventory level").

(** Lines 172-190: the loop of the final verification; it returns
    [bunjangWarehouseCorrect]. *)
Fixpoint verifyLevels {L} (inventoryItemId : string) (normalizedQuantity : Z)
    (finalLevels : list inventoryLevel) (bunjangWarehouseCorrect : bool) : prog L bool :=
  match finalLevels with
  | [] => ret bunjangWarehouseCorrect
  | level :: rest =>
      let locationId := level_location_id level in
      let available := level_available level in
      if String.eqb locationId BUNJANG_WAREHOUSE_GID then
        let correct := available =? normalizedQuantity in
        logger LInfo "warehouse level"
        >>> (if correct then ret tt
             else
               logger LWarn "Inventory not set correctly! Forcing to 1..."
               >>> updateInventoryLevel inventoryItemId BUNJANG_WAREHOUSE_GID 1
               >>> logger LInfo "Inventory forced to 1 at BunJang Warehouse")
        >>> verifyLevels inventoryItemId normalizedQuantity rest correct
      else
        logger LInfo "other location"
        >>> verifyLevels inventoryItemId normalizedQuantity rest bunjangWarehouseCorrect
  end.

(** Lines 22-215. The second parameter is the one of the source. *)
Definition syncBunjangInventoryToShopify {L} (bunjangPid : string) (bunjangQuantity : Z)
    : prog L bool :=
  try_catch
    (logger LInfo "Syncing inventory for Bunjang PID: Always setting to 1 unit"
     >>> let* syncedProduct := SyncedProduct_findOne_byPid bunjangPid in
     match linked_gid syncedProduct with
     | None => logger LWarn "No Shopify product found for Bunjang PID" >>> ret false
     | Some gid =>
         let normalizedQuantity := 1 in
         let* response := queryProductVariants gid in
         match response with
         | None => logger LError "Failed to fetch Shopify product variants" >>> ret false
         | Some variant =>
             let inventoryItemId := v_inventoryItem_id variant in
             let inventoryLevels := v_inventoryLevels variant in
             logger LInfo "Current inventory levels"
             >>> logInventoryLevels inventoryLevels
             >>> (if v_tracked variant then ret tt
                  else
                    logger LInfo "Enabling inventory tracking for variant"
                    >>> enableInventoryTracking inventoryItemId
                    >>> sleep 1000)
             >>> logger LInfo "Activating inventory at BunJang Warehouse..."
             >>> activateInventoryAtLocation inventoryItemId BUNJANG_WAREHOUSE_GID
             >>> sleep 1500
             >>> logger LInfo "Setting inventory to 1 ONLY at BunJang Warehouse..."
             >>> let* userErrors :=
                   inventorySetOnHandQuantities "correction" inventoryItemId
                     BUNJANG_WAREHOUSE_GID normalizedQuantity in
             match userErrors with
             | _ :: _ =>
                 logger LError "Failed to set inventory quantities"
                 >>> throw (JsError "Error" "Failed to set inventory")
             | [] =>
                 logger LInfo "Successfully updated inventory"
                 >>> sleep 1000
                 >>> let* finalLevels := queryInventoryLevels inventoryItemId in
                 logger LInfo "Final inventory verification"
                 >>> let* bunjangWarehouseCorrect :=
                       verifyLevels inventoryItemId normalizedQuantity finalLevels false in
                 (if (bunjangWarehouseCorrect : bool) then
                    logger LInfo "Inventory correctly set to 1"
                  else logger LError "Inventory verification failed")
                 >>> let* at_ms := new_Date in
                 SyncedProduct_updateOne_inventory bunjangPid normalizedQuantity at_ms
                 >>> ret true
             end
         end
     end)
    (fun error => logger LError "Failed to sync inventory" >>> throw error).

Record batchDetail := mkBatchDetail {
  bd_pid : string;
  bd_success : bool;
  bd_quantity : option Z;
  bd_error : option jsError
}.

Record batchResults := mkBatchResults {
  batch_success : Z;
  batch_failed : Z;
  batch_deleted : Z;
  batch_details : list batchDetail
}.

Definition batch_add (ok : bool) (d : batchDetail) (r : batchResults) : batchResults :=
  mkBatchResults (if ok then batch_success r + 1 else batch_success r)
    (if ok then batch_failed r else batch_failed r + 1)
    (batch_deleted r) (batch_details r ++ [d]).

(** Lines 221-260; an update is given by its [pid]. *)
Definition batchSyncInventory {L} (inventoryUpdates : list string) : prog L batchResults :=
  scoped (mkBatchResults 0 0 0 [])
    (for_of inventoryUpdates (fun pid =>
       try_catch
         (let* result := syncBunjangInventoryToShopify pid 1 in
          if (result : bool) then set_local (batch_add true (mkBatchDetail pid true (Some 1) None))
          else set_local (batch_add false (mkBatchDetail pid false (Some 1) None)))
         (fun error => set_local (batch_add false (mkBatchDetail pid false None (Some error)))))
     >>> logger LInfo "Batch inventory sync completed"
     >>> get_local).

(** Lines 268-287 *)
Definition checkAndSyncBunjangInventory {L} (bunjangPid : string) : prog L Z :=
  try_catch
    (let* productDetails := getBunjangProductDetails bunjangPid in
     match productDetails with
     | None => logger LWarn "Could not fetch Bunjang product details" >>> ret (-1)
     | Some _ => syncBunjangInventoryToShopify bunjangPid 1 >>> ret 1
     end)
    (fun error => logger LError "Failed to check and sync inventory" >>> throw error).

Record fullSyncResults := mkFullSyncResults {
  totalProducts : nat;
  synced : Z;
  failed : Z;
  skipped : Z;
  deleted : Z;
  outOfStock : list string
}.

Definition set_totalProducts (n : nat) (r : fullSyncResults) : fullSyncResults :=
  mkFullSyncResults n (synced r) (failed r) (skipped r) (deleted r) (outOfStock r).

Definition incr_synced (r : fullSyncResults) : fullSyncResults :=
  mkFullSyncResults (totalProducts r) (synced r + 1) (failed r) (skipped r) (deleted r) (outOfStock r).

Definition incr_failed (r : fullSyncResults) : fullSyncResults :=
  mkFullSyncResults (totalProducts r) (synced r) (failed r + 1) (skipped r) (deleted r) (outOfStock r).

Definition incr_skipped (r : fullSyncResults) : fullSyncResults :=
  mkFullSyncResults (totalProducts r) (synced r) (failed r) (skipped r + 1) (deleted r) (outOfStock r).

(** Lines 352-371: the body of the loop of the full sync. *)
Definition fullSyncItem (product : SyncedProduct) : prog fullSyncResults unit :=
  try_catch
    (let* success := syncBunjangInventoryToShopify (default "" (bunjangPid product)) 1 in
     if (success : bool) then set_local incr_synced else set_local incr_skipped)
    (fun error =>
       set_local incr_failed >>> logger LError "Failed to sync inventory for PID")
  >>> let* results := get_local in
  if synced results mod 2 =? 0 then sleep 1000 else ret tt.

(** Lines 329-387 *)
Definition performFullInventorySync {L} : prog L fullSyncResults :=
  scoped (mkFullSyncResults 0 0 0 0 0 [])
    (logger LInfo "Starting full inventory sync"
     >>> try_catch
           (let* syncedProducts := SyncedProduct_find_synced 1000 in
            set_local (set_totalProducts (length syncedProducts))
            >>> for_of syncedProducts fullSyncItem
            >>> logger LInfo "Full inventory sync completed"
            >>> get_local)
           (fun error => logger LError "Full inventory sync failed" >>> throw error)).

(** Lines 396-409 *)
Definition deleteProductIfOutOfStock {L} (bunjangPid : string) (shopifyGid : option string)
    : prog L bool :=
  try_catch
    (logger LInfo "Product deletion skipped. Bunjang single-stock items should always have inventory 1."
     >>> syncBunjangInventoryToShopify bunjangPid 1
     >>> ret false)
    (fun error => logger LError "Failed to handle out-of-stock product" >>> throw error).

(** Lines 418-433 *)
Definition processOrderInventoryUpdate {L} (bunjangPid : string) (orderedQuantity : Z)
    : prog L bool :=
  try_catch
    (logger LInfo "Processing order, maintaining inventory at 1"
     >>> syncBunjangInventoryToShopify bunjangPid 1
     >>> logger LInfo "Inventory maintained at 1 after order"
     >>> ret true)
    (fun error => logger LError "Failed to process order inventory update" >>> throw error).

(** ** src/routes/webhook.routes.js *)

(** [order.line_items || []] *)
Definition items_of (order : shopifyOrder) : list lineItem :=
  default [] (line_items order).

(** Lines 181-240 of the file (73-132 of the router): the inventory of one
    line item of a created order. The line item is an object, so the read
    of [lineItem.id] in the [catch] block does not throw; for a [null] line
    item see [orderCreatedPayloadItem]. *)
Definition orderCreatedLineItem {L} (lineItem : lineItem) : prog L unit :=
  try_catch
    (let productId := product_id lineItem in
     logger LDebug "Processing line item"
     >>> let* syncedProduct := SyncedProduct_findOne_byProduct productId in
     match linked_pid syncedProduct with
     | Some pid =>
         logger LInfo "Found Bunjang product"
         >>> let* currentStock := checkAndSyncBunjangInventory pid in
         if 0 <=? currentStock then
           let newStock := Z.max 0 (currentStock - quantity lineItem) in
           if newStock =? 0 then
             logger LInfo "Product out of stock, deleting product"
             >>> try_catch
                   (deleteProductIfOutOfStock pid (syncedProduct ≫= shopifyGid)
                    >>> logger LInfo "Successfully deleted out-of-stock product")
                   (fun deleteError => logger LError "Failed to delete product")
           else
             syncBunjangInventoryToShopify pid newStock
             >>> logger LInfo "Inventory updated"
         else ret tt
     | None => logger LWarn "No Bunjang product found for Shopify product"
     end)
    (fun itemError => logger LError "Failed to process line item").

(** [router.post('/orders/create')]; the result is the status of the reply. *)
Definition ordersCreate {L} (order : shopifyOrder) : prog L Z :=
  try_catch
    (logger LInfo "Order created"
     >>> try_catch
           (logger LInfo "Attempting to create Bunjang order"
            >>> let* bunjangOrderResult := processShopifyOrderForBunjang order in
            if success bunjangOrderResult then logger LInfo "Successfully created Bunjang order(s)"
            else logger LError "Failed to create Bunjang order")
           (fun orderError => logger LError "Error creating Bunjang order")
     >>> for_of (items_of order) orderCreatedLineItem
     >>> ret 200)
    (fun error => logger LError "Failed to process order creation" >>> ret 500).

(** The body of the loops of [/orders/updated] and [/orders/cancelled], on a
    line item that is an object; for a [null] line item see
    [restorePayloadItem]. *)
Definition restoreLineItem {L} (lineItem : lineItem) : prog L unit :=
  try_catch
    (let productId := product_id lineItem in
     let* syncedProduct := SyncedProduct_findOne_byProduct productId in
     match linked_pid syncedProduct with
     | Some pid =>
         let* currentStock := checkAndSyncBunjangInventory pid in
         let restoredStock := currentStock + quantity lineItem in
         syncBunjangInventoryToShopify pid restoredStock
         >>> logger LInfo "Inventory restored"
     | None => ret tt
     end)
    (fun itemError => logger LError "Failed to restore inventory for item").

(** [router.post('/orders/updated')] *)
Definition ordersUpdated {L} (order : shopifyOrder) : prog L Z :=
  try_catch
    (logger LInfo "Order updated"
     >>> (match cancelled_at order with
          | Some t =>
              if truthy_string t then
                logger LInfo "Order cancelled, restoring inventory"
                >>> for_of (items_of order) restoreLineItem
              else ret tt
          | None => ret tt
          end)
     >>> ret 200)
    (fun error => logger LError "Failed to process order update" >>> ret 500).

(** [router.post('/orders/cancelled')] *)
Definition ordersCancelled {L} (order : shopifyOrder) : prog L Z :=
  try_catch
    (logger LInfo "Order cancelled"
     >>> for_of (items_of order) restoreLineItem
     >>> ret 200)
    (fun error => logger LError "Failed to process order cancellation" >>> ret 500).

(** *** Payloads with [null] line items

    An element of [line_items] is an object or [null]. On [null] the first
    statement of the [try] of the loop, which reads [lineItem.product_id]
    (in [/orders/create], [lineItem.variant_id]), throws a TypeError; the
    [catch] block reads [lineItem.id] to build its message and throws in
    turn, before anything is logged, so the TypeError leaves the loop. *)
Definition is_object (lineItem : option lineItem) : bool :=
  match lineItem with
  | Some _ => true
  | None => false
  end.

Definition nullLineItemError : jsError :=
  JsError "TypeError" "Cannot read properties of null (reading 'id')".

Definition orderCreatedPayloadItem {L} (lineItem : option lineItem) : prog L unit :=
  match lineItem with
  | Some lineItem => orderCreatedLineItem lineItem
  | None => throw nullLineItemError
  end.

Definition restorePayloadItem {L} (lineItem : option lineItem) : prog L unit :=
  match lineItem with
  | Some lineItem => restoreLineItem lineItem
  | None => throw nullLineItemError
  end.

(** [router.post('/orders/create')] on such a payload. [placement] is the
    call [orderService.processShopifyOrderForBunjang(order, ...)] of line
    154 on this payload; the route only logs what it returns or throws. *)
Definition ordersCreateOn {L} (placement : prog L orderResult)
    (lineItems : list (option lineItem)) : prog L Z :=
  try_catch
    (logger LInfo "Order created"
     >>> try_catch
           (logger LInfo "Attempting to create Bunjang order"
            >>> let* bunjangOrderResult := placement in
            if success bunjangOrderResult then logger LInfo "Successfully created Bunjang order(s)"
            else logger LError "Failed to create Bunjang order")
           (fun orderError => logger LError "Error creating Bunjang order")
     >>> for_of lineItems orderCreatedPayloadItem
     >>> ret 200)
    (fun error => logger LError "Failed to process order creation" >>> ret 500).

(** [router.post('/orders/updated')] on such a payload. *)
Definition ordersUpdatedOn {L} (cancelledAt : option string)
    (lineItems : list (option lineItem)) : prog L Z :=
  try_catch
    (logger LInfo "Order updated"
     >>> (match cancelledAt with
          | Some t =>
              if truthy_string t then
                logger LInfo "Order cancelled, restoring inventory"
                >>> for_of lineItems restorePayloadItem
              else ret tt
          | None => ret tt
          end)
     >>> ret 200)
    (fun error => logger LError "Failed to process order update" >>> ret 500).

(** [router.post('/orders/cancelled')] on such a payload. *)
Definition ordersCancelledOn {L} (lineItems : list (option lineItem)) : prog L Z :=
  try_catch
    (logger LInfo "Order cancelled"
     >>> for_of lineItems restorePayloadItem
     >>> ret 200)
    (fun error => logger LError "Failed to process order cancellation" >>> ret 500).

(** [router.post('/products/delete')] *)
Definition productsDelete {L} (productId : Z) : prog L Z :=
  try_catch
    (logger LInfo "Product deleted"
     >>> SyncedProduct_deleteOne (productGid_of productId)
     >>> logger LInfo "Removed sync record for deleted product"
     >>> ret 200)
    (fun error => logger LError "Failed to process product deletion" >>> ret 500).

End Services.

Arguments invoke env {L} c.

(** ** The scheduler of the status sync (src/schedulers/orderSyncScheduler.js) *)

(** The data of a job, lines 37-41. *)
Record jobData := mkJobData {
  jd_startDate : jsDate;
  jd_endDate : jsDate;
  jd_scheduledAt : jsDate
}.

(** A job of the queue: its id, its name, its data and the delay it was
    added with. *)
Record job := mkJob {
  job_id : string;
  job_name : string;
  job_data : jobData;
  job_delay : Z
}.

(** What the scheduler depends on: the clock, by the number of readings
    made before; the error with which the queue refuses an addition, and the
    id it gives the job otherwise, by the number of additions asked before. *)
Record broker := mkBroker {
  clock : nat -> Z;
  refusal : nat -> option jsError;
  idOf : nat -> string
}.

(** The state of the scheduler: the jobs of [orderStatusSyncQueue] in the
    order of their addition, and the numbers of readings of the clock and of
    additions asked so far. *)
Record scheduler := mkScheduler {
  orderStatusSyncQueue : list job;
  readings : nat;
  additions : nat
}.

(** The options of [scheduleOrderStatusSync]; [None] is a missing property. *)
Record syncOptions := mkSyncOptions {
  opt_startDate : option jsDate;
  opt_endDate : option jsDate;
  opt_immediate : option bool
}.

(** The object [manualOrderSync] returns. *)
Record manualResult := mkManualResult {
  mr_success : bool;
  mr_jobId : option string;
  mr_message : option string;
  mr_error : option string
}.

(** [error.message] *)
Definition error_message (e : jsError) : string :=
  match e with
  | ValidationError message _ => message
  | RemoteApiError message _ _ => message
  | JsError _ message => message
  end.

(** [new Date(ms)]: an instant more than 8.64e15 ms away from the epoch is
    no date. *)
Definition Date_of_ms (ms : Z) : jsDate :=
  if Z.abs ms <=? 8640000000000000 then DateMs ms else InvalidDate.

(** Lines 44-45: [(endDate - startDate) / (1000 * 60 * 60 * 24) > 15]; the
    difference with a value that is no date is NaN, which is not above 15. *)
Definition exceeds_limit (startDate endDate : jsDate) : bool :=
  match startDate, endDate with
  | DateMs startMs, DateMs endMs => Qgt_bool (diffDays_of startMs endMs) 15
  | _, _ => false
  end.

Section SchedulerModel.

Context (q : broker).

(** [Date.now()] *)
Definition Date_now : prog scheduler Z :=
  let* s := get_local in
  set_local (fun s => mkScheduler (orderStatusSyncQueue s) (S (readings s)) (additions s))
  >>> ret (clock q (readings s)).

(** [await orderStatusSyncQueue.add(name, data, { delay })] *)
Definition queue_add (name : string) (data : jobData) (delay : Z) : prog scheduler job :=
  let* s := get_local in
  set_local (fun s => mkScheduler (orderStatusSyncQueue s) (readings s) (S (additions s)))
  >>> match refusal q (additions s) with
      | Some e => throw e
      | None =>
          let j := mkJob (idOf q (additions s)) name data delay in
          set_local (fun s => mkScheduler (orderStatusSyncQueue s ++ [j])%list
                                (readings s) (additions s))
          >>> ret j
      end.

(** Lines 33-78. [None] is the [null] returned for a range of more than
    15 days. *)
Definition scheduleOrderStatusSync (options : syncOptions) : prog scheduler (option job) :=
  try_catch
    (let immediate := default false (opt_immediate options) in
     let* startDate :=
       match opt_startDate options with
       | Some d => ret d
       | None => let* t := Date_now in ret (Date_of_ms (t - 24 * 60 * 60 * 1000))
       end in
     let* endDate :=
       match opt_endDate options with
       | Some d => ret d
       | None => let* t := Date_now in ret (DateMs t)
       end in
     let* scheduledAt := Date_now in
     let jobData := mkJobData startDate endDate (DateMs scheduledAt) in
     if exceeds_limit (jd_startDate jobData) (jd_endDate jobData) then
       logger LError "[OrderSyncScheduler] Date range exceeds 15 days limit"
       >>> ret None
     else
       let* job := queue_add "syncOrderStatuses" jobData (if immediate then 0 else 60000) in
       logger LInfo "[OrderSyncScheduler] Order status sync job scheduled"
       >>> ret (Some job))
    (fun error =>
       logger LError "[OrderSyncScheduler] Failed to schedule order status sync"
       >>> throw error).

(** Lines 87-97: the task of every full hour; its range is the last two
    hours. *)
Definition hourlySync : prog scheduler unit :=
  logger LInfo "[OrderSyncScheduler] Hourly order status sync triggered"
  >>> try_catch
        (let* t := Date_now in
         let startDate := Date_of_ms (t - 2 * 60 * 60 * 1000) in
         let* t' := Date_now in
         let* _ := scheduleOrderStatusSync
                     (mkSyncOptions (Some startDate) (Some (DateMs t')) (Some true)) in
         ret tt)
        (fun error => logger LError "[OrderSyncScheduler] Hourly sync scheduling failed").

(** Lines 143-165. The two texts are given by the dates [new Date] reads
    from them. Reading [job.id] of the [null] returned for a range of more
    than 15 days throws a TypeError, which the function catches as any other
    error. *)
Definition manualOrderSync (startDate endDate : jsDate) : prog scheduler manualResult :=
  logger LInfo "[OrderSyncScheduler] Manual order sync requested"
  >>> try_catch
        (let* job := scheduleOrderStatusSync
                       (mkSyncOptions (Some startDate) (Some endDate) (Some true)) in
         match job with
         | Some j =>
             ret (mkManualResult true (Some (job_id j))
                    (Some ("주문 동기화 작업이 예약되었습니다. Job ID: " +:+ job_id j)) None)
         | None =>
             throw (JsError "TypeError" "Cannot read properties of null (reading 'id')")
         end)
        (fun error =>
           logger LError "[OrderSyncScheduler] Manual sync failed"
           >>> ret (mkManualResult false None None (Some (error_message error)))).

End SchedulerModel.

(** * Scenarios *)

(** Collaborators that never fail and know nothing. *)
Definition silent : remote :=
  mkRemote (fun _ => None) (fun n => 1700000000000 + Z.of_nat n)
    (fun _ _ => None) (fun _ _ => None) (fun _ _ => []) (fun _ _ _ _ => [])
    (fun _ _ => []) (fun _ _ => None) (fun _ _ => None) (fun _ => None)
    (fun _ _ _ _ => None).

Definition defaults : config := mkConfig None None.

Definition emptyWorld : world := mkWorld [] ∅ ∅ ∅ [] [].

Definition mapping (productId : Z) (pid : string) : SyncedProduct :=
  mkSyncedProduct (Some (productGid_of productId)) (Some (IdNum productId)) None None
    (Some pid) None (Some SYNCED) None None None.

(** The pauses of the loop of the full sync among the calls. *)
Definition is_sleep (ms : Z) (c : call) : bool :=
  match c with
  | Sleep d => d =? ms
  | _ => false
  end.

Definition sleeps (ms : Z) (cs : list call) : nat := length (List.filter (is_sleep ms) cs).

(** Three linked mappings whose storefront products are gone: the variant
    query finds nothing and every sync is skipped. *)
Definition threeOrphans : world :=
  mkWorld [mapping 1 "101"; mapping 2 "102"; mapping 3 "103"] ∅ ∅ ∅ [] [].

(** A linked listing whose inventory item holds -3 units at the warehouse;
    the storefront reports an untracked variant and, at the final check, a
    stale level of 7. *)
Definition itemOf101 : string := "gid://shopify/InventoryItem/11".

Definition stocked : remote :=
  mkRemote (fun _ => None) (fun n => 1700000000000 + Z.of_nat n)
    (fun _ _ => None)
    (fun _ gid =>
       if String.eqb gid (productGid_of 1) then
         Some (mkVariant "gid://shopify/ProductVariant/10" itemOf101 false
                 [mkLevel BUNJANG_WAREHOUSE_GID "BunJang Warehouse" (-3)])
       else None)
    (fun _ _ => [mkLevel BUNJANG_WAREHOUSE_GID "BunJang Warehouse" 7])
    (fun _ _ _ _ => [])
    (fun _ _ => []) (fun _ _ => Some (mkDetails (Some 50000) (Some 1) (Some 3000)))
    (fun _ _ => None) (fun _ => None)
    (fun _ _ _ _ => None).

Definition oversold : world :=
  mkWorld [mapping 1 "101"] ∅ ∅ {[ (itemOf101, BUNJANG_WAREHOUSE_GID) := -3 ]} [] [].

(** A marketplace with five listings: 202 is gone, 204 has one unit left,
    the creation of an order for 205 answers without an id, the others sell.
    The id of a created order is 9000 plus the number of the call. *)
Definition listing (pid : string) : option bunjangProductDetails :=
  if String.eqb pid "202" then None
  else if String.eqb pid "204" then Some (mkDetails (Some 30000) (Some 1) (Some 3000))
  else Some (mkDetails (Some 50000) (Some 1) (Some 3000)).

Definition market (faults : nat -> option jsError) : remote :=
  mkRemote faults (fun n => 1700000000000 + Z.of_nat n)
    (fun _ _ => None) (fun _ _ => None) (fun _ _ => []) (fun _ _ _ _ => [])
    (fun _ _ => []) (fun _ pid => listing pid)
    (fun n payload =>
       if String.eqb (payload_product_id_parseInt payload) "205" then Some (mkApiResponse None)
       else Some (mkApiResponse (Some (IdNum (9000 + Z.of_nat n)))))
    (fun _ => Some (mkBalance (Num 5000000)))
    (fun _ _ _ _ => None).

Definition noFaults : nat -> option jsError := fun _ => None.

(** The creation of the order, call number 3 of a first run on one line
    item, is refused for lack of points. *)
Definition pointShortage : nat -> option jsError :=
  fun n =>
    if (n =? 3)%nat then
      Some (RemoteApiError "Request failed with status code 400" (Some "POINT_SHORTAGE")
              (Some "not enough points"))
    else None.

Definition shop : world :=
  mkWorld [mapping 1 "201"; mapping 2 "202"; mapping 3 "203"; mapping 4 "204"; mapping 5 "205"]
    ∅ ∅ ∅ [] [].

Definition orderGid (id : Z) : string := "gid://shopify/Order/" +:+ pretty id.

Definition orderOf (id : Z) (items : list (Z * Z)) : shopifyOrder :=
  mkShopifyOrder (Some id) (Some (orderGid id))
    (Some (map (fun pq => mkLineItem (fst pq) (fst pq) (fst pq) (snd pq)) items)) None.

Definition itemOf (productId qty : Z) : lineItem := mkLineItem productId productId productId qty.

Definition is_create (c : call) : bool :=
  match c with
  | CreateBunjangOrderV2 _ => true
  | _ => false
  end.

(** * Properties *)

(** ** Reasoning about programs *)

Section Programs.

Context {L : Type}.

Lemma bind_Normal {A B} (m : prog L A) (k : A -> prog L B) s a s' :
  m s = (Normal a, s') -> bind m k s = k a s'.
Proof. intros H. unfold bind. now rewrite H. Qed.

Lemma bind_Throw {A B} (m : prog L A) (k : A -> prog L B) s e s' :
  m s = (Throw e, s') -> bind m k s = (Throw e, s').
Proof. intros H. unfold bind. now rewrite H. Qed.

Lemma bind_inv {A B} (m : prog L A) (k : A -> prog L B) s b s2 :
  bind m k s = (Normal b, s2) ->
  exists a s1, m s = (Normal a, s1) /\ k a s1 = (Normal b, s2).
Proof.
  unfold bind. destruct (m s) as [[a|e] s1]; intros H.
  - now exists a, s1.
  - discriminate.
Qed.

Lemma try_catch_Normal {A} (m : prog L A) h s a s' :
  m s = (Normal a, s') -> try_catch m h s = (Normal a, s').
Proof. intros H. unfold try_catch. now rewrite H. Qed.

Lemma try_catch_Throw {A} (m : prog L A) h s e s' :
  m s = (Throw e, s') -> try_catch m h s = h e s'.
Proof. intros H. unfold try_catch. now rewrite H. Qed.

(** A property of the state that a program never breaks, whether it
    returns or throws. *)
Definition preserves {A} (I : L * world -> Prop) (m : prog L A) : Prop :=
  forall s, I s -> I (snd (m s)).

Variable I : L * world -> Prop.

Lemma preserves_ret {A} (a : A) : preserves I (ret a).
Proof. intros s H. exact H. Qed.

Lemma preserves_throw {A} e : preserves I (@throw L A e).
Proof. intros s H. exact H. Qed.

Lemma preserves_get_local : preserves I get_local.
Proof. intros s H. exact H. Qed.

Lemma preserves_get_world : preserves I get_world.
Proof. intros s H. exact H. Qed.

Lemma preserves_bind {A B} (m : prog L A) (k : A -> prog L B) :
  preserves I m -> (forall a, preserves I (k a)) -> preserves I (bind m k).
Proof.
  intros Hm Hk s H. unfold bind. specialize (Hm s H).
  destruct (m s) as [[a|e] s1]; simpl in *.
  - now apply Hk.
  - exact Hm.
Qed.

Lemma preserves_try_catch {A} (m : prog L A) h :
  preserves I m -> (forall e, preserves I (h e)) -> preserves I (try_catch m h).
Proof.
  intros Hm Hh s H. unfold try_catch. specialize (Hm s H).
  destruct (m s) as [[a|e] s1]; simpl in *.
  - exact Hm.
  - now apply Hh.
Qed.

Lemma preserves_for_of {X} (xs : list X) body :
  (forall x, preserves I (body x)) -> preserves I (for_of xs body).
Proof.
  intros Hb. induction xs as [|x xs IH]; simpl.
  - apply preserves_ret.
  - apply preserves_bind; [apply Hb | intros _; exact IH].
Qed.

Lemma preserves_set_world f :
  (forall l w, I (l, w) -> I (l, f w)) -> preserves I (set_world f).
Proof. intros Hf [l w] H. simpl. now apply Hf. Qed.

Lemma preserves_set_local f :
  (forall l w, I (l, w) -> I (f l, w)) -> preserves I (set_local f).
Proof. intros Hf [l w] H. simpl. now apply Hf. Qed.

Lemma preserves_invoke env c :
  (forall l w, I (l, w) -> I (l, record_call c w)) -> preserves I (invoke env c).
Proof.
  intros Hc [l w] H. unfold invoke. simpl.
  destruct (fault env (length (calls w))); simpl; now apply Hc.
Qed.

Lemma preserves_new_Date env : preserves I (new_Date env).
Proof. intros s H. exact H. Qed.

Lemma established_bind {A B} (m : prog L A) (k : A -> prog L B) s :
  I (snd (m s)) -> (forall a, preserves I (k a)) -> I (snd (bind m k s)).
Proof.
  intros Hm Hk. unfold bind. destruct (m s) as [[a|e] s1]; simpl in *.
  - now apply Hk.
  - exact Hm.
Qed.

Lemma established_try_catch {A} (m : prog L A) h s :
  I (snd (m s)) -> (forall e, preserves I (h e)) -> I (snd (try_catch m h s)).
Proof.
  intros Hm Hh. unfold try_catch. destruct (m s) as [[a|e] s1]; simpl in *.
  - exact Hm.
  - now apply Hh.
Qed.

Lemma try_catch_rethrow_inv {A} (m : prog L A) (h : jsError -> prog L unit) s a s' :
  try_catch m (fun e => bind (h e) (fun _ => throw e)) s = (Normal a, s') ->
  m s = (Normal a, s').
Proof.
  unfold try_catch. destruct (m s) as [[x|e] s1]; [easy|].
  unfold bind. destruct (h e s1) as [[?|?] ?]; discriminate.
Qed.

Lemma invoke_inv env c (s : L * world) n s1 :
  invoke env c s = (Normal n, s1) ->
  fault env (length (calls (snd s))) = None
  /\ n = length (calls (snd s))
  /\ s1 = (fst s, record_call c (snd s)).
Proof.
  unfold invoke. destruct (fault env _); intros H; [discriminate|].
  now inversion H.
Qed.

Lemma invoke_ok env c (l : L) w :
  fault env (length (calls w)) = None ->
  invoke env c (l, w) = (Normal (length (calls w)), (l, record_call c w)).
Proof. intros H. unfold invoke. simpl. now rewrite H. Qed.

Lemma invoke_fails env c (l : L) w e :
  fault env (length (calls w)) = Some e ->
  invoke env c (l, w) = (Throw e, (l, record_call c w)).
Proof. intros H. unfold invoke. simpl. now rewrite H. Qed.

End Programs.

Lemma logger_bind {L B} lvl msg (k : unit -> prog L B) l w :
  bind (logger lvl msg) k (l, w) = k tt (l, record_log lvl msg w).
Proof. reflexivity. Qed.

Lemma preserves_scoped {L L' A} (J : world -> Prop) (init : L') (m : prog L' A) :
  preserves (fun s => J (snd s)) m ->
  preserves (fun s : L * world => J (snd s)) (scoped init m).
Proof.
  intros Hm [l w] H. unfold scoped. simpl.
  specialize (Hm (init, w) H). destruct (m (init, w)) as [r s']. exact Hm.
Qed.

(** Two assignments in a row, none of which needs to keep the property alone. *)
Lemma preserves_set_local_twice {L B} (I : L * world -> Prop) f g (k : prog L B) :
  (forall l w, I (l, w) -> I (g (f l), w)) ->
  preserves I k ->
  preserves I (bind (set_local f) (fun _ => bind (set_local g) (fun _ => k))).
Proof.
  intros Hfg Hk [l w] H. unfold bind, set_local. cbn [fst snd].
  apply (Hk (g (f l), w)). now apply Hfg.
Qed.

(** Takes a program apart down to the calls and the assignments; [close]
    proves that each of them keeps the property. *)
Ltac preserves_with close :=
  repeat first
    [ assumption
    | match goal with
      | H : context [preserves] |- preserves _ _ => solve [apply H]
      end
    | apply preserves_ret
    | apply preserves_throw
    | apply preserves_get_local
    | apply preserves_get_world
    | apply preserves_new_Date
    | apply preserves_set_local_twice; [ solve [close] | ]
    | apply preserves_bind; [ | intros ? ]
    | apply preserves_try_catch; [ | intros ? ]
    | apply preserves_for_of; intros ?
    | apply preserves_set_world; solve [close]
    | apply preserves_set_local; solve [close]
    | apply preserves_invoke; solve [close]
    | match goal with
      | |- preserves _ (match ?x with _ => _ end) => destruct x
      end
    | progress cbv zeta ].

(** What a function did to the stores and which calls it issued; the log
    is left out. *)
Definition effects (w : world) :=
  (db w, orderTags w, orderMetafields w, onHand w, calls w).

(** The calls issued so far extend [cs]. *)
Definition extends (cs : list call) {L} (s : L * world) : Prop :=
  exists ext, calls (snd s) = (cs ++ ext)%list.

Definition fifteenDays : Z := 15 * 86400000.

Ltac grows :=
  intros ? ? [ext Hext]; unfold extends in *; simpl in *; rewrite ?Hext;
  first [ now exists ext | eexists; rewrite <- app_assoc; reflexivity ].

Section StatusSync.

Context (env : remote) {L : Type} (cs : list call).

Lemma updateShopifyOrderFromBunjangStatus_extends order :
  preserves (L:=L) (extends cs) (updateShopifyOrderFromBunjangStatus env order).
Proof.
  unfold updateShopifyOrderFromBunjangStatus, syncOrderItemStatus, findOrderByTag,
    updateShopifyFulfillmentStatus, updateOrder, logger.
  preserves_with grows.
Qed.

Lemma syncOrdersOfPage_extends orders syncedCount errorCount :
  preserves (L:=L) (extends cs) (syncOrdersOfPage env orders syncedCount errorCount).
Proof.
  revert syncedCount errorCount.
  induction orders as [|order rest IH]; intros; simpl.
  - apply preserves_ret.
  - pose proof (updateShopifyOrderFromBunjangStatus_extends order).
    unfold logger. preserves_with grows.
Qed.

Lemma syncPages_extends fuel startDateUTC endDateUTC page syncedCount errorCount :
  preserves (L:=L) (extends cs)
    (syncPages env fuel startDateUTC endDateUTC page syncedCount errorCount).
Proof.
  revert page syncedCount errorCount.
  induction fuel as [|fuel IH]; intros; simpl.
  - apply preserves_ret.
  - unfold getBunjangOrders.
    apply preserves_bind; [preserves_with grows | intros response].
    destruct response as [[[data|] totalPages]|]; try apply preserves_ret.
    apply preserves_bind; [apply syncOrdersOfPage_extends | intros counts].
    destruct (has_more page totalPages); [apply IH | apply preserves_ret].
Qed.

End StatusSync.

Lemma diffDays_of_span (start span : Z) :
  diffDays_of start (start + span) = (span # 86400000).
Proof.
  unfold diffDays_of. replace (start + span - start) with span by lia.
  unfold Qdiv, Qmult, Qinv, inject_Z. simpl. now rewrite Z.mul_1_r.
Qed.

(** C4: with [endDate - startDate] equal to exactly 15 days the status sync
    passes the check of the range and requests the first page of the
    changed orders; with 15 days and one second it throws the
    [ValidationError] that carries the requested span, 1296001000/86400000
    days, and issues no call. *)
Theorem syncBunjangOrderStatuses_date_range_boundary
    (env : remote) (L : Type) (fuel : nat) (start : Z) (s : L * world) :
  (exists r s' rest,
     syncBunjangOrderStatuses env (S fuel) (DateMs start) (DateMs (start + fifteenDays)) s
       = (r, s')
     /\ calls (snd s')
        = (calls (snd s) ++ GetBunjangOrders start (start + fifteenDays) 0 100 :: rest)%list)
  /\ syncBunjangOrderStatuses env fuel (DateMs start) (DateMs (start + fifteenDays + 1000)) s
     = (Throw (dateRangeError (1296001000 # 86400000)),
        (fst s, record_log LInfo "Starting Bunjang order status sync" (snd s))).
Proof.
  destruct s as [l w].
  set (w0 := record_log LInfo "Starting Bunjang order status sync" w).
  split.
  - unfold syncBunjangOrderStatuses.
    rewrite (bind_Normal _ _ _ tt (l, w0)) by reflexivity.
    rewrite (bind_Normal _ _ _ start (l, w0)) by reflexivity.
    rewrite (bind_Normal _ _ _ (start + fifteenDays) (l, w0)) by reflexivity.
    cbv zeta. rewrite diffDays_of_span.
    change (Qgt_bool (fifteenDays # 86400000) 15) with false. cbv iota.
    set (c := GetBunjangOrders start (start + fifteenDays) 0 100).
    match goal with
    | |- exists r s' rest, ?m ?st = _ /\ _ =>
        assert (Hx : extends (calls w ++ [c]) (snd (m st)))
    end.
    { unfold logger.
      apply established_try_catch; [ | intros e; preserves_with grows ].
      apply established_bind;
        [ | intros [[syncedCount errorCount]|]; preserves_with grows ].
      cbn [syncPages]. apply established_bind.
      - unfold getBunjangOrders. apply established_bind; [ | intros n; apply preserves_ret ].
        unfold invoke. simpl. fold c.
        destruct (fault env (length (calls w))); exists []; simpl; now rewrite app_nil_r.
      - intros [[[data|] totalPages]|]; try apply preserves_ret.
        apply preserves_bind; [apply syncOrdersOfPage_extends | intros counts].
        destruct (has_more 0 totalPages); [apply syncPages_extends | apply preserves_ret]. }
    match goal with
    | |- exists r s' rest, ?m ?st = _ /\ _ => destruct (m st) as [r s'] eqn:E
    end.
    destruct Hx as [rest Hrest]. exists r, s', rest. split; [reflexivity|].
    simpl in *. rewrite Hrest. now rewrite <- app_assoc.
  - unfold syncBunjangOrderStatuses.
    rewrite (bind_Normal _ _ _ tt (l, w0)) by reflexivity.
    rewrite (bind_Normal _ _ _ start (l, w0)) by reflexivity.
    rewrite (bind_Normal _ _ _ (start + fifteenDays + 1000) (l, w0)) by reflexivity.
    cbv zeta. rewrite <- Z.add_assoc, diffDays_of_span.
    reflexivity.
Qed.

(** ** The quantity at the warehouse *)

(** The on-hand quantity of an inventory item at the warehouse is 1. *)
Definition pinned (inventoryItemId : string) {L} (s : L * world) : Prop :=
  onHand (snd s) !! (inventoryItemId, BUNJANG_WAREHOUSE_GID) = Some 1.

Ltac stays_pinned :=
  intros ? ? HJ; unfold pinned in *; simpl in *;
  first [ exact HJ | apply lookup_insert_eq ].

Lemma verifyLevels_pinned env {L} item levels correct :
  preserves (L:=L) (pinned item) (verifyLevels env item 1 levels correct).
Proof.
  revert correct. induction levels as [|level rest IH]; intros; simpl.
  - apply preserves_ret.
  - unfold updateInventoryLevel, logger.
    destruct (String.eqb _ _); preserves_with stays_pinned.
Qed.

(** C2: whenever [syncBunjangInventoryToShopify] returns [true], the mapping
    of the listing is linked to a storefront product, the storefront has
    reported its variant, and the on-hand quantity of the inventory item of
    that variant at the BunJang Warehouse location is exactly 1, whatever
    it was before the call. *)
Theorem syncBunjangInventoryToShopify_pins_one
    (env : remote) (L : Type) (pid : string) (q : Z) (s s' : L * world)
    (H : syncBunjangInventoryToShopify env pid q s = (Normal true, s')) :
  exists d gid variant,
    List.find (matches_pid pid) (db (snd s)) = Some d
    /\ linked_gid (Some d) = Some gid
    /\ productVariant env (S (length (calls (snd s)))) gid = Some variant
    /\ onHand (snd s') !! (v_inventoryItem_id variant, BUNJANG_WAREHOUSE_GID) = Some 1.
Proof.
  destruct s as [l w].
  unfold syncBunjangInventoryToShopify in H.
  apply try_catch_rethrow_inv in H.
  apply bind_inv in H. destruct H as (? & s0 & H0 & H).
  inversion H0; subst; clear H0.
  apply bind_inv in H. destruct H as (sp & s1 & H1 & H).
  unfold SyncedProduct_findOne_byPid in H1.
  apply bind_inv in H1. destruct H1 as (n0 & s0 & H0 & H1).
  apply invoke_inv in H0. destruct H0 as (F0 & -> & ->). simpl in H1.
  inversion H1; subst sp s1; clear H1.
  destruct (List.find (matches_pid pid) (db w)) as [d|] eqn:Hd; [|discriminate].
  destruct (linked_gid (Some d)) as [gid|] eqn:Hgid; [|discriminate].
  cbv zeta in H.
  apply bind_inv in H. destruct H as (resp & s1 & H1 & H).
  unfold queryProductVariants in H1.
  apply bind_inv in H1. destruct H1 as (n1 & s0 & H0 & H1).
  apply invoke_inv in H0. destruct H0 as (F1 & -> & ->).
  inversion H1; subst resp s1; clear H1.
  simpl in H. rewrite length_app, Nat.add_1_r in H. simpl.
  destruct (productVariant env (S (length (calls w))) gid) as [variant|] eqn:Hv;
    [|discriminate].
  exists d, gid, variant. repeat split; trivial.
  do 7 (apply bind_inv in H; destruct H as (? & ? & _ & H)).
  apply bind_inv in H. destruct H as (userErrors & s8 & H1 & H).
  unfold inventorySetOnHandQuantities in H1.
  apply bind_inv in H1. destruct H1 as (n2 & s0 & H0 & H1).
  apply invoke_inv in H0. destruct H0 as (F2 & -> & ->).
  destruct (setOnHandUserErrors env _ _ _ _).
  - inversion H1; subst userErrors s8; clear H1.
    match type of H with
    | ?K ?st = _ =>
        assert (HK : preserves (pinned (v_inventoryItem_id variant)) K)
    end.
    { pose proof (verifyLevels_pinned env (L:=L) (v_inventoryItem_id variant)).
      unfold queryInventoryLevels, SyncedProduct_updateOne_inventory, sleep, logger.
      preserves_with stays_pinned. }
    match type of H with
    | ?K ?st = _ => specialize (HK st)
    end.
    rewrite H in HK. apply HK. apply lookup_insert_eq.
  - inversion H1; subst userErrors s8; clear H1. discriminate.
Qed.

Lemma syncBunjangInventoryToShopify_pins_one_witness :
  onHand oversold !! (itemOf101, BUNJANG_WAREHOUSE_GID) = Some (-3)
  /\ exists s',
       syncBunjangInventoryToShopify stocked "101" 5 (tt, oversold) = (Normal true, s')
       /\ exists d gid variant,
            List.find (matches_pid "101") (db oversold) = Some d
            /\ linked_gid (Some d) = Some gid
            /\ productVariant stocked 1 gid = Some variant
            /\ onHand (snd s') !! (v_inventoryItem_id variant, BUNJANG_WAREHOUSE_GID) = Some 1.
Proof.
  split; [reflexivity|].
  eexists. split.
  - vm_compute. reflexivity.
  - apply (syncBunjangInventoryToShopify_pins_one stocked unit "101" 5 (tt, oversold)).
    vm_compute. reflexivity.
Defined.

(** ** No deletion *)

(** The identity of the mappings: which listing is linked to which product. *)
Definition mapping_keys (w : world) : list (option string * option string) :=
  map (fun d => (bunjangPid d, shopifyGid d)) (db w).

(** The calls of an inventory re-assertion: the reads, and the writes that
    put 1 at the warehouse. No other write, and in particular no deletion
    and no order creation, is among them. *)
Definition reasserts_one (c : call) : bool :=
  match c with
  | DbFindOneByPid _ | DbFindOneByProduct _ | GetBunjangProductDetails _
  | ProductVariantsQuery _ | InventoryLevelsQuery _ | EnableInventoryTracking _
  | Sleep _ => true
  | ActivateInventoryAtLocation _ loc => String.eqb loc BUNJANG_WAREHOUSE_GID
  | InventorySetOnHandQuantities _ _ loc q
  | UpdateInventoryLevel _ loc q => String.eqb loc BUNJANG_WAREHOUSE_GID && (q =? 1)
  | DbUpdateOne _ q => q =? 1
  | _ => false
  end.

(** Since the world [w0]: the same mappings, and only such calls. *)
Definition reasserted (w0 : world) {L} (s : L * world) : Prop :=
  mapping_keys (snd s) = mapping_keys w0
  /\ exists ext, calls (snd s) = (calls w0 ++ ext)%list /\ forallb reasserts_one ext = true.

Lemma mapping_keys_update_first pid qty at_ms l :
  map (fun d => (bunjangPid d, shopifyGid d))
    (update_first (matches_pid pid) (set_inventory_fields qty at_ms) l)
  = map (fun d => (bunjangPid d, shopifyGid d)) l.
Proof.
  induction l as [|d l IH]; simpl; [reflexivity|].
  destruct (matches_pid pid d); simpl; [reflexivity | now rewrite IH].
Qed.

Lemma reasserted_refl w {L} (l : L) : reasserted w (l, w).
Proof. split; [reflexivity|]. exists []. now rewrite app_nil_r. Qed.

Ltac stays_reasserted :=
  intros ? ? (Hk & ext & Hc & Hall); unfold reasserted, mapping_keys in *;
  cbn [snd fst db calls record_log record_call set_onHand set_db] in *;
  first
    [ split; [exact Hk | exists ext; split; assumption]
    | split;
      [ exact Hk
      | eexists; split;
        [ rewrite Hc, <- app_assoc; reflexivity
        | rewrite forallb_app, Hall; reflexivity ] ]
    | split; [rewrite mapping_keys_update_first; exact Hk | exists ext; split; assumption] ].

Section NoDeletion.

Context (env : remote) {L : Type} (w0 : world).

Lemma verifyLevels_reasserted item levels correct :
  preserves (L:=L) (reasserted w0) (verifyLevels env item 1 levels correct).
Proof.
  revert correct. induction levels as [|level rest IH]; intros; simpl.
  - apply preserves_ret.
  - unfold updateInventoryLevel, logger.
    destruct (String.eqb _ _); preserves_with stays_reasserted.
Qed.

Lemma syncBunjangInventoryToShopify_reasserted pid q :
  preserves (L:=L) (reasserted w0) (syncBunjangInventoryToShopify env pid q).
Proof.
  pose proof verifyLevels_reasserted.
  unfold syncBunjangInventoryToShopify, SyncedProduct_findOne_byPid, queryProductVariants,
    logInventoryLevels, enableInventoryTracking, activateInventoryAtLocation,
    inventorySetOnHandQuantities, queryInventoryLevels, SyncedProduct_updateOne_inventory,
    sleep, logger.
  preserves_with stays_reasserted.
Qed.

Lemma deleteProductIfOutOfStock_reasserted pid gid :
  preserves (L:=L) (reasserted w0) (deleteProductIfOutOfStock env pid gid).
Proof.
  pose proof syncBunjangInventoryToShopify_reasserted.
  unfold deleteProductIfOutOfStock, logger. preserves_with stays_reasserted.
Qed.

Lemma orderCreatedLineItem_reasserted item :
  preserves (L:=L) (reasserted w0) (orderCreatedLineItem env item).
Proof.
  pose proof syncBunjangInventoryToShopify_reasserted.
  pose proof deleteProductIfOutOfStock_reasserted.
  unfold orderCreatedLineItem, checkAndSyncBunjangInventory, getBunjangProductDetails,
    SyncedProduct_findOne_byProduct, logger.
  preserves_with stays_reasserted.
Qed.

End NoDeletion.

(** C7: [deleteProductIfOutOfStock] deletes nothing and re-asserts the
    quantity instead. Its run is the run of
    [syncBunjangInventoryToShopify(pid, 1)] after the log line: it returns
    [false] in the state the re-assertion leaves when the re-assertion
    returns, and throws what the re-assertion throws; the mappings keep
    their identity and every call issued is a read or a write of 1 at the
    warehouse. The same bound holds for the whole handling of a line item by
    the order-created webhook, and on a computed stock of 0 that handling is
    the run of [deleteProductIfOutOfStock], whose failure it only logs. *)
Theorem deleteProductIfOutOfStock_deletes_nothing
    (env : remote) (L : Type) (pid : string) (gid : option string) (s : L * world) :
  deleteProductIfOutOfStock env pid gid s
  = (match syncBunjangInventoryToShopify env pid 1
             (fst s,
              record_log LInfo
                "Product deletion skipped. Bunjang single-stock items should always have inventory 1."
                (snd s)) with
     | (Normal _, s1) => (Normal false, s1)
     | (Throw e, s1) =>
         (Throw e, (fst s1, record_log LError "Failed to handle out-of-stock product" (snd s1)))
     end)
  /\ reasserted (snd s) (snd (deleteProductIfOutOfStock env pid gid s))
  /\ (forall item, reasserted (snd s) (snd (orderCreatedLineItem env item s)))
  /\ (forall item syncedProduct bunjangPid currentStock s1 s2,
        SyncedProduct_findOne_byProduct env (product_id item)
          (fst s, record_log LDebug "Processing line item" (snd s))
        = (Normal syncedProduct, s1) ->
        linked_pid syncedProduct = Some bunjangPid ->
        checkAndSyncBunjangInventory env bunjangPid
          (fst s1, record_log LInfo "Found Bunjang product" (snd s1))
        = (Normal currentStock, s2) ->
        0 <= currentStock <= quantity item ->
        let run := deleteProductIfOutOfStock env bunjangPid (syncedProduct ≫= shopifyGid)
                     (fst s2,
                      record_log LInfo "Product out of stock, deleting product" (snd s2)) in
        orderCreatedLineItem env item s
        = (Normal tt,
           (fst (snd run),
            match fst run with
            | Normal _ =>
                record_log LInfo "Successfully deleted out-of-stock product" (snd (snd run))
            | Throw _ => record_log LError "Failed to delete product" (snd (snd run))
            end))).
Proof.
  destruct s as [l w]. split; [|split; [|split]].
  - unfold deleteProductIfOutOfStock, try_catch. rewrite logger_bind.
    unfold bind at 1. cbn [fst snd].
    destruct (syncBunjangInventoryToShopify env pid 1 _) as [[b|e] [l1 w1]]; reflexivity.
  - apply deleteProductIfOutOfStock_reasserted, reasserted_refl.
  - intros item. apply orderCreatedLineItem_reasserted, reasserted_refl.
  - intros item syncedProduct bunjangPid currentStock [l1 w1] [l2 w2] Hfind Hpid Hcheck Hstock.
    cbn [fst snd] in *. cbv zeta.
    unfold orderCreatedLineItem. cbv zeta. unfold try_catch at 1. rewrite logger_bind.
    unfold bind at 1. rewrite Hfind, Hpid. rewrite logger_bind.
    unfold bind at 1. rewrite Hcheck.
    replace (0 <=? currentStock) with true by (symmetry; apply Z.leb_le; lia).
    replace (Z.max 0 (currentStock - quantity item) =? 0) with true
      by (symmetry; apply Z.eqb_eq; lia).
    rewrite logger_bind. unfold try_catch at 1. unfold bind at 1.
    destruct (deleteProductIfOutOfStock env bunjangPid _ _) as [[b|e] [l3 w3]]; reflexivity.
Qed.

(** The order-created webhook on one unit of the only listing: the computed
    stock is 0, and the quantity 1 is set at the warehouse twice, by the
    check and by the re-assertion that stands in for the deletion. *)
Definition sets_one_at_warehouse (c : call) : bool :=
  match c with
  | InventorySetOnHandQuantities _ _ loc q => String.eqb loc BUNJANG_WAREHOUSE_GID && (q =? 1)
  | _ => false
  end.

Lemma deleteProductIfOutOfStock_deletes_nothing_witness :
  exists s',
    orderCreatedLineItem stocked (itemOf 1 1) (tt, oversold) = (Normal tt, s')
    /\ length (List.filter sets_one_at_warehouse (calls (snd s'))) = 2%nat
    /\ In (LInfo, "Successfully deleted out-of-stock product") (logs (snd s'))
    /\ map bunjangPid (db (snd s')) = map bunjangPid (db oversold).
Proof.
  destruct (deleteProductIfOutOfStock_deletes_nothing stocked unit "101" None (tt, oversold))
    as (_ & _ & _ & Hwebhook).
  eexists. split.
  - apply (Hwebhook (itemOf 1 1) (Some (mapping 1 "101")) "101" 1
             (tt, record_call (DbFindOneByProduct 1)
                    (record_log LDebug "Processing line item" oversold))
             (snd (checkAndSyncBunjangInventory stocked "101"
                     (tt, record_log LInfo "Found Bunjang product"
                            (record_call (DbFindOneByProduct 1)
                               (record_log LDebug "Processing line item" oversold)))))).
    + reflexivity.
    + reflexivity.
    + vm_compute. reflexivity.
    + cbn. lia.
  - vm_compute. split; [reflexivity|]. split; [|reflexivity].
    repeat (first [left; reflexivity | right]).
Defined.

(** ** The quantity argument *)

(** Two orders with the same products, line by line, and the same
    cancellation mark; the quantities are free. *)
Definition same_products (o1 o2 : shopifyOrder) : Prop :=
  map product_id (items_of o1) = map product_id (items_of o2)
  /\ cancelled_at o1 = cancelled_at o2.

(** The result of a run together with its effects. *)
Definition outcome {L A} (r : completion A * (L * world)) :=
  (fst r, fst (snd r), effects (snd (snd r))).

Lemma restoreLineItem_quantity env {L} (i1 i2 : lineItem) :
  product_id i1 = product_id i2 ->
  restoreLineItem (L:=L) env i1 = restoreLineItem env i2.
Proof.
  destruct i1, i2. simpl. intros ->. reflexivity.
Qed.

Lemma for_of_restoreLineItem_quantity env {L} (l1 l2 : list lineItem) :
  map product_id l1 = map product_id l2 ->
  for_of (L:=L) l1 (restoreLineItem env) = for_of l2 (restoreLineItem env).
Proof.
  revert l2. induction l1 as [|i1 l1 IH]; intros [|i2 l2] H; try discriminate.
  - reflexivity.
  - simpl in *. inversion H as [[Hp Hl]].
    now rewrite (restoreLineItem_quantity env i1 i2 Hp), (IH l2 Hl).
Qed.

(** C9: [syncBunjangInventoryToShopify] does the same with any two quantity
    arguments: same result, same state, same calls. Hence the handlers of
    the order-updated and order-cancelled webhooks, which pass it the
    restored stock, answer and act alike on two orders that differ in the
    quantities of their line items only. *)
Theorem syncBunjangInventoryToShopify_ignores_quantity
    (env : remote) (L : Type) (pid : string) (q1 q2 : Z) (s : L * world) :
  syncBunjangInventoryToShopify env pid q1 s = syncBunjangInventoryToShopify env pid q2 s
  /\ forall o1 o2 : shopifyOrder,
       same_products o1 o2 ->
       outcome (ordersUpdated env o1 s) = outcome (ordersUpdated env o2 s)
       /\ outcome (ordersCancelled env o1 s) = outcome (ordersCancelled env o2 s).
Proof.
  split; [reflexivity|].
  intros o1 o2 [Hitems Hcancel].
  unfold ordersUpdated, ordersCancelled.
  rewrite Hcancel, (for_of_restoreLineItem_quantity env _ _ Hitems).
  split; reflexivity.
Qed.

Lemma syncBunjangInventoryToShopify_ignores_quantity_witness :
  let cancelled q := mkShopifyOrder (Some 7) (Some "gid://shopify/Order/7")
                       (Some [mkLineItem 70 1 10 q]) (Some "2024-05-01T00:00:00Z") in
  same_products (cancelled 1) (cancelled 4)
  /\ outcome (ordersUpdated stocked (cancelled 1) (tt, oversold))
     = outcome (ordersUpdated stocked (cancelled 4) (tt, oversold))
  /\ outcome (ordersCancelled stocked (cancelled 1) (tt, oversold))
     = outcome (ordersCancelled stocked (cancelled 4) (tt, oversold)).
Proof.
  intros cancelled.
  assert (H : same_products (cancelled 1) (cancelled 4)) by (split; reflexivity).
  split; [exact H|].
  exact (proj2 (syncBunjangInventoryToShopify_ignores_quantity
                  stocked unit "101" 0 2 (tt, oversold))
           (cancelled 1) (cancelled 4) H).
Defined.

(** ** Line items that produce no remote order *)

(** The world after the storefront has accepted an [updateOrder]. *)
Definition updated_order (gid : string) (tags : list string) (mfs : list metafieldInput)
    (w : world) : world :=
  mkWorld (db w)
    (<[gid := merge_tags (default [] (orderTags w !! gid)) tags]> (orderTags w))
    (upsert_metafields gid mfs (orderMetafields w)) (onHand w)
    (calls w ++ [UpdateOrder gid tags mfs]) (logs w).

Lemma updateOrder_ok env {L} gid tags mfs (l : L) w :
  fault env (length (calls w)) = None ->
  updateOrder env gid tags mfs (l, w) = (Normal tt, (l, updated_order gid tags mfs w)).
Proof.
  intros H. unfold updateOrder. unfold bind at 1. now rewrite invoke_ok.
Qed.

Lemma updateOrder_fails env {L} gid tags mfs (l : L) w e :
  fault env (length (calls w)) = Some e ->
  updateOrder env gid tags mfs (l, w)
  = (Throw e, (l, record_call (UpdateOrder gid tags mfs) w)).
Proof.
  intros H. unfold updateOrder. unfold bind at 1. now rewrite (invoke_fails _ _ _ _ e).
Qed.

(** How the placement for a linked line item can fail. *)
Inductive itemFailure :=
| FailNotFound
| FailInsufficientStock (details : bunjangProductDetails)
| FailCreate (details : bunjangProductDetails) (apiError : jsError)
| FailNoOrderId (details : bunjangProductDetails).

Definition payload_for (pid : string) (details : bunjangProductDetails) : bunjangOrderPayload :=
  mkPayload pid (or_num (d_price details) 0) 0.

(** The failure [f] is what the marketplace answers to the calls that the
    code issues for the item, the first of which is call number [n]. *)
Definition failure_occurs (env : remote) (pid : string) (item : lineItem) (n : nat)
    (f : itemFailure) : Prop :=
  fault env n = None
  /\ match f with
     | FailNotFound => productDetails env n pid = None
     | FailInsufficientStock d =>
         productDetails env n pid = Some d
         /\ or_num (d_quantity d) 0 < quantity item
     | FailCreate d e =>
         productDetails env n pid = Some d
         /\ quantity item <= or_num (d_quantity d) 0
         /\ fault env (S n) = Some e
     | FailNoOrderId d =>
         productDetails env n pid = Some d
         /\ quantity item <= or_num (d_quantity d) 0
         /\ fault env (S n) = None
         /\ response_id (createOrderResponse env (S n) (payload_for pid d)) = None
     end.

(** The calls to the marketplace, the log lines and the tag of a failure. *)
Definition failure_calls (pid : string) (f : itemFailure) : list call :=
  match f with
  | FailNotFound | FailInsufficientStock _ => [GetBunjangProductDetails pid]
  | FailCreate d _ | FailNoOrderId d =>
      [GetBunjangProductDetails pid; CreateBunjangOrderV2 (payload_for pid d)]
  end.

Definition failure_logs (f : itemFailure) : list (logLevel * string) :=
  match f with
  | FailNotFound => [(LWarn, "Could not fetch details for Bunjang product")]
  | FailInsufficientStock _ => [(LWarn, "Insufficient stock")]
  | FailCreate _ e =>
      (LInfo, "Creating Bunjang order")
      :: match classify e with
         | InsufficientPoints => [(LError, "CRITICAL: Insufficient Bunjang points")]
         | _ => []
         end
      ++ [(LError, "Failed to create Bunjang order")]
  | FailNoOrderId _ =>
      [(LInfo, "Creating Bunjang order");
       (LError, "Bunjang order creation response missing order ID")]
  end.

Definition failure_tag (pid : string) (f : itemFailure) : string :=
  match f with
  | FailNotFound => "PID-" +:+ pid +:+ "-NotFound"
  | FailInsufficientStock _ => "PID-" +:+ pid +:+ "-InsufficientStock"
  | FailCreate _ e => errorTag pid (classify e)
  | FailNoOrderId _ => "PID-" +:+ pid +:+ "-NoOrderId"
  end.

(** The world after the failure was handled and the order was tagged. *)
Definition after_failure (identifier gid pid : string) (f : itemFailure) (w : world) : world :=
  let tags := [errorMarker identifier; failure_tag pid f] in
  mkWorld (db w)
    (<[gid := merge_tags (default [] (orderTags w !! gid)) tags]> (orderTags w))
    (orderMetafields w) (onHand w)
    (calls w ++ failure_calls pid f ++ [UpdateOrder gid tags []])
    (logs w ++ (LInfo, "Found Bunjang-linked item") :: failure_logs f).

(** The line item resolves to the listing [pid]: from the state [s] the
    lookup of lines 46-101 returns, in the state [s1], a mapping linked to
    [pid]. *)
Definition resolves_to (env : remote) {L} (item : lineItem) (s s1 : L * world)
    (pid : string) : Prop :=
  exists syncedProduct,
    resolveLineItem env item s = (Normal syncedProduct, s1)
    /\ linked_pid syncedProduct = Some pid.

Section FailedItems.

Context (env : remote) (cfg : config).

Lemma resolves_directly {L} item (l : L) w d pid :
  fault env (length (calls w)) = None ->
  List.find (matches_product (product_id item)) (db w) = Some d ->
  linked_pid (Some d) = Some pid ->
  resolves_to env item (l, w) (l, record_call (DbFindOneByProduct (product_id item)) w) pid.
Proof.
  intros Hf Hd Hp. exists (Some d). split; [|exact Hp].
  unfold resolveLineItem, SyncedProduct_findOne_byProduct.
  cbv zeta. unfold bind at 1. unfold bind at 1. rewrite (invoke_ok env _ l w Hf).
  unfold bind at 1. simpl. now rewrite Hd.
Qed.

Lemma failed_item_body identifier gid pid item (f : itemFailure) s l1 w1 :
  resolves_to env item s (l1, w1) pid ->
  failure_occurs env pid item (length (calls w1)) f ->
  fault env (length (calls w1) + length (failure_calls pid f)) = None ->
  processLineItem env cfg identifier gid item s
  = (Normal tt, (l1, after_failure identifier gid pid f w1)).
Proof.
  intros (sp & Hres & Hpid) [Hf0 Hf] Htag.
  unfold processLineItem.
  rewrite (bind_Normal _ _ _ _ _ Hres). rewrite Hpid.
  rewrite (bind_Normal _ _ _ tt (l1, record_log LInfo "Found Bunjang-linked item" w1))
    by reflexivity.
  unfold placeOrder, try_catch, getBunjangProductDetails.
  unfold bind at 1. unfold bind at 1.
  rewrite invoke_ok by exact Hf0.
  cbn [ret calls record_log].
  destruct f as [|d|d e|d]; cbn [failure_calls length] in Htag.
  - rewrite Hf. rewrite logger_bind.
    rewrite updateOrder_ok by (cbn [calls record_log record_call]; now rewrite length_app).
    unfold after_failure, updated_order. cbn. now rewrite <- !app_assoc.
  - destruct Hf as [Hd Hq]. rewrite Hd.
    apply Z.ltb_lt in Hq. rewrite Hq. rewrite logger_bind.
    rewrite updateOrder_ok by (cbn [calls record_log record_call]; now rewrite length_app).
    unfold after_failure, updated_order. cbn. now rewrite <- !app_assoc.
  - destruct Hf as (Hd & Hq & He). rewrite Hd.
    apply Z.ltb_ge in Hq. rewrite Hq. cbv zeta. rewrite logger_bind.
    unfold submitOrder, try_catch, createBunjangOrderV2.
    unfold bind at 1. unfold bind at 1.
    rewrite (invoke_fails _ _ _ _ e)
      by (cbn [calls record_log record_call]; now rewrite length_app, Nat.add_1_r).
    unfold onCreateError. cbv zeta.
    replace (length (calls w1) + 2)%nat with (S (S (length (calls w1)))) in Htag by lia.
    assert (Hup : forall w', calls w' = (calls w1 ++ failure_calls pid (FailCreate d e))%list ->
              fault env (length (calls w')) = None).
    { intros w' ->. rewrite length_app. cbn [failure_calls length].
      now replace (length (calls w1) + 2)%nat with (S (S (length (calls w1)))) by lia. }
    destruct (classify e) eqn:Hc; rewrite ?logger_bind;
      (unfold bind at 1; cbn [ret]; rewrite ?logger_bind;
       rewrite updateOrder_ok
         by (apply Hup; cbn [calls record_log record_call failure_calls payload_for];
             now rewrite <- app_assoc);
       unfold after_failure, updated_order; cbn; rewrite Hc; cbn;
       now rewrite <- !app_assoc).
  - destruct Hf as (Hd & Hq & He & Hid). rewrite Hd.
    apply Z.ltb_ge in Hq. rewrite Hq. cbv zeta. rewrite logger_bind.
    unfold submitOrder, try_catch, createBunjangOrderV2.
    unfold bind at 1. unfold bind at 1.
    rewrite invoke_ok
      by (cbn [calls record_log record_call]; now rewrite length_app, Nat.add_1_r).
    cbn [ret]. cbn [calls record_log record_call]. rewrite length_app, Nat.add_1_r.
    cbn [length]. unfold payload_for in Hid. rewrite Hid. rewrite logger_bind.
    rewrite updateOrder_ok
      by (cbn [calls record_log record_call]; rewrite !length_app; cbn [length];
          now replace (length (calls w1) + 1 + 1)%nat with (length (calls w1) + 2)%nat by lia).
    unfold after_failure, updated_order. cbn. now rewrite <- !app_assoc.
Qed.

Lemma failed_item_continues identifier gid pid item rest (f : itemFailure) s l1 w1 :
  resolves_to env item s (l1, w1) pid ->
  failure_occurs env pid item (length (calls w1)) f ->
  fault env (length (calls w1) + length (failure_calls pid f)) = None ->
  for_of (item :: rest) (processLineItem env cfg identifier gid) s
  = for_of rest (processLineItem env cfg identifier gid)
      (l1, after_failure identifier gid pid f w1).
Proof.
  intros Hres Hf Htag. cbn [for_of].
  now rewrite (bind_Normal _ _ _ _ _ (failed_item_body identifier gid pid item f s l1 w1 Hres Hf Htag)).
Qed.

End FailedItems.

(** ** The two variables of the loop *)

(** The flag is set exactly when an id was recorded. *)
Definition flag_agrees {L} (s : orderLocals * L) : Prop :=
  bunjangOrderSuccessfullyCreatedOverall (fst s) = true
  <-> createdBunjangOrderIds (fst s) <> [].

Definition initialLocals : orderLocals := mkOrderLocals false [].

Definition startOf (w : world) : orderLocals * world :=
  (initialLocals, record_log LInfo "Processing Shopify Order for Bunjang" w).

Ltac flag_stays :=
  intros ? ? HI; unfold flag_agrees in *; cbn in *;
  first [ exact HI | split; [ intros _; now destruct (createdBunjangOrderIds _) | reflexivity ] ].

Section Loop.

Context (env : remote) (cfg : config) (identifier gid : string).

Lemma processLineItem_flag item :
  preserves flag_agrees (processLineItem env cfg identifier gid item).
Proof.
  unfold processLineItem, resolveLineItem, autoLinkFromTags, placeOrder, submitOrder,
    onCreateError, checkPointBalance, SyncedProduct_findOne_byProduct, SyncedProduct_create,
    queryProductTags, getBunjangProductDetails, createBunjangOrderV2, getBunjangPointBalance,
    updateOrder, logger.
  preserves_with flag_stays.
Qed.

Lemma loop_flag items s :
  flag_agrees s ->
  flag_agrees (snd (for_of items (processLineItem env cfg identifier gid) s)).
Proof.
  apply preserves_for_of. apply processLineItem_flag.
Qed.

Lemma flag_agrees_start w : flag_agrees (startOf w).
Proof. split; [discriminate | intros H; now elim H]. Qed.

Lemma finishOrder_none l w :
  flag_agrees (l, w) ->
  createdBunjangOrderIds l = [] ->
  finishOrder env identifier gid (l, w)
  = (Normal (mkOrderResult false None None (Some failureMessage)),
     (l, record_log LWarn "No Bunjang orders created" w)).
Proof.
  intros Hflag Hnone. unfold finishOrder.
  unfold bind at 1. cbn [get_local fst]. rewrite Hnone.
  unfold bind at 1. cbn [ret]. unfold bind at 1. cbn [get_local fst].
  destruct (bunjangOrderSuccessfullyCreatedOverall l) eqn:Hb; [|reflexivity].
  destruct Hflag as [Hflag _]. cbn in Hflag. now elim (Hflag Hb).
Qed.

(** The two metafields written once an order was placed. *)
Definition placedMetafields (ids : list string) (at_ms : Z) : list metafieldInput :=
  [mkMetafield "bunjang" "order_ids" (JSON_stringify_strings ids) "json";
   mkMetafield "bunjang" "order_created_at" (IsoDateText at_ms) "date_time"].

Definition placed_order (w : world) (ids : list string) : world :=
  record_log LInfo "Bunjang order(s) successfully created"
    (updated_order gid ["BunjangOrderPlaced"; identifier]
       (placedMetafields ids (now env (length (calls w)))) w).

Lemma finishOrder_some l w :
  flag_agrees (l, w) ->
  createdBunjangOrderIds l <> [] ->
  fault env (length (calls w)) = None ->
  finishOrder env identifier gid (l, w)
  = (Normal (mkOrderResult true None (Some (JArr (map JStr (createdBunjangOrderIds l)))) None),
     (l, placed_order w (createdBunjangOrderIds l))).
Proof.
  intros Hflag Hsome Hf. unfold finishOrder.
  unfold bind at 1. cbn [get_local fst].
  destruct (createdBunjangOrderIds l) as [|i ids] eqn:Hids; [now elim Hsome|].
  unfold bind at 1. unfold bind at 1. cbn [new_Date snd].
  rewrite updateOrder_ok by exact Hf.
  unfold bind at 1. cbn [get_local fst].
  destruct Hflag as [_ Hflag]. cbn in Hflag. rewrite Hflag by (rewrite Hids; discriminate).
  rewrite logger_bind. cbn [ret]. now rewrite Hids.
Qed.

End Loop.

(** The order is well formed and was not processed before: the check of
    lines 31-40 finds no recorded ids and leaves the world [w0]. *)
Definition fresh_order (env : remote) (order : shopifyOrder) (w : world)
    (id : Z) (gid : string) (items : list lineItem) (w0 : world) : Prop :=
  validated order = Some (id, gid, items)
  /\ checkAlreadyProcessed env gid (startOf w) = (Normal None, (initialLocals, w0)).

Section WholeOrder.

Context (env : remote) (cfg : config) {L : Type}.

Lemma process_fresh order (l : L) w id gid items w0 :
  fresh_order env order w id gid items w0 ->
  processShopifyOrderForBunjang env cfg order (l, w)
  = match (for_of items (processLineItem env cfg (bunjangOrderIdentifier cfg id) gid)
           >>> finishOrder env (bunjangOrderIdentifier cfg id) gid) (initialLocals, w0) with
    | (r, s') => (r, (l, snd s'))
    end.
Proof.
  intros [Hv Hc]. unfold processShopifyOrderForBunjang, scoped. cbn [snd fst].
  rewrite logger_bind. rewrite Hv. cbv zeta.
  fold initialLocals. change (initialLocals, record_log _ _ w) with (startOf w).
  now rewrite (bind_Normal _ _ _ _ _ Hc).
Qed.

Lemma process_none_created order (l : L) w id gid items w0 l' w' :
  fresh_order env order w id gid items w0 ->
  for_of items (processLineItem env cfg (bunjangOrderIdentifier cfg id) gid) (initialLocals, w0)
    = (Normal tt, (l', w')) ->
  createdBunjangOrderIds l' = [] ->
  processShopifyOrderForBunjang env cfg order (l, w)
  = (Normal (mkOrderResult false None None (Some failureMessage)),
     (l, record_log LWarn "No Bunjang orders created" w')).
Proof.
  intros Hfresh Hloop Hnone. rewrite (process_fresh _ _ _ _ _ _ _ Hfresh).
  rewrite (bind_Normal _ _ _ _ _ Hloop).
  rewrite finishOrder_none; [reflexivity | | exact Hnone].
  pose proof (loop_flag env cfg (bunjangOrderIdentifier cfg id) gid items (initialLocals, w0)) as H.
  rewrite Hloop in H. apply H. destruct Hfresh as [_ Hc].
  split; [discriminate | intros Hx; now elim Hx].
Qed.

Lemma process_some_created order (l : L) w id gid items w0 l' w' :
  fresh_order env order w id gid items w0 ->
  for_of items (processLineItem env cfg (bunjangOrderIdentifier cfg id) gid) (initialLocals, w0)
    = (Normal tt, (l', w')) ->
  createdBunjangOrderIds l' <> [] ->
  fault env (length (calls w')) = None ->
  processShopifyOrderForBunjang env cfg order (l, w)
  = (Normal (mkOrderResult true None (Some (JArr (map JStr (createdBunjangOrderIds l')))) None),
     (l, placed_order env (bunjangOrderIdentifier cfg id) gid w' (createdBunjangOrderIds l'))).
Proof.
  intros Hfresh Hloop Hsome Hf. rewrite (process_fresh _ _ _ _ _ _ _ Hfresh).
  rewrite (bind_Normal _ _ _ _ _ Hloop).
  rewrite finishOrder_some; [reflexivity | | exact Hsome | exact Hf].
  pose proof (loop_flag env cfg (bunjangOrderIdentifier cfg id) gid items (initialLocals, w0)) as H.
  rewrite Hloop in H. apply H.
  split; [discriminate | intros Hx; now elim Hx].
Qed.

End WholeOrder.

(** ** Idempotency *)

Definition alreadyProcessedResult (ids : option json) : orderResult :=
  mkOrderResult true (Some true) ids None.

(** The world after a call that found the order processed before. *)
Definition skipped_world (gid : string) (w : world) : world :=
  record_log LInfo "Bunjang order already exists for Shopify Order. Skipping."
    (record_call (GetOrderMetafield gid "bunjang" "order_ids")
       (record_log LInfo "Processing Shopify Order for Bunjang" w)).

Section Idempotency.

Context (env : remote) (cfg : config).

Lemma checkAlreadyProcessed_found {L} gid (l : L) w ids :
  fault env (length (calls w)) = None ->
  orderMetafields w !! (gid, "bunjang", "order_ids") = Some (JsonText ids) ->
  checkAlreadyProcessed env gid (l, w)
  = (Normal (Some (alreadyProcessedResult (Some ids))),
     (l, record_log LInfo "Bunjang order already exists for Shopify Order. Skipping."
           (record_call (GetOrderMetafield gid "bunjang" "order_ids") w))).
Proof.
  intros Hf Hm. unfold checkAlreadyProcessed, try_catch, getOrderMetafield.
  unfold bind at 1. unfold bind at 1. rewrite invoke_ok by exact Hf.
  unfold bind at 1. cbn [get_world ret snd orderMetafields record_call]. rewrite Hm.
  reflexivity.
Qed.

Lemma checkAlreadyProcessed_inv {L} gid (s s' : L * world) r :
  checkAlreadyProcessed env gid s = (Normal (Some r), s') ->
  exists ids,
    orderMetafields (snd s) !! (gid, "bunjang", "order_ids") = Some (JsonText ids)
    /\ r = alreadyProcessedResult (Some ids)
    /\ orderMetafields (snd s') = orderMetafields (snd s).
Proof.
  destruct s as [l w]. unfold checkAlreadyProcessed, try_catch, getOrderMetafield.
  unfold bind at 1. unfold bind at 1. unfold invoke. cbn [fst snd].
  destruct (fault env (length (calls w))); [intros H; inversion H|].
  unfold bind at 1. cbn [get_world ret snd orderMetafields record_call].
  destruct (orderMetafields w !! (gid, "bunjang", "order_ids")) as [[doc|ms|txt]|];
    cbn; try (intros H; now inversion H).
  - intros H. inversion H; subst. now exists doc.
  - destruct (truthy_string txt); cbn; intros H; inversion H.
Qed.

Lemma checkAlreadyProcessed_locals {L} gid (l0 : L) :
  preserves (fun s => fst s = l0) (checkAlreadyProcessed env gid).
Proof.
  unfold checkAlreadyProcessed, getOrderMetafield, JSON_parse, logger.
  preserves_with ltac:(intros ? ? Hx; exact Hx).
Qed.

Lemma upsert_placed (gid : string) (ids : list string) (at_ms : Z)
    (m : gmap (string * string * string) metaText) :
  upsert_metafields gid (placedMetafields ids at_ms) m !! (gid, "bunjang", "order_ids")
  = Some (JSON_stringify_strings ids).
Proof.
  unfold upsert_metafields, placedMetafields. cbn.
  rewrite lookup_insert_ne by (intros H; inversion H).
  apply lookup_insert_eq.
Qed.

Lemma finishOrder_success_inv identifier gid s r s' :
  flag_agrees s ->
  finishOrder env identifier gid s = (Normal r, s') ->
  success r = true ->
  exists ids,
    bunjangOrderIds r = Some ids
    /\ orderMetafields (snd s') !! (gid, "bunjang", "order_ids") = Some (JsonText ids).
Proof.
  destruct s as [l w]. intros Hflag H Hs.
  destruct (createdBunjangOrderIds l) as [|i ids] eqn:Hids.
  - rewrite (finishOrder_none env identifier gid l w Hflag Hids) in H.
    inversion H; subst. discriminate.
  - destruct (fault env (length (calls w))) as [e|] eqn:Hf.
    + unfold finishOrder in H. unfold bind at 1 in H. cbn [get_local fst] in H.
      rewrite Hids in H. unfold bind at 1 in H. unfold bind at 1 in H.
      cbn [new_Date snd] in H. rewrite (updateOrder_fails _ _ _ _ _ _ e Hf) in H.
      discriminate.
    + rewrite (finishOrder_some env identifier gid l w Hflag) in H;
        [ | rewrite Hids; discriminate | exact Hf ].
      inversion H; subst. eexists. split; [reflexivity|].
      unfold placed_order. cbn [snd orderMetafields record_log updated_order].
      apply upsert_placed.
Qed.

End Idempotency.

(** C1: when a call of [processShopifyOrderForBunjang] has returned
    [success: true], a second call with the same order, whose read of the
    [bunjang/order_ids] metafield is answered, returns
    [{ success: true, alreadyProcessed: true }] with the id list of the
    first call; the read is the only call it issues, so no remote order is
    created. *)
Theorem processShopifyOrderForBunjang_idempotent
    (env : remote) (cfg : config) (L : Type) (order : shopifyOrder)
    (s s1 : L * world) (r1 : orderResult)
    (Hfirst : processShopifyOrderForBunjang env cfg order s = (Normal r1, s1))
    (Hsuccess : success r1 = true)
    (Hread : fault env (length (calls (snd s1))) = None) :
  exists gid,
    admin_graphql_api_id order = Some gid
    /\ processShopifyOrderForBunjang env cfg order s1
       = (Normal (alreadyProcessedResult (bunjangOrderIds r1)),
          (fst s1, skipped_world gid (snd s1)))
    /\ calls (skipped_world gid (snd s1))
       = (calls (snd s1) ++ [GetOrderMetafield gid "bunjang" "order_ids"])%list.
Proof.
  destruct s as [l w]. destruct s1 as [l1 w1].
  assert (Hkey : exists id gid items ids,
            validated order = Some (id, gid, items)
            /\ bunjangOrderIds r1 = Some ids
            /\ orderMetafields w1 !! (gid, "bunjang", "order_ids") = Some (JsonText ids)).
  { unfold processShopifyOrderForBunjang, scoped in Hfirst. cbn [snd fst] in Hfirst.
    rewrite logger_bind in Hfirst.
    destruct (validated order) as [[[id gid] items]|] eqn:Hv; [|discriminate].
    exists id, gid, items. cbv zeta in Hfirst.
    unfold bind at 1 in Hfirst.
    destruct (checkAlreadyProcessed env gid _) as [[[r|]|e] s0] eqn:Hc; cbn [ret] in Hfirst.
    - apply checkAlreadyProcessed_inv in Hc. destruct Hc as (ids & Hm & -> & Hsame).
      inversion Hfirst; subst. exists ids. repeat split; trivial.
      rewrite Hsame. exact Hm.
    - destruct ((for_of items _ >>> finishOrder env _ gid) s0) as [r2 s2] eqn:Hrun.
      inversion Hfirst; subst. apply bind_inv in Hrun.
      destruct Hrun as ([] & s3 & Hloop & Hfin).
      assert (Hflag : flag_agrees s3).
      { pose proof (loop_flag env cfg (bunjangOrderIdentifier cfg id) gid items s0) as H.
        rewrite Hloop in H. apply H.
        pose proof (checkAlreadyProcessed_locals env gid initialLocals (startOf w) eq_refl)
          as Hl.
        unfold startOf, initialLocals in Hl. rewrite Hc in Hl.
        destruct s0 as [l0 w0]. cbn in Hl. subst l0.
        split; [discriminate | intros Hx; now elim Hx]. }
      destruct (finishOrder_success_inv env _ gid s3 r1 s2 Hflag Hfin Hsuccess)
        as (ids & Hids & Hm).
      exists ids. repeat split; trivial.
    - discriminate. }
  destruct Hkey as (id & gid & items & ids & Hv & Hids & Hm).
  exists gid. split; [|split].
  - unfold validated in Hv. destruct (order_id order); [|discriminate].
    destruct (admin_graphql_api_id order); [|discriminate].
    destruct (line_items order) as [[|? ?]|]; try discriminate.
    destruct (_ && _); [|discriminate]. now inversion Hv.
  - unfold processShopifyOrderForBunjang, scoped. cbn [snd fst].
    rewrite logger_bind. rewrite Hv. cbv zeta.
    unfold bind at 1.
    rewrite (checkAlreadyProcessed_found env gid _ _ ids) by assumption.
    cbn [ret fst snd]. now rewrite Hids.
  - reflexivity.
Qed.

(** ** The claims on the line items *)

(** The storefront refuses updates of the order. In a run on an order of the
    listings 201, 202 and 203 the calls number 8 and 9 are the two updates
    that follow the read of the listing 202: the tag PID-202-NotFound of
    line 117 and, from the [catch] block, the tag PID-202-Exception of
    line 214. *)
Definition storefrontUnavailable : jsError :=
  RemoteApiError "Request failed with status code 503" None None.

Definition storefrontRefusesOnce : nat -> option jsError :=
  fun n => if (n =? 8)%nat then Some storefrontUnavailable else None.

Definition storefrontRefusesTwice : nat -> option jsError :=
  fun n => if ((n =? 8) || (n =? 9))%nat then Some storefrontUnavailable else None.

(** C3: a failed line item can abort the loop. On the order 1001 of the
    listings 201, 202 and 203, where 202 is gone, a storefront that takes
    every update gives [success: true] with the remote orders of the first
    and of the third line item, and so does a storefront that refuses the
    tag PID-202-NotFound only: the [catch] block of the line item tags the
    order with PID-202-Exception and the loop goes on. When the storefront
    refuses that update of the [catch] block as well, the exception leaves
    the function: the third line item is never looked up, and although the
    remote order 9003 exists for the first line item, the order gets
    neither the metafield [bunjang/order_ids] nor the tag
    BunjangOrderPlaced. *)
Theorem refused_error_tags_abort_the_loop :
  let order := orderOf 1001 [(1, 1); (2, 1); (3, 1)] in
  let run := fun faults =>
    processShopifyOrderForBunjang (market faults) defaults order (tt, shop) in
  fst (run noFaults)
  = Normal (mkOrderResult true None (Some (JArr [JStr "9003"; JStr "9011"])) None)
  /\ fst (run storefrontRefusesOnce)
     = Normal (mkOrderResult true None (Some (JArr [JStr "9003"; JStr "9012"])) None)
  /\ orderTags (snd (snd (run storefrontRefusesOnce))) !! orderGid 1001
     = Some ["BunjangOrder-9003"; "BunjangOrder-1001_Error"; "PID-202-Exception";
             "BunjangOrder-9012"; "BunjangOrderPlaced"; "BunjangOrder-1001"]
  /\ fst (run storefrontRefusesTwice) = Throw storefrontUnavailable
  /\ calls (snd (snd (run storefrontRefusesTwice)))
     = [GetOrderMetafield (orderGid 1001) "bunjang" "order_ids";
        DbFindOneByProduct 1;
        GetBunjangProductDetails "201";
        CreateBunjangOrderV2 (mkPayload "201" 50000 0);
        UpdateOrder (orderGid 1001) ["BunjangOrder-9003"] [];
        GetBunjangPointBalance;
        DbFindOneByProduct 2;
        GetBunjangProductDetails "202";
        UpdateOrder (orderGid 1001) ["BunjangOrder-1001_Error"; "PID-202-NotFound"] [];
        UpdateOrder (orderGid 1001) ["BunjangOrder-1001_Error"; "PID-202-Exception"] []]
  /\ orderTags (snd (snd (run storefrontRefusesTwice))) !! orderGid 1001
     = Some ["BunjangOrder-9003"]
  /\ orderMetafields (snd (snd (run storefrontRefusesTwice)))
       !! (orderGid 1001, "bunjang", "order_ids") = None.
Proof.
  cbv zeta. repeat split; vm_compute; reflexivity.
Qed.

(** C5: for a line item whose listing reports a quantity below the ordered
    one, the order is tagged with the error marker and
    [PID-<id>-InsufficientStock], the only call to the marketplace is the
    read of the listing (no order is created), the local variables are
    unchanged and the loop goes on with the next item. When the loop ends
    with no recorded id, the overall result is [success: false]. *)
Theorem insufficient_stock_is_tagged_and_skipped (env : remote) (cfg : config) :
  (forall identifier gid pid item rest details s l1 w1,
      resolves_to env item s (l1, w1) pid ->
      fault env (length (calls w1)) = None ->
      productDetails env (length (calls w1)) pid = Some details ->
      or_num (d_quantity details) 0 < quantity item ->
      fault env (S (length (calls w1))) = None ->
      exists w2,
        for_of (item :: rest) (processLineItem env cfg identifier gid) s
        = for_of rest (processLineItem env cfg identifier gid) (l1, w2)
        /\ calls w2
           = (calls w1 ++
              [GetBunjangProductDetails pid;
               UpdateOrder gid
                 [identifier +:+ "_Error"; "PID-" +:+ pid +:+ "-InsufficientStock"] []])%list
        /\ orderTags w2 !! gid
           = Some (merge_tags (default [] (orderTags w1 !! gid))
                     [identifier +:+ "_Error"; "PID-" +:+ pid +:+ "-InsufficientStock"]))
  /\ (forall L order (l : L) w id gid items w0 l' w',
        fresh_order env order w id gid items w0 ->
        for_of items (processLineItem env cfg (bunjangOrderIdentifier cfg id) gid)
          (initialLocals, w0) = (Normal tt, (l', w')) ->
        createdBunjangOrderIds l' = [] ->
        processShopifyOrderForBunjang env cfg order (l, w)
        = (Normal (mkOrderResult false None None (Some failureMessage)),
           (l, record_log LWarn "No Bunjang orders created" w'))).
Proof.
  split.
  - intros identifier gid pid item rest details s l1 w1 Hres Hf Hd Hq Htag.
    exists (after_failure identifier gid pid (FailInsufficientStock details) w1).
    split; [|split].
    + apply failed_item_continues; trivial.
      * split; [exact Hf | now split].
      * cbn [failure_calls length]. now rewrite Nat.add_1_r.
    + reflexivity.
    + cbn [after_failure orderTags]. apply lookup_insert_eq.
  - intros. now apply (process_none_created env cfg order l w id gid items w0 l' w').
Qed.

(** The codes that the [switch] of the catch block knows. *)
Definition knownErrorCodes : list string :=
  ["PRODUCT_NOT_FOUND"; "PRODUCT_SOLD_OUT"; "PRODUCT_ON_HOLD"; "INVALID_PRODUCT_PRICE";
   "POINT_SHORTAGE"].

Lemma classify_errorCode_other code :
  ~ In code knownErrorCodes -> classify_errorCode code = CreateFail.
Proof.
  intros H. unfold classify_errorCode.
  repeat match goal with
         | |- context [String.eqb code ?c] =>
             destruct (String.eqb_spec code c) as [->|_];
             [ exfalso; apply H; cbn; tauto | ]
         end.
  reflexivity.
Qed.

(** C6: the failure of the creation of an order is put in one class: the
    codes PRODUCT_NOT_FOUND, PRODUCT_SOLD_OUT and PRODUCT_ON_HOLD in
    NotAvailable, INVALID_PRODUCT_PRICE in PriceChanged, POINT_SHORTAGE in
    InsufficientPoints, any other code and an absent code in CreateFail.
    The order is tagged with the error marker and [PID-<id>-<class>], an
    error line is logged for the class InsufficientPoints and only for it,
    and the loop goes on. *)
Theorem creation_failure_is_classified_and_tagged (env : remote) (cfg : config) :
  (forall message reason,
      classify (RemoteApiError message (Some "PRODUCT_NOT_FOUND") reason) = NotAvailable
      /\ classify (RemoteApiError message (Some "PRODUCT_SOLD_OUT") reason) = NotAvailable
      /\ classify (RemoteApiError message (Some "PRODUCT_ON_HOLD") reason) = NotAvailable
      /\ classify (RemoteApiError message (Some "INVALID_PRODUCT_PRICE") reason) = PriceChanged
      /\ classify (RemoteApiError message (Some "POINT_SHORTAGE") reason) = InsufficientPoints)
  /\ (forall apiError,
        match originalErrorCode apiError with
        | Some code => ~ In code knownErrorCodes
        | None => True
        end ->
        classify apiError = CreateFail)
  /\ (forall identifier gid pid item rest details apiError s l1 w1,
        resolves_to env item s (l1, w1) pid ->
        fault env (length (calls w1)) = None ->
        productDetails env (length (calls w1)) pid = Some details ->
        quantity item <= or_num (d_quantity details) 0 ->
        fault env (S (length (calls w1))) = Some apiError ->
        fault env (S (S (length (calls w1)))) = None ->
        exists w2,
          for_of (item :: rest) (processLineItem env cfg identifier gid) s
          = for_of rest (processLineItem env cfg identifier gid) (l1, w2)
          /\ calls w2
             = (calls w1 ++
                [GetBunjangProductDetails pid;
                 CreateBunjangOrderV2 (payload_for pid details);
                 UpdateOrder gid
                   [identifier +:+ "_Error";
                    "PID-" +:+ pid +:+ "-" +:+ class_name (classify apiError)] []])%list
          /\ orderTags w2 !! gid
             = Some (merge_tags (default [] (orderTags w1 !! gid))
                       [identifier +:+ "_Error";
                        "PID-" +:+ pid +:+ "-" +:+ class_name (classify apiError)])
          /\ (In (LError, "CRITICAL: Insufficient Bunjang points")
                 (drop (length (logs w1)) (logs w2))
              <-> classify apiError = InsufficientPoints)).
Proof.
  split; [|split].
  - intros. repeat split; reflexivity.
  - intros apiError H. unfold classify.
    destruct (originalErrorCode apiError) as [code|]; [|reflexivity].
    destruct (truthy_string code); [|reflexivity].
    now apply classify_errorCode_other.
  - intros identifier gid pid item rest details apiError s l1 w1 Hres Hf Hd Hq He Htag.
    exists (after_failure identifier gid pid (FailCreate details apiError) w1).
    split; [|split; [|split]].
    + apply failed_item_continues; trivial.
      * split; [exact Hf|]. repeat split; assumption.
      * cbn [failure_calls length].
        now replace (length (calls w1) + 2)%nat with (S (S (length (calls w1)))) by lia.
    + reflexivity.
    + cbn [after_failure orderTags]. apply lookup_insert_eq.
    + cbn [after_failure logs]. rewrite drop_app_length. cbn [failure_logs].
      destruct (classify apiError); cbn; split; intros H;
        try reflexivity; try discriminate; try tauto;
        repeat match goal with
               | H : _ \/ _ |- _ => destruct H as [H|H]
               | H : (_, _) = (_, _) |- _ => inversion H
               | H : False |- _ => destruct H
               end.
Qed.

(** C10: when the creation of the order returns normally with a response
    that carries no order id, no id is recorded and the flag of the overall
    success is not set (the local variables are unchanged), the order is
    tagged with the error marker and [PID-<id>-NoOrderId], and the loop
    goes on with the next item. *)
Theorem response_without_id_is_tagged_and_skipped (env : remote) (cfg : config)
    (identifier gid pid : string) (item : lineItem) (rest : list lineItem)
    (details : bunjangProductDetails) (s : orderLocals * world)
    (l1 : orderLocals) (w1 : world)
    (Hres : resolves_to env item s (l1, w1) pid)
    (Hread : fault env (length (calls w1)) = None)
    (Hdetails : productDetails env (length (calls w1)) pid = Some details)
    (Hstock : quantity item <= or_num (d_quantity details) 0)
    (Hcreate : fault env (S (length (calls w1))) = None)
    (Hnoid : response_id (createOrderResponse env (S (length (calls w1)))
                            (payload_for pid details)) = None)
    (Htag : fault env (S (S (length (calls w1)))) = None) :
  exists w2,
    for_of (item :: rest) (processLineItem env cfg identifier gid) s
    = for_of rest (processLineItem env cfg identifier gid) (l1, w2)
    /\ calls w2
       = (calls w1 ++
          [GetBunjangProductDetails pid;
           CreateBunjangOrderV2 (payload_for pid details);
           UpdateOrder gid [identifier +:+ "_Error"; "PID-" +:+ pid +:+ "-NoOrderId"] []])%list
    /\ orderTags w2 !! gid
       = Some (merge_tags (default [] (orderTags w1 !! gid))
                 [identifier +:+ "_Error"; "PID-" +:+ pid +:+ "-NoOrderId"]).
Proof.
  exists (after_failure identifier gid pid (FailNoOrderId details) w1).
  split; [|split].
  - apply failed_item_continues; trivial.
    + split; [exact Hread|]. repeat split; assumption.
    + cbn [failure_calls length].
      now replace (length (calls w1) + 2)%nat with (S (S (length (calls w1)))) by lia.
  - reflexivity.
  - cbn [after_failure orderTags]. apply lookup_insert_eq.
Qed.

(** ** The claims at concrete orders *)

(** The world in which the loop of a first run starts. *)
Definition loopStart (id : Z) (w : world) : world :=
  record_call (GetOrderMetafield (orderGid id) "bunjang" "order_ids")
    (record_log LInfo "Processing Shopify Order for Bunjang" w).

Lemma fresh_in_shop faults id items :
  faults 0%nat = None ->
  id <> 0 ->
  items <> [] ->
  fresh_order (market faults) (orderOf id items) shop id (orderGid id)
    (map (fun pq => itemOf (fst pq) (snd pq)) items) (loopStart id shop).
Proof.
  intros Hf Hid Hitems. split.
  - unfold validated, orderOf. cbn [order_id admin_graphql_api_id line_items].
    destruct items as [|pq items]; [now elim Hitems|]. cbn [map].
    unfold truthy_num. destruct (Z.eqb_spec id 0) as [->|_]; [now elim Hid|].
    reflexivity.
  - unfold checkAlreadyProcessed, try_catch, getOrderMetafield.
    unfold bind at 1. unfold bind at 1. unfold startOf.
    rewrite invoke_ok by exact Hf. reflexivity.
Qed.

(** The order O2 of the specification: two units of a listing that has one. *)
Lemma insufficient_stock_is_tagged_and_skipped_witness :
  exists w',
    processShopifyOrderForBunjang (market noFaults) defaults (orderOf 1002 [(4, 2)]) (tt, shop)
    = (Normal (mkOrderResult false None None (Some failureMessage)), (tt, w'))
    /\ calls w'
       = [GetOrderMetafield (orderGid 1002) "bunjang" "order_ids";
          DbFindOneByProduct 4;
          GetBunjangProductDetails "204";
          UpdateOrder (orderGid 1002)
            ["BunjangOrder-1002_Error"; "PID-204-InsufficientStock"] []]
    /\ orderTags w' !! orderGid 1002
       = Some ["BunjangOrder-1002_Error"; "PID-204-InsufficientStock"].
Proof.
  destruct (insufficient_stock_is_tagged_and_skipped (market noFaults) defaults)
    as [Hstep Hall].
  destruct (Hstep (bunjangOrderIdentifier defaults 1002) (orderGid 1002) "204" (itemOf 4 2) []
              (mkDetails (Some 30000) (Some 1) (Some 3000))
              (initialLocals, loopStart 1002 shop) initialLocals
              (record_call (DbFindOneByProduct 4) (loopStart 1002 shop)))
    as (w2 & Hloop & Hcalls & Htags).
  - apply resolves_directly with (d := mapping 4 "204"); reflexivity.
  - reflexivity.
  - reflexivity.
  - reflexivity.
  - reflexivity.
  - exists (record_log LWarn "No Bunjang orders created" w2). split; [|split].
    + apply (Hall unit (orderOf 1002 [(4, 2)]) tt shop 1002 (orderGid 1002) [itemOf 4 2]
               (loopStart 1002 shop) initialLocals w2).
      * apply (fresh_in_shop noFaults 1002 [(4, 2)]); [reflexivity | discriminate | discriminate].
      * exact Hloop.
      * reflexivity.
    + cbn [calls record_log]. rewrite Hcalls. vm_compute. reflexivity.
    + cbn [orderTags record_log]. rewrite Htags. vm_compute. reflexivity.
Defined.

(** The creation of the order is refused with the code POINT_SHORTAGE. *)
Lemma creation_failure_is_classified_and_tagged_witness :
  let env := market pointShortage in
  let body := processLineItem env defaults (bunjangOrderIdentifier defaults 1006) (orderGid 1006) in
  exists w2,
    for_of [itemOf 1 1] body (initialLocals, loopStart 1006 shop)
    = for_of [] body (initialLocals, w2)
    /\ calls w2
       = [GetOrderMetafield (orderGid 1006) "bunjang" "order_ids";
          DbFindOneByProduct 1;
          GetBunjangProductDetails "201";
          CreateBunjangOrderV2 (mkPayload "201" 50000 0);
          UpdateOrder (orderGid 1006)
            ["BunjangOrder-1006_Error"; "PID-201-InsufficientPoints"] []]
    /\ orderTags w2 !! orderGid 1006
       = Some ["BunjangOrder-1006_Error"; "PID-201-InsufficientPoints"]
    /\ In (LError, "CRITICAL: Insufficient Bunjang points") (logs w2).
Proof.
  intros env body.
  destruct (creation_failure_is_classified_and_tagged env defaults) as (_ & _ & Hstep).
  destruct (Hstep (bunjangOrderIdentifier defaults 1006) (orderGid 1006) "201" (itemOf 1 1) []
              (mkDetails (Some 50000) (Some 1) (Some 3000))
              (RemoteApiError "Request failed with status code 400" (Some "POINT_SHORTAGE")
                 (Some "not enough points"))
              (initialLocals, loopStart 1006 shop) initialLocals
              (record_call (DbFindOneByProduct 1) (loopStart 1006 shop)))
    as (w2 & Hloop & Hcalls & Htags & Hlog).
  - apply resolves_directly with (d := mapping 1 "201"); reflexivity.
  - reflexivity.
  - reflexivity.
  - discriminate.
  - reflexivity.
  - reflexivity.
  - exists w2. split; [exact Hloop|]. split; [|split].
    + rewrite Hcalls. vm_compute. reflexivity.
    + rewrite Htags. vm_compute. reflexivity.
    + apply proj2 in Hlog. specialize (Hlog eq_refl).
      clear - Hlog. revert Hlog. generalize (logs w2). intros l.
      generalize (length (logs (record_call (DbFindOneByProduct 1) (loopStart 1006 shop)))).
      intros n. revert l. induction n as [|n IH]; intros [|x l]; cbn; intros H; auto.
Defined.

(** The creation of the order answers without an id. *)
Lemma response_without_id_is_tagged_and_skipped_witness :
  let env := market noFaults in
  let body := processLineItem env defaults (bunjangOrderIdentifier defaults 1005) (orderGid 1005) in
  exists w2,
    for_of [itemOf 5 1] body (initialLocals, loopStart 1005 shop)
    = for_of [] body (initialLocals, w2)
    /\ calls w2
       = (calls (record_call (DbFindOneByProduct 5) (loopStart 1005 shop)) ++
          [GetBunjangProductDetails "205";
           CreateBunjangOrderV2 (mkPayload "205" 50000 0);
           UpdateOrder (orderGid 1005)
             [bunjangOrderIdentifier defaults 1005 +:+ "_Error";
              "PID-" +:+ "205" +:+ "-NoOrderId"] []])%list
    /\ orderTags w2 !! orderGid 1005
       = Some (merge_tags
                 (default [] (orderTags (record_call (DbFindOneByProduct 5)
                                           (loopStart 1005 shop)) !! orderGid 1005))
                 [bunjangOrderIdentifier defaults 1005 +:+ "_Error";
                  "PID-" +:+ "205" +:+ "-NoOrderId"]).
Proof.
  intros env body.
  apply (response_without_id_is_tagged_and_skipped env defaults
           (bunjangOrderIdentifier defaults 1005) (orderGid 1005) "205" (itemOf 5 1) []
           (mkDetails (Some 50000) (Some 1) (Some 3000))
           (initialLocals, loopStart 1005 shop) initialLocals
           (record_call (DbFindOneByProduct 5) (loopStart 1005 shop))).
  - apply resolves_directly with (d := mapping 5 "205"); reflexivity.
  - reflexivity.
  - reflexivity.
  - discriminate.
  - reflexivity.
  - reflexivity.
  - reflexivity.
Defined.

(** The order O1 of the specification, processed twice. *)
Lemma processShopifyOrderForBunjang_idempotent_witness :
  let env := market noFaults in
  let O1 := orderOf 1003 [(1, 1)] in
  exists r1 s1,
    processShopifyOrderForBunjang env defaults O1 (tt, shop) = (Normal r1, s1)
    /\ success r1 = true
    /\ bunjangOrderIds r1 = Some (JArr [JStr "9003"])
    /\ List.filter is_create (calls (snd s1)) = [CreateBunjangOrderV2 (mkPayload "201" 50000 0)]
    /\ exists gid,
         admin_graphql_api_id O1 = Some gid
         /\ processShopifyOrderForBunjang env defaults O1 s1
            = (Normal (alreadyProcessedResult (bunjangOrderIds r1)),
               (fst s1, skipped_world gid (snd s1)))
         /\ calls (skipped_world gid (snd s1))
            = (calls (snd s1) ++ [GetOrderMetafield gid "bunjang" "order_ids"])%list.
Proof.
  cbv zeta.
  exists (mkOrderResult true None (Some (JArr [JStr "9003"])) None).
  exists (snd (processShopifyOrderForBunjang (market noFaults) defaults
                 (orderOf 1003 [(1, 1)]) (tt, shop))).
  split; [vm_compute; reflexivity|].
  split; [reflexivity|]. split; [reflexivity|].
  split; [vm_compute; reflexivity|].
  apply (processShopifyOrderForBunjang_idempotent (market noFaults) defaults unit
           (orderOf 1003 [(1, 1)]) (tt, shop)).
  - vm_compute. reflexivity.
  - reflexivity.
  - reflexivity.
Defined.

(** C8: the pause of the full sync is keyed on the number of items synced
    so far, not on the number of items processed: with three mappings whose
    sync is skipped the counter stays at 0 and the pause is issued after
    each of the three items. *)
Theorem performFullInventorySync_pauses_on_synced_count :
  exists r w,
    run (performFullInventorySync silent) threeOrphans = (Normal r, w)
    /\ totalProducts r = 3%nat /\ synced r = 0 /\ skipped r = 3
    /\ sleeps 1000 (calls w) = 3%nat.
Proof.
  eexists. eexists. vm_compute. repeat split; reflexivity.
Qed.

(** * Further properties *)

(** ** Programs that return *)

(** The program returns normally from every state. *)
Definition never_throws {L A} (m : prog L A) : Prop :=
  forall s, exists a, fst (m s) = Normal a.

(** The program returns [v] from every state. *)
Definition returns {L A} (v : A) (m : prog L A) : Prop :=
  forall s, fst (m s) = Normal v.

(** The program leaves the local variables as they are. *)
Definition keeps_locals {L A} (m : prog L A) : Prop :=
  forall s, fst (snd (m s)) = fst s.

Section Returning.

Context {L : Type}.

Lemma returns_never_throws {A} (v : A) (m : prog L A) : returns v m -> never_throws m.
Proof. intros H s. exists v. apply H. Qed.

Lemma never_throws_ret {A} (a : A) : never_throws (L:=L) (ret a).
Proof. intros s. now exists a. Qed.

Lemma never_throws_logger lvl msg : never_throws (L:=L) (logger lvl msg).
Proof. intros s. now exists tt. Qed.

Lemma never_throws_bind {A B} (m : prog L A) (k : A -> prog L B) :
  never_throws m -> (forall a, never_throws (k a)) -> never_throws (bind m k).
Proof.
  intros Hm Hk s. unfold bind. destruct (Hm s) as [a Ha].
  destruct (m s) as [[a'|e] s1]; simpl in Ha; [|discriminate]. apply Hk.
Qed.

Lemma never_throws_try_catch {A} (m : prog L A) h :
  (forall e, never_throws (h e)) -> never_throws (try_catch m h).
Proof.
  intros Hh s. unfold try_catch. destruct (m s) as [[a|e] s1].
  - now exists a.
  - apply Hh.
Qed.

Lemma never_throws_for_of {X} (xs : list X) (body : X -> prog L unit) :
  (forall x, never_throws (body x)) -> never_throws (for_of xs body).
Proof.
  intros Hb. induction xs as [|x xs IH]; simpl.
  - apply never_throws_ret.
  - apply never_throws_bind; [apply Hb | intros _; exact IH].
Qed.

Lemma returns_ret {A} (a : A) : returns (L:=L) a (ret a).
Proof. intros s. reflexivity. Qed.

Lemma returns_bind {A B} (v : B) (m : prog L A) (k : A -> prog L B) :
  never_throws m -> (forall a, returns v (k a)) -> returns v (bind m k).
Proof.
  intros Hm Hk s. unfold bind. destruct (Hm s) as [a Ha].
  destruct (m s) as [[a'|e] s1]; simpl in Ha; [|discriminate]. apply Hk.
Qed.

Lemma returns_try_catch {A} (v : A) (m : prog L A) h :
  returns v m -> returns v (try_catch m h).
Proof.
  intros Hm s. unfold try_catch. specialize (Hm s).
  destruct (m s) as [[a|e] s1]; simpl in *; [exact Hm | discriminate].
Qed.

Lemma keeps_locals_of_preserves {A} (m : prog L A) :
  (forall l0, preserves (fun s => fst s = l0) m) -> keeps_locals m.
Proof. intros H s. now apply (H (fst s)). Qed.

End Returning.

Ltac same_locals := intros ? ? Hx; exact Hx.

(** ** The webhooks *)

Section Webhooks.

Context (env : remote) (cfg : config) {L : Type}.

Lemma orderCreatedLineItem_never_throws item :
  never_throws (L:=L) (orderCreatedLineItem env item).
Proof.
  unfold orderCreatedLineItem. apply never_throws_try_catch.
  intros e. apply never_throws_logger.
Qed.

Lemma restoreLineItem_never_throws item :
  never_throws (L:=L) (restoreLineItem env item).
Proof.
  unfold restoreLineItem. apply never_throws_try_catch.
  intros e. apply never_throws_logger.
Qed.

End Webhooks.

Section Payloads.

Context (env : remote) (cfg : config) {L : Type}.

(** The routes on an order are the routes on the payload of its line items. *)
Lemma for_of_objects (handler : lineItem -> prog L unit)
    (onPayload : option lineItem -> prog L unit) (items : list lineItem) :
  (forall item, onPayload (Some item) = handler item) ->
  for_of (map Some items) onPayload = for_of items handler.
Proof.
  intros H. induction items as [|item items IH]; cbn [map for_of]; [reflexivity|].
  now rewrite H, IH.
Qed.

Lemma ordersCreate_on_objects order :
  ordersCreate (L:=L) env cfg order
  = ordersCreateOn env (processShopifyOrderForBunjang env cfg order)
      (map Some (items_of order)).
Proof.
  unfold ordersCreate, ordersCreateOn.
  now rewrite (for_of_objects (orderCreatedLineItem env) (orderCreatedPayloadItem env)).
Qed.

Lemma ordersUpdated_on_objects order :
  ordersUpdated (L:=L) env order
  = ordersUpdatedOn env (cancelled_at order) (map Some (items_of order)).
Proof.
  unfold ordersUpdated, ordersUpdatedOn.
  now rewrite (for_of_objects (restoreLineItem env) (restorePayloadItem env)).
Qed.

Lemma ordersCancelled_on_objects order :
  ordersCancelled (L:=L) env order = ordersCancelledOn env (map Some (items_of order)).
Proof.
  unfold ordersCancelled, ordersCancelledOn.
  now rewrite (for_of_objects (restoreLineItem env) (restorePayloadItem env)).
Qed.

(** The loop over the line items returns when they are all objects, and
    throws at the first [null]. *)
Lemma payload_loop (handler : lineItem -> prog L unit)
    (onPayload : option lineItem -> prog L unit) (lineItems : list (option lineItem)) :
  (forall item, never_throws (handler item)) ->
  (forall item, onPayload (Some item) = handler item) ->
  onPayload None = throw nullLineItemError ->
  forall s,
    fst (for_of lineItems onPayload s)
    = if forallb is_object lineItems then Normal tt else Throw nullLineItemError.
Proof.
  intros Hnever Hobject Hnull.
  induction lineItems as [|[item|] rest IH]; intros s; cbn [for_of forallb is_object andb].
  - reflexivity.
  - rewrite Hobject. unfold bind. destruct (Hnever item s) as [[] Hok].
    destruct (handler item s) as [[[]|e] s1]; cbn in Hok; [apply IH | discriminate].
  - rewrite Hnull. reflexivity.
Qed.

End Payloads.

(** The status that the order webhooks reply with on a payload. *)
Definition reply_to (lineItems : list (option lineItem)) : Z :=
  if forallb is_object lineItems then 200 else 500.

(** X1: on an order whose line items are objects the three order webhooks
    reply 200 whatever the stores and the marketplace answer: a failure of
    the order placement or of the inventory of a line item is logged, never
    replied. A [null] line item is what makes them reply 500:
    [/orders/create], whatever the placement does, and [/orders/cancelled]
    reply 500 exactly when a line item is [null], and [/orders/updated] does
    so when the order is cancelled as well. *)
Theorem order_webhooks_always_acknowledge
    (env : remote) (cfg : config) (L : Type) (s : L * world) :
  (forall order : shopifyOrder,
      fst (ordersCreate env cfg order s) = Normal 200
      /\ fst (ordersUpdated env order s) = Normal 200
      /\ fst (ordersCancelled env order s) = Normal 200)
  /\ (forall (placement : prog L orderResult) (cancelledAt : option string)
             (lineItems : list (option lineItem)),
        fst (ordersCreateOn env placement lineItems s) = Normal (reply_to lineItems)
        /\ fst (ordersCancelledOn env lineItems s) = Normal (reply_to lineItems)
        /\ fst (ordersUpdatedOn env cancelledAt lineItems s)
           = Normal (if truthy_string (default "" cancelledAt) then reply_to lineItems
                     else 200)).
Proof.
  assert (Hcreated := fun lineItems =>
            payload_loop (L:=L) (orderCreatedLineItem env) (orderCreatedPayloadItem env)
              lineItems (orderCreatedLineItem_never_throws env) (fun _ => eq_refl) eq_refl).
  assert (Hrestored := fun lineItems =>
            payload_loop (L:=L) (restoreLineItem env) (restorePayloadItem env)
              lineItems (restoreLineItem_never_throws env) (fun _ => eq_refl) eq_refl).
  assert (Hpayload : forall (placement : prog L orderResult) cancelledAt lineItems,
             fst (ordersCreateOn env placement lineItems s) = Normal (reply_to lineItems)
             /\ fst (ordersCancelledOn env lineItems s) = Normal (reply_to lineItems)
             /\ fst (ordersUpdatedOn env cancelledAt lineItems s)
                = Normal (if truthy_string (default "" cancelledAt) then reply_to lineItems
                          else 200)).
  { intros placement cancelledAt lineItems. destruct s as [l w]. unfold reply_to.
    split; [|split].
    - unfold ordersCreateOn. unfold try_catch at 1. rewrite logger_bind.
      unfold bind at 1.
      destruct (try_catch _ _ _) as [[[]|e] s1] eqn:Hplacement.
      + unfold bind at 1. specialize (Hcreated lineItems s1).
        destruct (for_of lineItems _ s1) as [[[]|e] s2]; cbn [fst] in Hcreated;
          destruct (forallb is_object lineItems); try discriminate; reflexivity.
      + exfalso. revert Hplacement. unfold try_catch. rewrite logger_bind.
        destruct (bind placement _ _) as [[[]|e'] s2]; cbn; discriminate.
    - unfold ordersCancelledOn. unfold try_catch at 1. rewrite logger_bind.
      unfold bind at 1. specialize (Hrestored lineItems (l, record_log LInfo "Order cancelled" w)).
      destruct (for_of lineItems _ _) as [[[]|e] s2]; cbn [fst] in Hrestored;
        destruct (forallb is_object lineItems); try discriminate; reflexivity.
    - unfold ordersUpdatedOn. unfold try_catch at 1. rewrite logger_bind.
      unfold bind at 1.
      destruct cancelledAt as [t|]; unfold default; cbn [from_option id]; [|reflexivity].
      destruct (truthy_string t); [|reflexivity].
      rewrite logger_bind.
      match goal with
      | |- context [for_of lineItems _ ?st] => specialize (Hrestored lineItems st)
      end.
      destruct (for_of lineItems _ _) as [[[]|e] s2]; cbn [fst] in Hrestored;
        destruct (forallb is_object lineItems); try discriminate; reflexivity. }
  split; [|exact Hpayload].
  intros order.
  assert (Hobjects : reply_to (map Some (items_of order)) = 200).
  { unfold reply_to. replace (forallb is_object (map Some (items_of order))) with true;
      [reflexivity|].
    symmetry. apply forallb_forall. intros x [item [<- _]]%in_map_iff. reflexivity. }
  destruct (Hpayload (processShopifyOrderForBunjang env cfg order) (cancelled_at order)
              (map Some (items_of order))) as (Hc & Hx & Hu).
  rewrite Hobjects in Hc, Hx, Hu.
  rewrite ordersCreate_on_objects, ordersUpdated_on_objects, ordersCancelled_on_objects.
  split; [exact Hc|]. split; [|exact Hx].
  rewrite Hu. now destruct (truthy_string _).
Qed.

(** ** The operations built on the inventory sync *)

Section InventoryOperations.

Context (env : remote) {L : Type}.

Lemma verifyLevels_keeps_locals item levels correct (l0 : L) :
  preserves (fun s => fst s = l0) (verifyLevels env item 1 levels correct).
Proof.
  revert correct. induction levels as [|level rest IH]; intros; simpl.
  - apply preserves_ret.
  - unfold updateInventoryLevel, logger.
    destruct (String.eqb _ _); preserves_with same_locals.
Qed.

Lemma syncBunjangInventoryToShopify_keeps_locals pid q :
  keeps_locals (L:=L) (syncBunjangInventoryToShopify env pid q).
Proof.
  apply keeps_locals_of_preserves. intros l0.
  pose proof (fun item levels correct => verifyLevels_keeps_locals item levels correct l0).
  unfold syncBunjangInventoryToShopify, SyncedProduct_findOne_byPid, queryProductVariants,
    logInventoryLevels, enableInventoryTracking, activateInventoryAtLocation,
    inventorySetOnHandQuantities, queryInventoryLevels, SyncedProduct_updateOne_inventory,
    sleep, logger.
  preserves_with same_locals.
Qed.

End InventoryOperations.

(** The body of the loop of [batchSyncInventory]. *)
Definition batchItem (env : remote) (pid : string) : prog batchResults unit :=
  try_catch
    (let* result := syncBunjangInventoryToShopify env pid 1 in
     if (result : bool) then set_local (batch_add true (mkBatchDetail pid true (Some 1) None))
     else set_local (batch_add false (mkBatchDetail pid false (Some 1) None)))
    (fun error => set_local (batch_add false (mkBatchDetail pid false None (Some error)))).

Lemma batchItem_step env pid (s : batchResults * world) :
  exists ok d w',
    batchItem env pid s = (Normal tt, (batch_add ok d (fst s), w'))
    /\ bd_pid d = pid.
Proof.
  unfold batchItem, try_catch. unfold bind at 1.
  pose proof (syncBunjangInventoryToShopify_keeps_locals env pid 1 s) as Hl.
  destruct (syncBunjangInventoryToShopify env pid 1 s) as [[[|]|e] [l1 w1]];
    cbn in Hl; subst l1; cbn; eauto.
Qed.

Lemma batch_loop env (updates : list string) (s : batchResults * world) :
  exists l' w',
    for_of updates (batchItem env) s = (Normal tt, (l', w'))
    /\ batch_success l' + batch_failed l'
       = batch_success (fst s) + batch_failed (fst s) + Z.of_nat (length updates)
    /\ batch_deleted l' = batch_deleted (fst s)
    /\ map bd_pid (batch_details l') = (map bd_pid (batch_details (fst s)) ++ updates)%list.
Proof.
  revert s. induction updates as [|pid rest IH]; intros s.
  - exists (fst s), (snd s). destruct s as [l w]. cbn. rewrite app_nil_r.
    repeat split; lia.
  - destruct (batchItem_step env pid s) as (ok & d & w1 & Hstep & Hpid).
    destruct (IH (batch_add ok d (fst s), w1)) as (l' & w' & Hrest & Hsum & Hdel & Hpids).
    exists l', w'. cbn [for_of]. rewrite (bind_Normal _ _ _ _ _ Hstep).
    split; [exact Hrest|]. cbn [fst] in *. split; [|split].
    + rewrite Hsum. cbn [length]. unfold batch_add. cbn. destruct ok; lia.
    + rewrite Hdel. reflexivity.
    + rewrite Hpids. unfold batch_add. cbn. rewrite map_app, <- app_assoc. cbn.
      now rewrite Hpid.
Qed.

(** X2: [batchSyncInventory] never throws: it returns one detail per update,
    in the order of the updates, and counts every update as a success or as
    a failure, whatever happens to the sync of each of them. *)
Theorem batchSyncInventory_accounts_for_every_update
    (env : remote) (L : Type) (updates : list string) (s : L * world) :
  exists r w',
    batchSyncInventory env updates s = (Normal r, (fst s, w'))
    /\ batch_success r + batch_failed r = Z.of_nat (length updates)
    /\ batch_deleted r = 0
    /\ map bd_pid (batch_details r) = updates.
Proof.
  unfold batchSyncInventory, scoped.
  destruct (batch_loop env updates (mkBatchResults 0 0 0 [], snd s))
    as (l' & w' & Hloop & Hsum & Hdel & Hpids).
  fold (batchItem env).
  change (for_of updates (fun pid => batchItem env pid)) with (for_of updates (batchItem env)).
  rewrite (bind_Normal _ _ _ _ _ Hloop). cbn.
  exists l', (record_log LInfo "Batch inventory sync completed" w').
  repeat split; assumption.
Qed.

(** The three counters of the full sync add up to this number. *)
Definition processed (r : fullSyncResults) : Z := synced r + failed r + skipped r.

Lemma fullSyncItem_step env product (s : fullSyncResults * world) :
  exists l' w',
    fullSyncItem env product s = (Normal tt, (l', w'))
    /\ processed l' = processed (fst s) + 1
    /\ totalProducts l' = totalProducts (fst s)
    /\ deleted l' = deleted (fst s).
Proof.
  unfold fullSyncItem. unfold bind at 1. unfold try_catch. unfold bind at 1.
  pose proof (syncBunjangInventoryToShopify_keeps_locals env
                (default "" (bunjangPid product)) 1 s) as Hl.
  destruct (syncBunjangInventoryToShopify env _ 1 s) as [[[|]|e] [l1 w1]];
    cbn in Hl; subst l1; cbn [set_local fst snd bind logger set_world];
    unfold bind; cbn [get_local fst snd];
    match goal with
    | |- context [if ?c then _ else _] => destruct c
    end;
    cbn; eexists; eexists; (split; [reflexivity|]);
    unfold processed; destruct s as [[] w]; cbn; repeat split; lia.
Qed.

Lemma fullSync_loop env (products : list SyncedProduct) (s : fullSyncResults * world) :
  exists l' w',
    for_of products (fullSyncItem env) s = (Normal tt, (l', w'))
    /\ processed l' = processed (fst s) + Z.of_nat (length products)
    /\ totalProducts l' = totalProducts (fst s)
    /\ deleted l' = deleted (fst s).
Proof.
  revert s. induction products as [|p rest IH]; intros s.
  - exists (fst s), (snd s). destruct s. cbn. repeat split; lia.
  - destruct (fullSyncItem_step env p s) as (l1 & w1 & Hstep & Hp & Ht & Hd).
    destruct (IH (l1, w1)) as (l' & w' & Hrest & Hp' & Ht' & Hd').
    exists l', w'. cbn [for_of]. rewrite (bind_Normal _ _ _ _ _ Hstep).
    split; [exact Hrest|]. cbn [fst] in *. cbn [length].
    repeat split; [lia | congruence | congruence].
Qed.

(** The mappings that the full sync lists. *)
Definition listedForFullSync (w : world) : list SyncedProduct :=
  take 1000 (List.filter is_synced_with_pid (db w)).

(** X3: once the mapping store has answered the listing,
    [performFullInventorySync] returns: no failure of the sync of a mapping
    aborts it. [totalProducts] is the number of listed mappings, at most
    1000, and each of them is counted exactly once, as synced, failed or
    skipped. *)
Theorem performFullInventorySync_accounts_for_every_mapping
    (env : remote) (L : Type) (s : L * world)
    (Hlisted : fault env (length (calls (snd s))) = None) :
  exists r w',
    performFullInventorySync env s = (Normal r, (fst s, w'))
    /\ totalProducts r = length (listedForFullSync (snd s))
    /\ (totalProducts r <= 1000)%nat
    /\ synced r + failed r + skipped r = Z.of_nat (totalProducts r)
    /\ deleted r = 0.
Proof.
  destruct s as [l w]. cbn [fst snd] in *.
  unfold performFullInventorySync, scoped. cbn [fst snd]. rewrite logger_bind.
  unfold try_catch, SyncedProduct_find_synced.
  unfold bind at 1. unfold bind at 1. unfold bind at 1.
  rewrite invoke_ok by exact Hlisted.
  cbn [get_world ret snd fst db record_call record_log]. unfold bind at 1.
  cbn [set_local fst snd]. fold (listedForFullSync w). unfold bind at 1.
  match goal with
  | |- context [for_of ?ps ?body ?st] =>
      destruct (fullSync_loop env ps st) as (l' & w' & Hloop & Hp & Ht & Hd)
  end.
  rewrite Hloop. cbn.
  exists l', (record_log LInfo "Full inventory sync completed" w').
  cbn in Hp, Ht, Hd. unfold processed in Hp. cbn in Hp.
  split; [reflexivity|]. rewrite Ht.
  split; [reflexivity|]. split; [|split].
  - unfold listedForFullSync. rewrite length_take. lia.
  - lia.
  - exact Hd.
Qed.

(** X4: when the marketplace no longer knows the listing,
    [checkAndSyncBunjangInventory] returns -1 after that one read and
    touches nothing; when the listing exists and the sync returns, it
    returns 1 whether the sync reported [true] or [false]. *)
Theorem checkAndSyncBunjangInventory_result
    (env : remote) (L : Type) (pid : string) (l : L) (w : world)
    (Hread : fault env (length (calls w)) = None) :
  (productDetails env (length (calls w)) pid = None ->
   checkAndSyncBunjangInventory env pid (l, w)
   = (Normal (-1),
      (l, record_log LWarn "Could not fetch Bunjang product details"
            (record_call (GetBunjangProductDetails pid) w))))
  /\ (forall details synced s',
        productDetails env (length (calls w)) pid = Some details ->
        syncBunjangInventoryToShopify env pid 1
          (l, record_call (GetBunjangProductDetails pid) w) = (Normal synced, s') ->
        checkAndSyncBunjangInventory env pid (l, w) = (Normal 1, s')).
Proof.
  split.
  - intros Hd.
    unfold checkAndSyncBunjangInventory, try_catch, getBunjangProductDetails.
    unfold bind at 1. unfold bind at 1. rewrite invoke_ok by exact Hread. cbn [ret].
    now rewrite Hd.
  - intros details synced s' Hd Hsync.
    unfold checkAndSyncBunjangInventory, try_catch, getBunjangProductDetails.
    unfold bind at 1. unfold bind at 1. rewrite invoke_ok by exact Hread. cbn [ret].
    rewrite Hd. unfold bind at 1. now rewrite Hsync.
Qed.

(** A listing that the marketplace knows but that no mapping links: the
    sync reports [false] and the result is 1 all the same. *)
Lemma checkAndSyncBunjangInventory_result_witness :
  checkAndSyncBunjangInventory silent "999" (tt, emptyWorld)
  = (Normal (-1),
     (tt, record_log LWarn "Could not fetch Bunjang product details"
            (record_call (GetBunjangProductDetails "999") emptyWorld)))
  /\ exists s',
       syncBunjangInventoryToShopify stocked "999" 1
         (tt, record_call (GetBunjangProductDetails "999") oversold) = (Normal false, s')
       /\ checkAndSyncBunjangInventory stocked "999" (tt, oversold) = (Normal 1, s').
Proof.
  split.
  - apply (proj1 (checkAndSyncBunjangInventory_result silent unit "999" tt emptyWorld eq_refl)).
    reflexivity.
  - exists (snd (syncBunjangInventoryToShopify stocked "999" 1
                   (tt, record_call (GetBunjangProductDetails "999") oversold))).
    split; [vm_compute; reflexivity|].
    apply (proj2 (checkAndSyncBunjangInventory_result stocked unit "999" tt oversold eq_refl)
             (mkDetails (Some 50000) (Some 1) (Some 3000)) false).
    + reflexivity.
    + vm_compute. reflexivity.
Defined.

Lemma performFullInventorySync_accounts_for_every_mapping_witness :
  exists r w',
    performFullInventorySync silent (tt, threeOrphans) = (Normal r, (tt, w'))
    /\ totalProducts r = length (listedForFullSync threeOrphans)
    /\ (totalProducts r <= 1000)%nat
    /\ synced r + failed r + skipped r = Z.of_nat (totalProducts r)
    /\ deleted r = 0.
Proof.
  exact (performFullInventorySync_accounts_for_every_mapping silent unit (tt, threeOrphans)
           eq_refl).
Defined.

(** ** What the inventory sync leaves alone *)

(** Everything the sync must not change when it only pins the warehouse:
    the quantity at one other place, and the tags and metafields of the
    orders. *)
Definition elsewhere (key : string * string) (w0 : world) {L} (s : L * world) : Prop :=
  onHand (snd s) !! key = onHand w0 !! key
  /\ orderTags (snd s) = orderTags w0
  /\ orderMetafields (snd s) = orderMetafields w0.

Ltac stays_elsewhere :=
  intros ? ? (Hq & Ht & Hm); unfold elsewhere in *;
  cbn [snd fst onHand orderTags orderMetafields record_log record_call set_onHand set_db] in *;
  first
    [ repeat split; assumption
    | split; [ | split; assumption ];
      rewrite lookup_insert_ne by (intros Heq; inversion Heq; congruence); exact Hq ].

Section Elsewhere.

Context (env : remote) {L : Type} (w0 : world) (item loc : string)
  (Hloc : loc <> BUNJANG_WAREHOUSE_GID).

Lemma verifyLevels_elsewhere item' levels correct :
  preserves (L:=L) (elsewhere (item, loc) w0) (verifyLevels env item' 1 levels correct).
Proof.
  revert correct. induction levels as [|level rest IH]; intros; simpl.
  - apply preserves_ret.
  - unfold updateInventoryLevel, logger.
    destruct (String.eqb _ _); preserves_with stays_elsewhere.
Qed.

Lemma syncBunjangInventoryToShopify_elsewhere pid q :
  preserves (L:=L) (elsewhere (item, loc) w0) (syncBunjangInventoryToShopify env pid q).
Proof.
  pose proof verifyLevels_elsewhere.
  unfold syncBunjangInventoryToShopify, SyncedProduct_findOne_byPid, queryProductVariants,
    logInventoryLevels, enableInventoryTracking, activateInventoryAtLocation,
    inventorySetOnHandQuantities, queryInventoryLevels, SyncedProduct_updateOne_inventory,
    sleep, logger.
  preserves_with stays_elsewhere.
Qed.

End Elsewhere.

(** X5: [syncBunjangInventoryToShopify] writes a quantity at the BunJang
    Warehouse location only: whether it returns or throws, the on-hand
    quantity of every inventory item at every other location is what it
    was, and so are the tags and the metafields of the orders. *)
Theorem syncBunjangInventoryToShopify_writes_at_the_warehouse_only
    (env : remote) (L : Type) (pid : string) (q : Z) (s : L * world)
    (item loc : string) (Hloc : loc <> BUNJANG_WAREHOUSE_GID) :
  let w' := snd (snd (syncBunjangInventoryToShopify env pid q s)) in
  onHand w' !! (item, loc) = onHand (snd s) !! (item, loc)
  /\ orderTags w' = orderTags (snd s)
  /\ orderMetafields w' = orderMetafields (snd s).
Proof.
  apply (syncBunjangInventoryToShopify_elsewhere env (snd s) item loc Hloc pid q s).
  repeat split.
Qed.

Definition otherLocation : string := "gid://shopify/Location/1".

Lemma syncBunjangInventoryToShopify_writes_at_the_warehouse_only_witness :
  otherLocation <> BUNJANG_WAREHOUSE_GID
  /\ let s := (tt, set_onHand (fun m => <[(itemOf101, otherLocation) := 5]> m) oversold) in
     let w' := snd (snd (syncBunjangInventoryToShopify stocked "101" 0 s)) in
     onHand w' !! (itemOf101, otherLocation) = onHand (snd s) !! (itemOf101, otherLocation)
     /\ orderTags w' = orderTags (snd s)
     /\ orderMetafields w' = orderMetafields (snd s).
Proof.
  assert (H : otherLocation <> BUNJANG_WAREHOUSE_GID) by discriminate.
  split; [exact H|].
  exact (syncBunjangInventoryToShopify_writes_at_the_warehouse_only stocked unit "101" 0
           (tt, set_onHand (fun m => <[(itemOf101, otherLocation) := 5]> m) oversold)
           itemOf101 otherLocation H).
Defined.

(** X6: when [syncBunjangInventoryToShopify] returns [false] it has written
    nothing: it has only looked the mapping up, and asked the storefront
    for the variant when the mapping is linked; the mapping store, the
    quantities and the orders are untouched. *)
Theorem syncBunjangInventoryToShopify_false_writes_nothing
    (env : remote) (L : Type) (pid : string) (q : Z) (s s' : L * world)
    (H : syncBunjangInventoryToShopify env pid q s = (Normal false, s')) :
  db (snd s') = db (snd s)
  /\ onHand (snd s') = onHand (snd s)
  /\ orderTags (snd s') = orderTags (snd s)
  /\ orderMetafields (snd s') = orderMetafields (snd s)
  /\ (calls (snd s') = (calls (snd s) ++ [DbFindOneByPid pid])%list
      \/ exists gid,
           linked_gid (List.find (matches_pid pid) (db (snd s))) = Some gid
           /\ calls (snd s')
              = (calls (snd s) ++ [DbFindOneByPid pid; ProductVariantsQuery gid])%list).
Proof.
  destruct s as [l w].
  unfold syncBunjangInventoryToShopify in H.
  apply try_catch_rethrow_inv in H.
  apply bind_inv in H. destruct H as (? & s0 & H0 & H).
  inversion H0; subst; clear H0.
  apply bind_inv in H. destruct H as (sp & s1 & H1 & H).
  unfold SyncedProduct_findOne_byPid in H1.
  apply bind_inv in H1. destruct H1 as (n0 & s0 & H0 & H1).
  apply invoke_inv in H0. destruct H0 as (F0 & -> & ->). simpl in H1.
  inversion H1; subst sp s1; clear H1.
  destruct (linked_gid (List.find (matches_pid pid) (db w))) as [gid|] eqn:Hgid.
  - cbv zeta in H.
    apply bind_inv in H. destruct H as (resp & s1 & H1 & H).
    unfold queryProductVariants in H1.
    apply bind_inv in H1. destruct H1 as (n1 & s0 & H0 & H1).
    apply invoke_inv in H0. destruct H0 as (F1 & -> & ->).
    inversion H1; subst resp s1; clear H1.
    destruct (productVariant env _ gid) as [variant|].
    + exfalso.
      do 7 (apply bind_inv in H; destruct H as (? & ? & _ & H)).
      apply bind_inv in H. destruct H as (userErrors & s8 & _ & H).
      destruct userErrors.
      * do 8 (apply bind_inv in H; destruct H as (? & ? & _ & H)).
        inversion H.
      * apply bind_inv in H. destruct H as (? & ? & _ & H). inversion H.
    + inversion H; subst. cbn. do 4 (split; [reflexivity|]). right. exists gid.
      split; [exact Hgid|]. now rewrite <- app_assoc.
  - inversion H; subst. cbn. do 4 (split; [reflexivity|]). now left.
Qed.

Lemma syncBunjangInventoryToShopify_false_writes_nothing_witness :
  let s' := snd (syncBunjangInventoryToShopify silent "101" 1 (tt, threeOrphans)) in
  syncBunjangInventoryToShopify silent "101" 1 (tt, threeOrphans) = (Normal false, s')
  /\ db (snd s') = db threeOrphans
  /\ onHand (snd s') = onHand threeOrphans.
Proof.
  cbv zeta.
  assert (H : syncBunjangInventoryToShopify silent "101" 1 (tt, threeOrphans)
              = (Normal false,
                 snd (syncBunjangInventoryToShopify silent "101" 1 (tt, threeOrphans))))
    by (vm_compute; reflexivity).
  split; [exact H|].
  destruct (syncBunjangInventoryToShopify_false_writes_nothing silent unit "101" 1
              (tt, threeOrphans) _ H) as (Hdb & Hq & _).
  split; assumption.
Defined.

(** ** The order placement, further *)

(** X7: an order without an id (missing or 0), without a global id (missing
    or empty) or without line items (no array or an empty one) is refused
    with the [ValidationError] of line 24 before any call is issued. *)
Theorem processShopifyOrderForBunjang_rejects_malformed_order
    (env : remote) (cfg : config) (L : Type) (order : shopifyOrder) (s : L * world)
    (Hbad : order_id order = None \/ order_id order = Some 0
            \/ admin_graphql_api_id order = None \/ admin_graphql_api_id order = Some ""
            \/ line_items order = None \/ line_items order = Some []) :
  processShopifyOrderForBunjang env cfg order s
  = (Throw invalidOrderError,
     (fst s, record_log LInfo "Processing Shopify Order for Bunjang" (snd s))).
Proof.
  assert (Hv : validated order = None).
  { unfold validated.
    destruct Hbad as [H|[H|[H|[H|[H|H]]]]]; rewrite H; try reflexivity.
    - destruct (admin_graphql_api_id order); [|reflexivity].
      now destruct (line_items order) as [[|]|].
    - now destruct (order_id order).
    - destruct (order_id order) as [id|]; [|reflexivity].
      destruct (line_items order) as [[|]|]; try reflexivity.
      cbn. now rewrite andb_false_r.
    - destruct (order_id order); [|reflexivity].
      now destruct (admin_graphql_api_id order).
    - destruct (order_id order); [|reflexivity].
      now destruct (admin_graphql_api_id order). }
  unfold processShopifyOrderForBunjang, scoped. rewrite logger_bind. now rewrite Hv.
Qed.

Lemma processShopifyOrderForBunjang_rejects_malformed_order_witness :
  line_items (mkShopifyOrder (Some 12345) (Some "gid://shopify/Order/12345") (Some []) None)
  = Some []
  /\ processShopifyOrderForBunjang silent defaults
       (mkShopifyOrder (Some 12345) (Some "gid://shopify/Order/12345") (Some []) None)
       (tt, emptyWorld)
     = (Throw invalidOrderError,
        (tt, record_log LInfo "Processing Shopify Order for Bunjang" emptyWorld)).
Proof.
  split; [reflexivity|].
  apply (processShopifyOrderForBunjang_rejects_malformed_order silent defaults unit
           (mkShopifyOrder (Some 12345) (Some "gid://shopify/Order/12345") (Some []) None)
           (tt, emptyWorld)).
  do 5 right. reflexivity.
Defined.

(** X8: the check for an earlier run fails open. It never throws; when the
    read of the metafield fails, or when the stored value is a string that
    does not parse as JSON, it reports that the order was not processed and
    the placement goes on. *)
Theorem checkAlreadyProcessed_fails_open
    (env : remote) (L : Type) (gid : string) (l : L) (w : world) :
  (exists r s', checkAlreadyProcessed env gid (l, w) = (Normal r, s'))
  /\ (forall e,
        fault env (length (calls w)) = Some e ->
        checkAlreadyProcessed env gid (l, w)
        = (Normal None,
           (l, record_log LWarn "Could not check existing order metadata"
                 (record_call (GetOrderMetafield gid "bunjang" "order_ids") w))))
  /\ (forall txt,
        fault env (length (calls w)) = None ->
        orderMetafields w !! (gid, "bunjang", "order_ids") = Some (PlainText txt) ->
        exists w',
          checkAlreadyProcessed env gid (l, w) = (Normal None, (l, w'))
          /\ calls w' = (calls w ++ [GetOrderMetafield gid "bunjang" "order_ids"])%list).
Proof.
  split; [|split].
  - assert (H : never_throws (L:=L) (checkAlreadyProcessed env gid)).
    { apply never_throws_try_catch. intros e.
      apply never_throws_bind; [apply never_throws_logger | intros _; apply never_throws_ret]. }
    destruct (H (l, w)) as [r Hr].
    destruct (checkAlreadyProcessed env gid (l, w)) as [[r'|e] s'] eqn:E; [|discriminate].
    now exists r', s'.
  - intros e He. unfold checkAlreadyProcessed, try_catch, getOrderMetafield.
    unfold bind at 1. unfold bind at 1. now rewrite (invoke_fails _ _ _ _ e).
  - intros txt Hf Hm. unfold checkAlreadyProcessed, try_catch, getOrderMetafield.
    unfold bind at 1. unfold bind at 1. rewrite invoke_ok by exact Hf.
    unfold bind at 1. cbn [get_world ret snd orderMetafields record_call]. rewrite Hm.
    cbn [truthy_text]. destruct (truthy_string txt); cbn; eexists; split; reflexivity.
Qed.

Definition readFails : nat -> option jsError :=
  fun n => if (n =? 0)%nat then Some (JsError "Error" "socket hang up") else None.

Lemma checkAlreadyProcessed_fails_open_witness :
  checkAlreadyProcessed (market readFails) (orderGid 1003) (tt, shop)
  = (Normal None,
     (tt, record_log LWarn "Could not check existing order metadata"
            (record_call (GetOrderMetafield (orderGid 1003) "bunjang" "order_ids") shop))).
Proof.
  apply (proj1 (proj2 (checkAlreadyProcessed_fails_open (market readFails) unit
                         (orderGid 1003) tt shop))
           (JsError "Error" "socket hang up")).
  reflexivity.
Defined.

(** *** Linking from the tag *)

Lemma split_on_cons_other sep c s :
  Ascii.eqb c sep = false ->
  split_on sep (String c s)
  = match split_on sep s with
    | [] => [String c EmptyString]
    | h :: t => String c h :: t
    end.
Proof. intros H. cbn [split_on]. now rewrite H. Qed.

Lemma split_on_sep sep s : split_on sep (String sep s) = EmptyString :: split_on sep s.
Proof. cbn [split_on]. now rewrite Ascii.eqb_refl. Qed.

Lemma split_on_nonempty sep s : split_on sep s <> [].
Proof.
  destruct s as [|c s]; cbn [split_on]; [discriminate|].
  destruct (Ascii.eqb c sep); [discriminate|].
  destruct (split_on sep s); discriminate.
Qed.

(** The second part of [tag.split(':')], for a tag [bunjang_pid:<rest>]. *)
Lemma split_bunjang_pid_tag rest :
  nth_error (split_on ":" ("bunjang_pid:" +:+ rest)) 1 = Some (hd "" (split_on ":" rest)).
Proof.
  cbv [String.append].
  rewrite !split_on_cons_other by reflexivity. rewrite split_on_sep. cbn [nth_error].
  pose proof (split_on_nonempty ":" rest).
  destruct (split_on ":" rest); [contradiction | reflexivity].
Qed.

(** Trimming twice is trimming once: the schema trims the id that the
    service has trimmed already. *)
Section Trimming.

Context (codes : list (list ascii)) (Hcodes : forall e, In e codes -> e <> []).

Lemma starts_with_app e cs r : starts_with e cs = true -> starts_with e (cs ++ r)%list = true.
Proof.
  revert cs. induction e as [|a e IH]; intros [|c cs]; cbn; try easy.
  intros [Ha He]%andb_true_iff. rewrite Ha. cbn. now apply IH.
Qed.

Lemma starts_with_length e cs : starts_with e cs = true -> (length e <= length cs)%nat.
Proof.
  revert cs. induction e as [|a e IH]; intros [|c cs]; cbn; try easy; try lia.
  intros [_ He]%andb_true_iff. apply IH in He. lia.
Qed.

Lemma find_none_of {A} (f : A -> bool) l :
  (forall x, In x l -> f x = false) -> List.find f l = None.
Proof.
  induction l as [|x l IH]; intros H; cbn; [reflexivity|].
  rewrite (H x) by now left. apply IH. intros y Hy. apply H. now right.
Qed.

Lemma strip_one_prefix u r : strip_one codes (u ++ r)%list = None -> strip_one codes u = None.
Proof.
  unfold strip_one. intros H.
  destruct (List.find _ codes) as [e|] eqn:He in H; [discriminate|].
  rewrite find_none_of; [reflexivity|].
  intros e Hin. pose proof (find_none _ _ He e Hin) as Hf. cbn beta in Hf.
  destruct (starts_with e u) eqn:Hu; [|reflexivity].
  apply (starts_with_app e u r) in Hu. congruence.
Qed.

Lemma strip_one_shorter cs rest :
  strip_one codes cs = Some rest -> (length rest < length cs)%nat.
Proof.
  unfold strip_one. destruct (List.find _ codes) as [e|] eqn:He; [|discriminate].
  intros [= <-]. apply find_some in He as [Hin Hs]. apply starts_with_length in Hs.
  specialize (Hcodes e Hin). rewrite length_drop.
  destruct e; [contradiction|]. cbn [length] in *. lia.
Qed.

Lemma strip_one_suffix cs rest : strip_one codes cs = Some rest -> exists pre, cs = (pre ++ rest)%list.
Proof.
  unfold strip_one. destruct (List.find _ codes) as [e|]; [|discriminate].
  intros [= <-]. exists (take (length e) cs). now rewrite take_drop.
Qed.

Lemma strip_all_stuck fuel cs :
  (length cs <= fuel)%nat -> strip_one codes (strip_all codes fuel cs) = None.
Proof.
  revert cs. induction fuel as [|fuel IH]; intros cs Hlen; cbn.
  - destruct cs; [|cbn in Hlen; lia].
    unfold strip_one. rewrite find_none_of; [reflexivity|].
    intros e Hin. specialize (Hcodes e Hin). now destruct e.
  - destruct (strip_one codes cs) as [rest|] eqn:Hone; [|exact Hone].
    apply IH. apply strip_one_shorter in Hone. lia.
Qed.

Lemma strip_all_fix fuel cs : strip_one codes cs = None -> strip_all codes fuel cs = cs.
Proof. intros H. destruct fuel; cbn; [reflexivity | now rewrite H]. Qed.

Lemma strip_all_suffix fuel cs : exists pre, cs = (pre ++ strip_all codes fuel cs)%list.
Proof.
  revert cs. induction fuel as [|fuel IH]; intros cs; cbn.
  - now exists [].
  - destruct (strip_one codes cs) as [rest|] eqn:Hone; [|now exists []].
    apply strip_one_suffix in Hone as [pre ->]. destruct (IH rest) as [pre' Hrest].
    exists (pre ++ pre')%list. rewrite <- app_assoc. now f_equal.
Qed.

End Trimming.

Lemma white_space_nonempty e : In e white_space -> e <> [].
Proof.
  intros Hin ->. revert Hin. vm_compute. intuition discriminate.
Qed.

Lemma reversed_white_space_nonempty e : In e (map (@rev ascii) white_space) -> e <> [].
Proof.
  intros Hin ->. revert Hin. vm_compute. intuition discriminate.
Qed.

Lemma trim_idempotent s : trim (trim s) = trim s.
Proof.
  unfold trim. rewrite String.list_ascii_of_string_of_list_ascii. f_equal.
  set (t := trim_start_units (String.list_ascii_of_string s)).
  assert (Ht : strip_one white_space t = None)
    by (apply strip_all_stuck; [apply white_space_nonempty | reflexivity]).
  unfold trim_end_units at 2.
  set (v := strip_all (map (@rev ascii) white_space) (length t) (rev t)).
  assert (Hv : strip_one (map (@rev ascii) white_space) v = None)
    by (apply strip_all_stuck;
        [apply reversed_white_space_nonempty | now rewrite length_rev]).
  destruct (strip_all_suffix (map (@rev ascii) white_space) (length t) (rev t)) as [pre Hpre].
  fold v in Hpre.
  assert (Hu : strip_one white_space (rev v) = None).
  { apply (strip_one_prefix white_space (rev v) (rev pre)).
    rewrite <- rev_app_distr, <- Hpre, rev_involutive. exact Ht. }
  unfold trim_start_units. rewrite (strip_all_fix _ _ _ Hu).
  unfold trim_end_units. rewrite rev_involutive. now rewrite (strip_all_fix _ _ _ Hv).
Qed.

(** The document that the link from a tag passes to [create] (lines 82-93),
    and the mapping that the store keeps of it. *)
Definition linkRequest (productId : Z) (product : productNode) (pid : string) (at_ms : Z)
    : SyncedProduct :=
  mkSyncedProduct (Some (p_id product)) (Some (IdNum productId))
    (Some (p_title product)) (Some (p_handle product))
    (Some pid) (Some (p_title product)) (Some SYNCED) (Some at_ms) None None.

Definition linkedMapping (product : productNode) (pid : string) : SyncedProduct :=
  mkSyncedProduct (Some (trim (p_id product))) None None None
    (Some pid) (Some (trim (p_title product))) (Some SYNCED) None None None.

Lemma schema_cast_linkRequest productId product text at_ms :
  schema_cast (linkRequest productId product (trim text) at_ms)
  = linkedMapping product (trim text).
Proof. unfold schema_cast, linkRequest, linkedMapping. cbn. now rewrite trim_idempotent. Qed.

Section Linking.

Context (env : remote) {L : Type}.

Lemma SyncedProduct_create_ok doc (l : L) w :
  has_required (schema_cast doc) = true ->
  fault env (length (calls w)) = None ->
  existsb (same_key (schema_cast doc)) (db w) = false ->
  SyncedProduct_create env doc (l, w)
  = (Normal (schema_cast doc),
     (l, set_db (fun docs => (docs ++ [schema_cast doc])%list) (record_call (DbCreate doc) w))).
Proof.
  intros Hreq Hf Hnew. unfold SyncedProduct_create. cbv zeta. rewrite Hreq.
  unfold bind at 1. rewrite invoke_ok by exact Hf.
  unfold bind at 1. cbn [get_world ret fst snd db record_call]. now rewrite Hnew.
Qed.

Lemma SyncedProduct_create_refused doc (l : L) w :
  has_required (schema_cast doc) = false
  \/ fault env (length (calls w)) <> None
  \/ existsb (same_key (schema_cast doc)) (db w) = true ->
  exists e w',
    SyncedProduct_create env doc (l, w) = (Throw e, (l, w'))
    /\ db w' = db w /\ logs w' = logs w
    /\ exists ext, calls w' = (calls w ++ ext)%list /\ (length ext <= 1)%nat.
Proof.
  intros H. unfold SyncedProduct_create. cbv zeta.
  destruct (has_required (schema_cast doc)) eqn:Hreq.
  - unfold bind at 1. unfold invoke. cbn [fst snd].
    destruct (fault env (length (calls w))) as [e|] eqn:Hf.
    + exists e. eexists. split; [reflexivity|]. cbn. repeat split.
      eexists. split; [reflexivity | cbn; lia].
    + unfold bind at 1. cbn [get_world ret fst snd db record_call].
      destruct (existsb _ (db w)) eqn:Hdup.
      * eexists. eexists. split; [reflexivity|]. cbn. repeat split.
        eexists. split; [reflexivity | cbn; lia].
      * destruct H as [H | [H | H]]; congruence.
  - eexists. exists w. split; [reflexivity|]. repeat split.
    exists []. split; [now rewrite app_nil_r | cbn; lia].
Qed.

End Linking.

(** X9: a line item whose product has no mapping but carries, as its first
    tag of that form, [bunjang_pid:<id>] is linked on the spot. The id is
    the trimmed text up to a further colon. When it is not empty, no mapping
    has this id or the global id of the product, and the store takes the
    document, the mapping that the schema keeps of it (marked SYNCED, with
    the trimmed global id and title, and without the undeclared
    [shopifyData] and [lastSyncedAt]) is appended and the line item resolves
    to the id. When the id is empty, a key is taken or the store fails,
    nothing is linked and the mapping store is as before. *)
Theorem tagged_product_is_linked
    (env : remote) (L : Type) (item : lineItem) (l : L) (w : world)
    (product : productNode) (rest : string)
    (Hlookup : fault env (length (calls w)) = None)
    (Hnew : List.find (matches_product (product_id item)) (db w) = None)
    (Hquery : fault env (S (length (calls w))) = None)
    (Hproduct : productTags env (S (length (calls w))) (productGid_of (product_id item))
                = Some product)
    (Htag : List.find (String.prefix "bunjang_pid:") (p_tags product)
            = Some ("bunjang_pid:" +:+ rest)) :
  let pid := trim (hd "" (split_on ":" rest)) in
  let accepted :=
    negb (String.eqb pid "")
    && bool_decide (fault env (S (S (length (calls w)))) = None)
    && negb (existsb (same_key (linkedMapping product pid)) (db w)) in
  exists w',
    if accepted then
      resolveLineItem env item (l, w) = (Normal (Some (linkedMapping product pid)), (l, w'))
      /\ db w' = (db w ++ [linkedMapping product pid])%list
      /\ resolves_to env item (l, w) (l, w') pid
    else
      resolveLineItem env item (l, w) = (Normal None, (l, w'))
      /\ db w' = db w.
Proof.
  intros pid accepted.
  assert (Hstart : exists w2,
             length (calls w2) = S (S (length (calls w))) /\ db w2 = db w
             /\ resolveLineItem env item (l, w)
                = try_catch
                    (let* created := SyncedProduct_create env
                                       (linkRequest (product_id item) product pid
                                          (now env (S (S (length (calls w)))))) in
                     logger LInfo "Auto-synced product from tags" >>> ret (Some created))
                    (fun error => logger LError "Error fetching product tags" >>> ret None)
                    (l, w2)).
  { unfold resolveLineItem, SyncedProduct_findOne_byProduct. cbv zeta.
    unfold bind at 1. unfold bind at 1. rewrite invoke_ok by exact Hlookup.
    unfold bind at 1. cbn [get_world ret snd db record_call]. rewrite Hnew.
    rewrite logger_bind.
    unfold autoLinkFromTags, queryProductTags. cbv zeta.
    unfold try_catch at 1. unfold bind at 1. unfold bind at 1.
    rewrite invoke_ok
      by (cbn [calls record_log record_call]; now rewrite length_app, Nat.add_1_r).
    cbn [ret calls record_log record_call]. rewrite length_app, Nat.add_1_r.
    rewrite Hproduct, Htag, split_bunjang_pid_tag. fold pid.
    match goal with
    | |- context [(l, ?w2)] =>
        assert (Hlen : length (calls w2) = S (S (length (calls w))))
          by (cbn [calls record_log record_call]; rewrite !length_app; cbn [length]; lia);
        exists w2
    end.
    split; [exact Hlen|]. split; [reflexivity|].
    unfold try_catch. unfold bind at 1. unfold bind at 3.
    cbn [new_Date snd ret]. rewrite Hlen. reflexivity. }
  destruct Hstart as (w2 & Hlen & Hdb2 & Hres).
  assert (Hcast : schema_cast (linkRequest (product_id item) product pid
                                 (now env (S (S (length (calls w))))))
                  = linkedMapping product pid) by apply schema_cast_linkRequest.
  destruct accepted eqn:Hacc; subst accepted.
  - apply andb_true_iff in Hacc as [[Hpid Hfault]%andb_true_iff Hfree].
    apply bool_decide_eq_true in Hfault. apply negb_true_iff in Hfree.
    unfold try_catch in Hres. unfold bind at 1 in Hres.
    rewrite SyncedProduct_create_ok in Hres; rewrite ?Hcast, ?Hlen, ?Hdb2;
      [ | unfold has_required, linkedMapping; cbn [bunjangPid]; exact Hpid
        | exact Hfault | exact Hfree ].
    rewrite logger_bind in Hres. cbn [ret] in Hres. rewrite Hcast in Hres.
    eexists. split; [exact Hres|]. cbn [db set_db record_call record_log].
    rewrite Hdb2. split; [reflexivity|].
    eexists. split; [exact Hres|].
    unfold linked_pid, linkedMapping. cbn [bunjangPid]. unfold truthy_string.
    now rewrite Hpid.
  - destruct (SyncedProduct_create_refused env
                (linkRequest (product_id item) product pid
                   (now env (S (S (length (calls w)))))) l w2)
      as (e & w3 & Hthrow & Hdb3 & _).
    { rewrite Hcast, Hlen, Hdb2.
      apply andb_false_iff in Hacc as [[Hpid | Hfault]%andb_false_iff | Hfree].
      - left. unfold has_required, linkedMapping. cbn [bunjangPid]. exact Hpid.
      - right; left. now apply bool_decide_eq_false in Hfault.
      - right; right. now apply negb_false_iff in Hfree. }
    unfold try_catch in Hres. unfold bind at 1 in Hres. rewrite Hthrow in Hres.
    rewrite logger_bind in Hres. cbn [ret] in Hres.
    eexists. split; [exact Hres|]. cbn [db record_log]. congruence.
Qed.

(** The no-break space U+00A0. *)
Definition nbsp : string := String (ascii_of_nat 194) (String (ascii_of_nat 160) EmptyString).

(** A storefront whose products carry a tag with the id 999 behind a
    no-break space and before a space and a further colon. *)
Definition taggedProduct (gid : string) : productNode :=
  mkProductNode gid " Photocard set" "photocard-set"
    ["kpop"; "bunjang_pid:" +:+ nbsp +:+ "999 :old"; "bunjang_pid:1000"].

Definition taggedShop : remote :=
  mkRemote (fun _ => None) (fun n => 1700000000000 + Z.of_nat n)
    (fun _ gid => Some (taggedProduct gid))
    (fun _ _ => None) (fun _ _ => []) (fun _ _ _ _ => [])
    (fun _ _ => []) (fun _ _ => Some (mkDetails (Some 50000) (Some 1) (Some 3000)))
    (fun n _ => Some (mkApiResponse (Some (IdNum (9000 + Z.of_nat n)))))
    (fun _ => Some (mkBalance (Num 5000000)))
    (fun _ _ _ _ => None).

Lemma tagged_product_is_linked_witness :
  exists w',
    resolveLineItem taggedShop (itemOf 77 1) (tt, emptyWorld)
    = (Normal (Some (mkSyncedProduct (Some (productGid_of 77)) None None None (Some "999")
                       (Some "Photocard set") (Some SYNCED) None None None)),
       (tt, w'))
    /\ db w' = [mkSyncedProduct (Some (productGid_of 77)) None None None (Some "999")
                  (Some "Photocard set") (Some SYNCED) None None None]
    /\ resolves_to taggedShop (itemOf 77 1) (tt, emptyWorld) (tt, w') "999".
Proof.
  exact (tagged_product_is_linked taggedShop unit (itemOf 77 1) tt emptyWorld
           (taggedProduct (productGid_of 77)) (nbsp +:+ "999 :old")
           eq_refl eq_refl eq_refl eq_refl eq_refl).
Defined.

(** X10: a line item whose product has no mapping and no [bunjang_pid:] tag
    (or whose product the storefront does not return, or cannot be asked
    for) is skipped as not dual-listed: the mapping lookup and the tag
    query are the only calls, nothing is written, the order gets no tag
    and the local variables are unchanged. *)
Theorem unlinked_line_item_is_skipped
    (env : remote) (cfg : config) (identifier gid : string) (item : lineItem)
    (l : orderLocals) (w : world)
    (Hlookup : fault env (length (calls w)) = None)
    (Hnew : List.find (matches_product (product_id item)) (db w) = None)
    (Huntagged :
       fault env (S (length (calls w))) <> None
       \/ match productTags env (S (length (calls w))) (productGid_of (product_id item)) with
          | Some product => List.find (String.prefix "bunjang_pid:") (p_tags product) = None
          | None => True
          end) :
  exists w',
    processLineItem env cfg identifier gid item (l, w) = (Normal tt, (l, w'))
    /\ calls w'
       = (calls w ++ [DbFindOneByProduct (product_id item);
                      ProductTagsQuery (productGid_of (product_id item))])%list
    /\ db w' = db w /\ orderTags w' = orderTags w
    /\ orderMetafields w' = orderMetafields w /\ onHand w' = onHand w.
Proof.
  unfold processLineItem, resolveLineItem, SyncedProduct_findOne_byProduct. cbv zeta.
  unfold bind at 1. unfold bind at 1. unfold bind at 1. rewrite invoke_ok by exact Hlookup.
  unfold bind at 1. cbn [get_world ret snd db record_call]. rewrite Hnew.
  rewrite logger_bind.
  unfold autoLinkFromTags, try_catch, queryProductTags. cbv zeta.
  unfold bind at 1. unfold bind at 1.
  destruct (fault env (S (length (calls w)))) as [e|] eqn:Hf.
  - rewrite (invoke_fails _ _ _ _ e)
      by (cbn [calls record_log record_call]; now rewrite length_app, Nat.add_1_r).
    cbn. eexists. split; [reflexivity|]. cbn. rewrite <- app_assoc. repeat split.
  - destruct Huntagged as [H|H]; [now elim H|].
    rewrite invoke_ok
      by (cbn [calls record_log record_call]; now rewrite length_app, Nat.add_1_r).
    cbn [ret calls record_log record_call]. rewrite length_app, Nat.add_1_r.
    destruct (productTags env _ _) as [product|].
    + rewrite H. cbn. eexists. split; [reflexivity|]. cbn. rewrite <- app_assoc. repeat split.
    + cbn. eexists. split; [reflexivity|]. cbn. rewrite <- app_assoc. repeat split.
Qed.

Lemma unlinked_line_item_is_skipped_witness :
  exists w',
    processLineItem silent defaults "BunjangOrder-1" (orderGid 1) (itemOf 77 1)
      (initialLocals, emptyWorld) = (Normal tt, (initialLocals, w'))
    /\ calls w' = [DbFindOneByProduct 77; ProductTagsQuery (productGid_of 77)]
    /\ db w' = [] /\ orderTags w' = ∅ /\ orderMetafields w' = ∅ /\ onHand w' = ∅.
Proof.
  apply (unlinked_line_item_is_skipped silent defaults "BunjangOrder-1" (orderGid 1)
           (itemOf 77 1) initialLocals emptyWorld eq_refl eq_refl).
  right. exact I.
Defined.

(** *** The footprint of a run *)

(** The calls of the placement for the order [gid]: reads, the creation of
    a mapping, updates of that order, and creations of remote orders whose
    delivery price is 0. *)
Definition order_call (gid : string) (c : call) : bool :=
  match c with
  | GetOrderMetafield g _ _ | UpdateOrder g _ _ => String.eqb g gid
  | CreateBunjangOrderV2 payload => payload_deliveryPrice payload =? 0
  | ProductTagsQuery _ | DbFindOneByProduct _ | DbCreate _
  | GetBunjangProductDetails _ | GetBunjangPointBalance => true
  | _ => false
  end.

(** Since the world [w0]: the quantities are the same, mappings were only
    added, and only such calls were issued. *)
Definition placement_footprint (gid : string) (w0 w : world) : Prop :=
  onHand w = onHand w0
  /\ (exists added, db w = (db w0 ++ added)%list)
  /\ exists ext, calls w = (calls w0 ++ ext)%list /\ forallb (order_call gid) ext = true.

Ltac stays_in_footprint :=
  intros ? ? HI; cbn beta in HI |- *; unfold placement_footprint in *;
  cbn [snd fst db onHand calls record_log record_call set_db set_orderTags
         set_orderMetafields] in *;
  destruct HI as (Hq & (added & Hdb) & ext & Hc & Hall);
  first
    [ split; [exact Hq | split; [exists added; exact Hdb | exists ext; split; assumption]]
    | split;
      [ exact Hq
      | split;
        [ exists added; exact Hdb
        | eexists; split;
          [ rewrite Hc, <- app_assoc; reflexivity
          | rewrite forallb_app, Hall; cbn; rewrite ?String.eqb_refl; reflexivity ] ] ]
    | split;
      [ exact Hq
      | split;
        [ eexists; rewrite Hdb, <- app_assoc; reflexivity
        | exists ext; split; assumption ] ] ].

Lemma validated_gid order id gid items :
  validated order = Some (id, gid, items) -> admin_graphql_api_id order = Some gid.
Proof.
  unfold validated. destruct (order_id order); [|discriminate].
  destruct (admin_graphql_api_id order); [|discriminate].
  destruct (line_items order) as [[|? ?]|]; try discriminate.
  destruct (_ && _); [|discriminate]. intros H. now inversion H.
Qed.

Section Footprint.

Context (env : remote) (cfg : config) (gid : string) (w0 : world).

Lemma processLineItem_footprint identifier item :
  preserves (fun s => placement_footprint gid w0 (snd s))
    (processLineItem env cfg identifier gid item).
Proof.
  unfold processLineItem, resolveLineItem, autoLinkFromTags, placeOrder, submitOrder,
    onCreateError, checkPointBalance, SyncedProduct_findOne_byProduct, SyncedProduct_create,
    queryProductTags, getBunjangProductDetails, createBunjangOrderV2, getBunjangPointBalance,
    updateOrder, logger.
  preserves_with stays_in_footprint.
Qed.

Lemma checkAlreadyProcessed_footprint {L} :
  preserves (L:=L) (fun s => placement_footprint gid w0 (snd s))
    (checkAlreadyProcessed env gid).
Proof.
  unfold checkAlreadyProcessed, getOrderMetafield, JSON_parse, logger.
  preserves_with stays_in_footprint.
Qed.

Lemma finishOrder_footprint identifier :
  preserves (fun s => placement_footprint gid w0 (snd s))
    (finishOrder env identifier gid).
Proof.
  unfold finishOrder, updateOrder, logger.
  preserves_with stays_in_footprint.
Qed.

End Footprint.

(** X11: whatever the order and the answers of the collaborators,
    [processShopifyOrderForBunjang] creates remote orders with a delivery
    price of 0 only, updates no storefront order but the one it processes,
    leaves every on-hand quantity alone, and changes the mapping store by
    adding mappings only. *)
Theorem processShopifyOrderForBunjang_footprint
    (env : remote) (cfg : config) (L : Type) (order : shopifyOrder) (s : L * world)
    (gid : string) (Hgid : admin_graphql_api_id order = Some gid) :
  placement_footprint gid (snd s) (snd (snd (processShopifyOrderForBunjang env cfg order s))).
Proof.
  assert (Hstart : placement_footprint gid (snd s) (snd s)).
  { split; [reflexivity|]. split; [exists []; now rewrite app_nil_r|].
    exists []. now rewrite app_nil_r. }
  revert Hstart. generalize (snd s) at 1 3. intros w0 Hstart.
  unfold processShopifyOrderForBunjang.
  apply (preserves_scoped (placement_footprint gid w0)); [|exact Hstart].
  apply preserves_bind; [unfold logger; preserves_with stays_in_footprint|]. intros _.
  destruct (validated order) as [[[id gid'] items]|] eqn:Hv; [|apply preserves_throw].
  apply validated_gid in Hv. rewrite Hgid in Hv. inversion Hv; subst gid'.
  cbv zeta. apply preserves_bind; [apply checkAlreadyProcessed_footprint|].
  intros [r|]; [apply preserves_ret|].
  apply preserves_bind; [|intros _; apply finishOrder_footprint].
  apply preserves_for_of. intros item. apply processLineItem_footprint.
Qed.

Lemma processShopifyOrderForBunjang_footprint_witness :
  let order := orderOf 1001 [(1, 1); (2, 1); (3, 1)] in
  admin_graphql_api_id order = Some (orderGid 1001)
  /\ placement_footprint (orderGid 1001) shop
       (snd (snd (processShopifyOrderForBunjang (market noFaults) defaults order (tt, shop)))).
Proof.
  cbv zeta. split; [reflexivity|].
  exact (processShopifyOrderForBunjang_footprint (market noFaults) defaults unit
           (orderOf 1001 [(1, 1); (2, 1); (3, 1)]) (tt, shop) (orderGid 1001) eq_refl).
Defined.

(** *** The guard is set by a successful run only *)

Section Guard.

Context (env : remote) (cfg : config) (m0 : gmap (string * string * string) metaText).




End Guard.



(** ** The deletion of a product *)

(** X13: the product-deleted webhook removes from the mapping store the first
    mapping of the deleted product and no other: it replies 200 once the
    store has answered, and 500, with the store unchanged, when the store
    fails. *)
Theorem productsDelete_removes_the_mapping
    (env : remote) (L : Type) (productId : Z) (l : L) (w : world) :
  let gid := productGid_of productId in
  let run := productsDelete env productId (l, w) in
  (forall e,
      fault env (length (calls w)) = Some e ->
      fst run = Normal 500 /\ db (snd (snd run)) = db w)
  /\ (fault env (length (calls w)) = None ->
      fst run = Normal 200
      /\ ((Forall (fun d => shopifyGid d <> Some gid) (db w)
           /\ db (snd (snd run)) = db w)
          \/ exists before d after,
               db w = (before ++ d :: after)%list
               /\ shopifyGid d = Some gid
               /\ Forall (fun d' => shopifyGid d' <> Some gid) before
               /\ db (snd (snd run)) = (before ++ after)%list)).
Proof.
  intros gid run. split.
  - intros e He.
    assert (Hrun : run = (Normal 500,
                          (l, record_log LError "Failed to process product deletion"
                                (record_call (DbDeleteOne gid)
                                   (record_log LInfo "Product deleted" w))))).
    { subst run. unfold productsDelete, try_catch, SyncedProduct_deleteOne.
      rewrite logger_bind. unfold bind at 1. unfold bind at 1.
      now rewrite (invoke_fails _ _ _ _ e) by exact He. }
    rewrite Hrun. now split.
  - intros Hok.
    assert (Hrun : exists w',
               run = (Normal 200, (l, w'))
               /\ db w' = match list_find (fun d => shopifyGid d = Some gid) (db w) with
                          | Some (i, _) => delete i (db w)
                          | None => db w
                          end).
    { subst run. unfold productsDelete, try_catch, SyncedProduct_deleteOne.
      rewrite logger_bind. unfold bind at 1. unfold bind at 1.
      rewrite invoke_ok by exact Hok. eexists. split; reflexivity. }
    destruct Hrun as (w' & Hrun & Hdb). rewrite Hrun. cbn [fst snd].
    split; [reflexivity|]. rewrite Hdb.
    destruct (list_find (fun d => shopifyGid d = Some gid) (db w)) as [[i d]|] eqn:Hfind.
    + right. apply list_find_Some in Hfind. destruct Hfind as (Hi & Hd & Hbefore).
      exists (take i (db w)), d, (drop (S i) (db w)).
      split; [now rewrite take_drop_middle|]. split; [exact Hd|]. split.
      * apply Forall_forall. intros d' Hin.
        apply list_elem_of_lookup in Hin. destruct Hin as [j Hj].
        rewrite lookup_take in Hj. destruct (decide (j < i)%nat); [|discriminate].
        now apply (Hbefore j d').
      * apply delete_take_drop.
    + left. split; [|reflexivity]. apply list_find_None in Hfind. exact Hfind.
Qed.

Lemma productsDelete_removes_the_mapping_witness :
  fst (productsDelete silent 2 (tt, threeOrphans)) = Normal 200
  /\ db (snd (snd (productsDelete silent 2 (tt, threeOrphans))))
     = [mapping 1 "101"; mapping 3 "103"].
Proof.
  destruct (proj2 (productsDelete_removes_the_mapping silent unit 2 tt threeOrphans) eq_refl)
    as [Hstatus _].
  split; [exact Hstatus|]. vm_compute. reflexivity.
Defined.

(** ** The status sync, further *)

Definition searchQueryFor (bunjangOrderId : jsId) : string :=
  "tag:" +:+ dquote +:+ "BunjangOrder-" +:+ String_of_id bunjangOrderId +:+ dquote.

(** X14: when the storefront has no order tagged with the id of the remote
    order, [updateShopifyOrderFromBunjangStatus] logs a warning and returns
    having issued the search only: nothing is written. *)
Theorem status_of_unknown_order_is_skipped
    (env : remote) (L : Type) (order : bunjangOrder) (l : L) (w : world)
    (Hsearch : fault env (length (calls w)) = None)
    (Hnone : ordersByTag env (length (calls w)) (searchQueryFor (bo_id order)) = []) :
  updateShopifyOrderFromBunjangStatus env order (l, w)
  = (Normal tt,
     (l, record_log LWarn "No Shopify order found for Bunjang order"
           (record_call (FindOrderByTag (searchQueryFor (bo_id order))) w))).
Proof.
  unfold updateShopifyOrderFromBunjangStatus, findOrderByTag. cbv zeta.
  fold (searchQueryFor (bo_id order)).
  unfold bind at 1. unfold bind at 1. rewrite invoke_ok by exact Hsearch.
  cbn [ret]. now rewrite Hnone.
Qed.

Lemma status_of_unknown_order_is_skipped_witness :
  updateShopifyOrderFromBunjangStatus silent
    (mkBunjangOrder (IdNum 9003) [mkOrderItem "SHIP_READY" 201 None]) (tt, emptyWorld)
  = (Normal tt,
     (tt, record_log LWarn "No Shopify order found for Bunjang order"
            (record_call (FindOrderByTag (searchQueryFor (IdNum 9003))) emptyWorld))).
Proof.
  exact (status_of_unknown_order_is_skipped silent unit
           (mkBunjangOrder (IdNum 9003) [mkOrderItem "SHIP_READY" 201 None]) tt emptyWorld
           eq_refl eq_refl).
Defined.

Lemma updateOrder_inv env {L} gid tags mfs (s s' : L * world) :
  updateOrder env gid tags mfs s = (Normal tt, s') ->
  s' = (fst s, updated_order gid tags mfs (snd s)).
Proof.
  destruct s as [l w]. unfold updateOrder. unfold bind at 1. unfold invoke. cbn [fst snd].
  destruct (fault env (length (calls w))); intros H; inversion H. reflexivity.
Qed.

Lemma syncOrderItemStatus_stamps env {L} gid bunjangOrderId item (s s' : L * world) :
  syncOrderItemStatus env gid bunjangOrderId item s = (Normal tt, s') ->
  orderMetafields (snd s') !! (gid, "bunjang", "last_bunjang_status")
  = Some (PlainText (oi_status item)).
Proof.
  unfold syncOrderItemStatus. cbv zeta. intros H.
  do 3 (apply bind_inv in H; destruct H as (? & ? & _ & H)).
  apply updateOrder_inv in H. subst s'. cbn. apply lookup_insert_eq.
Qed.

Lemma for_of_syncOrderItemStatus_stamps env {L} gid bunjangOrderId items item
    (s s' : L * world) :
  for_of (items ++ [item]) (syncOrderItemStatus env gid bunjangOrderId) s = (Normal tt, s') ->
  orderMetafields (snd s') !! (gid, "bunjang", "last_bunjang_status")
  = Some (PlainText (oi_status item)).
Proof.
  revert s. induction items as [|x items IH]; intros s H; cbn [app for_of] in H.
  - apply bind_inv in H. destruct H as ([] & s1 & H1 & H). inversion H; subst.
    now apply syncOrderItemStatus_stamps in H1.
  - apply bind_inv in H. destruct H as ([] & s1 & _ & H). now apply (IH s1).
Qed.

(** X15: when [updateShopifyOrderFromBunjangStatus] returns for a remote order
    that the storefront knows, the metafield [bunjang/last_bunjang_status] of
    the storefront order holds the status of the last item of the remote
    order, whatever the category of that status. *)
Theorem status_sync_stamps_the_last_status
    (env : remote) (L : Type) (bunjangOrderId : jsId)
    (items : list bunjangOrderItem) (item : bunjangOrderItem)
    (s s' : L * world) (gid : string) (others : list string)
    (Hfound : ordersByTag env (length (calls (snd s))) (searchQueryFor bunjangOrderId)
              = gid :: others)
    (Hrun : updateShopifyOrderFromBunjangStatus env
              (mkBunjangOrder bunjangOrderId (items ++ [item])) s = (Normal tt, s')) :
  orderMetafields (snd s') !! (gid, "bunjang", "last_bunjang_status")
  = Some (PlainText (oi_status item)).
Proof.
  unfold updateShopifyOrderFromBunjangStatus, findOrderByTag in Hrun. cbv zeta in Hrun.
  cbn [bo_id bo_orderItems] in Hrun. fold (searchQueryFor bunjangOrderId) in Hrun.
  apply bind_inv in Hrun. destruct Hrun as (edges & s1 & H1 & Hrun).
  apply bind_inv in H1. destruct H1 as (n & s0 & H0 & H1).
  apply invoke_inv in H0. destruct H0 as (_ & -> & ->).
  inversion H1; subst edges s1; clear H1. rewrite Hfound in Hrun.
  now apply for_of_syncOrderItemStatus_stamps in Hrun.
Qed.

(** An order known to the storefront under one tag. *)
Definition tracked : remote :=
  mkRemote (fun _ => None) (fun n => 1700000000000 + Z.of_nat n)
    (fun _ _ => None) (fun _ _ => None) (fun _ _ => []) (fun _ _ _ _ => [])
    (fun _ _ => [orderGid 1003]) (fun _ _ => None) (fun _ _ => None) (fun _ => None)
    (fun _ _ _ page =>
       Some (mkOrdersResponse
               (Some [mkBunjangOrder (IdNum (9000 + page))
                        [mkOrderItem "SHIP_READY" 201 None;
                         mkOrderItem "PURCHASE_CONFIRM" 201 None]])
               (Some 3))).

Lemma status_sync_stamps_the_last_status_witness :
  let order := mkBunjangOrder (IdNum 9003)
                 ([mkOrderItem "SHIP_READY" 201 None] ++ [mkOrderItem "REFUNDED" 201 None]) in
  let run := updateShopifyOrderFromBunjangStatus tracked order (tt, emptyWorld) in
  run = (Normal tt, snd run)
  /\ orderMetafields (snd (snd run)) !! (orderGid 1003, "bunjang", "last_bunjang_status")
     = Some (PlainText "REFUNDED")
  /\ orderTags (snd (snd run)) !! orderGid 1003
     = Some ["BunjangStatus-REFUNDED"; "BunjangOrder-9003-REFUNDED"].
Proof.
  cbv zeta.
  assert (H : updateShopifyOrderFromBunjangStatus tracked
                (mkBunjangOrder (IdNum 9003)
                   ([mkOrderItem "SHIP_READY" 201 None] ++ [mkOrderItem "REFUNDED" 201 None]))
                (tt, emptyWorld)
              = (Normal tt,
                 snd (updateShopifyOrderFromBunjangStatus tracked
                        (mkBunjangOrder (IdNum 9003)
                           ([mkOrderItem "SHIP_READY" 201 None]
                            ++ [mkOrderItem "REFUNDED" 201 None]))
                        (tt, emptyWorld))))
    by (vm_compute; reflexivity).
  split; [exact H|]. split.
  - exact (status_sync_stamps_the_last_status tracked unit (IdNum 9003)
             [mkOrderItem "SHIP_READY" 201 None] (mkOrderItem "REFUNDED" 201 None)
             (tt, emptyWorld) _ (orderGid 1003) [] eq_refl H).
  - vm_compute. reflexivity.
Defined.


(** *** Paging *)

(** No call fails. *)
Definition healthy (env : remote) : Prop := forall n, fault env n = None.

Definition is_page_request (c : call) : bool :=
  match c with
  | GetBunjangOrders _ _ _ _ => true
  | _ => false
  end.

(** The requests for pages among the calls issued so far. *)
Definition page_requests {L} (s : L * world) : list call :=
  List.filter is_page_request (calls (snd s)).

(** The requests for the [k] pages from [page] on, and their orders. *)
Definition requests_from (startDateUTC endDateUTC page : Z) (k : nat) : list call :=
  map (fun i => GetBunjangOrders startDateUTC endDateUTC (page + Z.of_nat i) 100) (seq 0 k).

Definition orders_from (pageData : Z -> list bunjangOrder) (page : Z) (k : nat)
    : list bunjangOrder :=
  concat (map (fun i => pageData (page + Z.of_nat i)) (seq 0 k)).

Lemma orders_from_S pageData page k :
  orders_from pageData page (S k)
  = (pageData page ++ orders_from pageData (page + 1) k)%list.
Proof.
  unfold orders_from. cbn [seq map concat]. rewrite Z.add_0_r. f_equal.
  rewrite <- seq_shift, map_map. f_equal. apply map_ext. intros i. f_equal. lia.
Qed.

Lemma requests_from_S startDateUTC endDateUTC page k :
  requests_from startDateUTC endDateUTC page (S k)
  = GetBunjangOrders startDateUTC endDateUTC page 100
    :: requests_from startDateUTC endDateUTC (page + 1) k.
Proof.
  unfold requests_from. cbn [seq map]. rewrite Z.add_0_r. f_equal.
  rewrite <- seq_shift, map_map. apply map_ext. intros i. f_equal. lia.
Qed.

Lemma never_throws_invoke env {L} c : healthy env -> never_throws (L:=L) (invoke env c).
Proof.
  intros H [l w]. unfold invoke. cbn [fst snd]. rewrite H. now eexists.
Qed.

Lemma never_throws_set_world {L} f : never_throws (L:=L) (set_world f).
Proof. intros s. now exists tt. Qed.

Lemma never_throws_new_Date env {L} : never_throws (L:=L) (new_Date env).
Proof. intros s. now eexists. Qed.

Ltac returns_normally :=
  repeat first
    [ apply never_throws_ret
    | apply never_throws_logger
    | apply never_throws_set_world
    | apply never_throws_new_Date
    | apply never_throws_invoke; assumption
    | apply never_throws_bind; [ | intros ? ]
    | apply never_throws_for_of; intros ?
    | match goal with
      | |- never_throws (match ?x with _ => _ end) => destruct x
      end
    | progress cbv zeta ].

Ltac same_pages :=
  intros ? ? HI; unfold page_requests in *;
  cbn [snd fst calls record_log record_call set_orderTags set_orderMetafields] in *;
  first [ exact HI | rewrite List.filter_app; cbn; rewrite app_nil_r; exact HI ].

Section Paging.

Context (env : remote) {L : Type} (Hhealthy : healthy env).

Lemma updateShopifyOrderFromBunjangStatus_never_throws order :
  never_throws (L:=L) (updateShopifyOrderFromBunjangStatus env order).
Proof.
  unfold updateShopifyOrderFromBunjangStatus, syncOrderItemStatus, findOrderByTag,
    updateShopifyFulfillmentStatus, updateOrder.
  returns_normally.
Qed.

Lemma updateShopifyOrderFromBunjangStatus_pages ps order :
  preserves (L:=L) (fun s => page_requests s = ps)
    (updateShopifyOrderFromBunjangStatus env order).
Proof.
  unfold updateShopifyOrderFromBunjangStatus, syncOrderItemStatus, findOrderByTag,
    updateShopifyFulfillmentStatus, updateOrder, logger.
  preserves_with same_pages.
Qed.

Lemma syncOrdersOfPage_healthy orders syncedCount errorCount (s : L * world) :
  exists s',
    syncOrdersOfPage env orders syncedCount errorCount s
    = (Normal (syncedCount + Z.of_nat (length orders), errorCount), s')
    /\ page_requests s' = page_requests s.
Proof.
  revert syncedCount s. induction orders as [|order rest IH]; intros syncedCount s.
  - exists s. cbn. split; [|reflexivity]. now rewrite Z.add_0_r.
  - cbn [syncOrdersOfPage]. unfold bind at 1. unfold try_catch. unfold bind at 1.
    destruct (updateShopifyOrderFromBunjangStatus_never_throws order s) as [[] Hok].
    pose proof (updateShopifyOrderFromBunjangStatus_pages (page_requests s) order s eq_refl)
      as Hpages.
    destruct (updateShopifyOrderFromBunjangStatus env order s) as [[[]|e] s1];
      cbn in Hok; [|discriminate].
    cbn [ret fst snd] in *.
    destruct (IH (syncedCount + 1) s1) as (s' & Hrest & Hp).
    exists s'. rewrite Hrest. split.
    + cbn [length]. do 3 f_equal. lia.
    + now rewrite Hp.
Qed.

Context (startDateUTC endDateUTC totalPages : Z) (pageData : Z -> list bunjangOrder)
  (Hpages : forall n page,
      ordersChanged env n startDateUTC endDateUTC page
      = Some (mkOrdersResponse (Some (pageData page)) (Some totalPages))).

Lemma syncPages_reads_the_rest (k : nat) :
  forall fuel page syncedCount errorCount (s : L * world),
    page + Z.of_nat (S k) = totalPages ->
    (S k <= fuel)%nat ->
    exists s',
      syncPages env fuel startDateUTC endDateUTC page syncedCount errorCount s
      = (Normal (Some (syncedCount + Z.of_nat (length (orders_from pageData page (S k))),
                       errorCount)), s')
      /\ page_requests s'
         = (page_requests s ++ requests_from startDateUTC endDateUTC page (S k))%list.
Proof.
  induction k as [|k IH]; intros fuel page syncedCount errorCount [l w] Hlast Hfuel;
    (destruct fuel as [|fuel]; [lia|]); cbn [syncPages];
    unfold getBunjangOrders; unfold bind at 1; unfold bind at 1;
    rewrite invoke_ok by apply Hhealthy; cbn [ret]; rewrite Hpages;
    unfold bind at 1;
    match goal with
    | |- context [syncOrdersOfPage env ?os ?sc ?ec ?st] =>
        destruct (syncOrdersOfPage_healthy os sc ec st) as (s1 & Hpage & Hreq)
    end;
    rewrite Hpage; cbn [fst snd]; unfold has_more.
  - replace (page <? totalPages - 1) with false by (symmetry; apply Z.ltb_ge; lia).
    exists s1. cbn [ret]. split.
    + unfold orders_from. cbn. rewrite app_nil_r, Z.add_0_r. reflexivity.
    + rewrite Hreq. unfold page_requests, requests_from.
      cbn [snd calls record_call seq map]. rewrite List.filter_app. cbn.
      now rewrite Z.add_0_r.
  - replace (page <? totalPages - 1) with true by (symmetry; apply Z.ltb_lt; lia).
    destruct (IH fuel (page + 1) (syncedCount + Z.of_nat (length (pageData page)))
                errorCount s1) as (s' & Hrest & Hreq'); [lia | lia |].
    exists s'. rewrite Hrest. split.
    + do 4 f_equal. rewrite (orders_from_S pageData page (S k)), length_app. lia.
    + rewrite Hreq', Hreq, (requests_from_S startDateUTC endDateUTC page (S k)).
      unfold page_requests. cbn [snd calls record_call]. rewrite List.filter_app.
      cbn [List.filter is_page_request]. now rewrite <- !app_assoc.
Qed.

End Paging.

(** X17: when no call fails and the marketplace announces [totalPages] pages
    of changed orders, each with its data, a status sync over a range of at
    most 15 days that may read that many pages requests the pages
    0, ..., totalPages - 1 once each, in this order, and reports every order
    of these pages as synced and no error. *)
Theorem syncBunjangOrderStatuses_reads_every_page
    (env : remote) (L : Type) (fuel : nat) (startMs endMs totalPages : Z)
    (pageData : Z -> list bunjangOrder) (s : L * world)
    (Hhealthy : healthy env)
    (Hrange : Qgt_bool (diffDays_of startMs endMs) 15 = false)
    (Hpages : forall n page,
        ordersChanged env n startMs endMs page
        = Some (mkOrdersResponse (Some (pageData page)) (Some totalPages)))
    (Hsome : 1 <= totalPages)
    (Hfuel : (Z.to_nat totalPages <= fuel)%nat) :
  exists s',
    syncBunjangOrderStatuses env fuel (DateMs startMs) (DateMs endMs) s
    = (Normal (Some (mkStatusSyncResult true
                       (Z.of_nat (length (orders_from pageData 0 (Z.to_nat totalPages))))
                       0)), s')
    /\ page_requests s'
       = (page_requests s ++ requests_from startMs endMs 0 (Z.to_nat totalPages))%list.
Proof.
  destruct s as [l w]. unfold syncBunjangOrderStatuses.
  rewrite logger_bind. unfold bind at 1. cbn [toISOString ret]. unfold bind at 1.
  cbn [toISOString ret]. cbv zeta. rewrite Hrange.
  destruct (Z.to_nat totalPages) as [|k] eqn:Hk; [lia|].
  destruct (syncPages_reads_the_rest env Hhealthy startMs endMs totalPages pageData Hpages
              k fuel 0 0 0
              (l, record_log LInfo "Starting Bunjang order status sync" w))
    as (s' & Hrun & Hreq); [lia | lia |].
  unfold try_catch. unfold bind at 1. rewrite Hrun. cbn [Z.add] in *.
  destruct s' as [l' w']. rewrite logger_bind. cbn [ret].
  eexists. split; [reflexivity|]. exact Hreq.
Qed.

Lemma syncBunjangOrderStatuses_reads_every_page_witness :
  exists s',
    syncBunjangOrderStatuses tracked 5 (DateMs 1700000000000) (DateMs 1700007200000)
      (tt, emptyWorld)
    = (Normal (Some (mkStatusSyncResult true 3 0)), s')
    /\ page_requests s'
       = [GetBunjangOrders 1700000000000 1700007200000 0 100;
          GetBunjangOrders 1700000000000 1700007200000 1 100;
          GetBunjangOrders 1700000000000 1700007200000 2 100].
Proof.
  exact (syncBunjangOrderStatuses_reads_every_page tracked unit 5
           1700000000000 1700007200000 3
           (fun page => [mkBunjangOrder (IdNum (9000 + page))
                           [mkOrderItem "SHIP_READY" 201 None;
                            mkOrderItem "PURCHASE_CONFIRM" 201 None]])
           (tt, emptyWorld)
           (fun n => eq_refl) eq_refl (fun n page => eq_refl)
           ltac:(lia) ltac:(cbn; lia)).
Defined.

(** ** The update of the inventory after an order *)

(** X18: [processOrderInventoryUpdate] answers [true] for a listing without
    a linked mapping: when the mapping store answers and holds no mapping of
    the listing with a storefront product, the function returns [true]
    although nothing was synced; it has only looked the mapping up, and the
    mapping store and the quantities are as before. *)
Theorem processOrderInventoryUpdate_true_without_a_mapping
    (env : remote) (L : Type) (pid : string) (orderedQuantity : Z) (l : L) (w : world)
    (Hread : fault env (length (calls w)) = None)
    (Hunlinked : linked_gid (List.find (matches_pid pid) (db w)) = None) :
  exists w',
    processOrderInventoryUpdate env pid orderedQuantity (l, w) = (Normal true, (l, w'))
    /\ db w' = db w
    /\ onHand w' = onHand w
    /\ calls w' = (calls w ++ [DbFindOneByPid pid])%list.
Proof.
  unfold processOrderInventoryUpdate, syncBunjangInventoryToShopify,
    SyncedProduct_findOne_byPid.
  unfold try_catch at 1. rewrite logger_bind. unfold bind at 1.
  unfold try_catch at 1. rewrite logger_bind. unfold bind at 1. unfold bind at 1.
  rewrite invoke_ok by exact Hread.
  cbn [bind get_world ret fst snd db record_call record_log].
  rewrite Hunlinked. cbn. eexists. split; [reflexivity|]. cbn. easy.
Qed.

Lemma processOrderInventoryUpdate_true_without_a_mapping_witness :
  exists w',
    processOrderInventoryUpdate silent "999" 2 (tt, threeOrphans) = (Normal true, (tt, w'))
    /\ db w' = db threeOrphans
    /\ onHand w' = onHand threeOrphans
    /\ calls w' = (calls threeOrphans ++ [DbFindOneByPid "999"])%list.
Proof.
  apply (processOrderInventoryUpdate_true_without_a_mapping silent unit "999" 2 tt
           threeOrphans); reflexivity.
Defined.

(** ** The scheduler *)

Lemma exceeds_limit_spec (startMs endMs : Z) :
  exceeds_limit (DateMs startMs) (DateMs endMs) = true <-> fifteenDays < endMs - startMs.
Proof.
  unfold exceeds_limit, fifteenDays.
  replace endMs with (startMs + (endMs - startMs)) at 1 by lia.
  rewrite diffDays_of_span. unfold Qgt_bool, Qle_bool. cbn [Qnum Qden].
  rewrite negb_true_iff, Z.leb_gt. lia.
Qed.

(** The queue a run leaves holds the jobs it found, in their order, and
    after them at most one job; [added] is that job. *)
Definition added (j : option job) (before after : scheduler) : Prop :=
  orderStatusSyncQueue after
  = (orderStatusSyncQueue before ++ match j with Some j => [j] | None => [] end)%list.

Section SchedulerProperties.

Context (q : broker).

(** What [scheduleOrderStatusSync] does with the two dates given: it throws
    the refusal of the queue and adds nothing, or returns [null] for a range
    above the limit and adds nothing, or adds one job and returns it. *)
Lemma scheduleOrderStatusSync_cases startDate endDate immediate (s : scheduler * world) :
  let run := scheduleOrderStatusSync q
               (mkSyncOptions (Some startDate) (Some endDate) immediate) s in
  if exceeds_limit startDate endDate then
    fst run = Normal None /\ added None (fst s) (fst (snd run))
  else
    match refusal q (additions (fst s)) with
    | Some e => fst run = Throw e /\ added None (fst s) (fst (snd run))
    | None =>
        let j := mkJob (idOf q (additions (fst s))) "syncOrderStatuses"
                   (mkJobData startDate endDate (DateMs (clock q (readings (fst s)))))
                   (if default false immediate then 0 else 60000) in
        fst run = Normal (Some j) /\ added (Some j) (fst s) (fst (snd run))
    end.
Proof.
  destruct s as [[queue n k] w].
  unfold scheduleOrderStatusSync, try_catch, bind, Date_now, queue_add, added; cbn.
  destruct (exceeds_limit startDate endDate); cbn.
  - now rewrite app_nil_r.
  - destruct (refusal q k); cbn; [now rewrite app_nil_r | easy].
Qed.

End SchedulerProperties.

(** X19: [manualOrderSync] never throws, and its answer tells what it did to
    the queue: with [success: true] it has added exactly one job, whose id
    it returns, with no delay and with the two dates given; with
    [success: false] it has added nothing. *)
Theorem manualOrderSync_reports_what_it_queued
    (q : broker) (startDate endDate : jsDate) (s : scheduler * world) :
  exists r s',
    manualOrderSync q startDate endDate s = (Normal r, s')
    /\ ((mr_success r = true
         /\ exists j, added (Some j) (fst s) (fst s')
                      /\ mr_jobId r = Some (job_id j)
                      /\ job_delay j = 0
                      /\ jd_startDate (job_data j) = startDate
                      /\ jd_endDate (job_data j) = endDate)
        \/ (mr_success r = false /\ mr_jobId r = None /\ added None (fst s) (fst s'))).
Proof.
  destruct s as [l w]. unfold manualOrderSync. rewrite logger_bind.
  pose proof (scheduleOrderStatusSync_cases q startDate endDate (Some true)
                (l, record_log LInfo "[OrderSyncScheduler] Manual order sync requested" w))
    as H.
  cbv zeta in H. unfold try_catch at 1. unfold bind at 1.
  destruct (scheduleOrderStatusSync q _ _) as [[[j|]|e] [l' w']] eqn:Hrun;
    cbn [fst snd] in H;
    destruct (exceeds_limit startDate endDate);
    try destruct (refusal q (additions l)); destruct H as [Hr Hq]; try discriminate;
    cbn [ret throw logger set_world bind fst snd];
    eexists; eexists; (split; [reflexivity|]); cbn [mr_success mr_jobId fst snd].
  1: left; split; [reflexivity|]; injection Hr as ->; eexists; split; [exact Hq|];
       cbn; easy.
  all: right; easy.
Qed.

(** X20: a range of more than 15 days between two dates is never queued,
    whatever the state of the queue: [scheduleOrderStatusSync] returns
    [null] and [manualOrderSync] answers with [success: false] and the
    message of the TypeError, and both leave the queue as it was. *)
Theorem range_above_15_days_is_not_queued
    (q : broker) (startMs endMs : Z) (immediate : option bool) (s : scheduler * world)
    (Hlong : fifteenDays < endMs - startMs) :
  (exists s',
      scheduleOrderStatusSync q
        (mkSyncOptions (Some (DateMs startMs)) (Some (DateMs endMs)) immediate) s
      = (Normal None, s')
      /\ added None (fst s) (fst s'))
  /\ (exists s',
         manualOrderSync q (DateMs startMs) (DateMs endMs) s
         = (Normal (mkManualResult false None None
                      (Some "Cannot read properties of null (reading 'id')")), s')
         /\ added None (fst s) (fst s')).
Proof.
  apply exceeds_limit_spec in Hlong. split.
  - pose proof (scheduleOrderStatusSync_cases q (DateMs startMs) (DateMs endMs) immediate s)
      as H.
    cbv zeta in H. rewrite Hlong in H. destruct H as [Hr Hq].
    destruct (scheduleOrderStatusSync q _ s) as [r s'] eqn:Hrun. cbn [fst snd] in *.
    subst r. now exists s'.
  - destruct s as [l w]. unfold manualOrderSync. rewrite logger_bind.
    pose proof (scheduleOrderStatusSync_cases q (DateMs startMs) (DateMs endMs) (Some true)
                  (l, record_log LInfo "[OrderSyncScheduler] Manual order sync requested" w))
      as H.
    cbv zeta in H. rewrite Hlong in H. destruct H as [Hr Hq].
    unfold try_catch at 1. unfold bind at 1.
    destruct (scheduleOrderStatusSync q _ _) as [r [l' w']] eqn:Hrun. cbn [fst snd] in *.
    subst r. cbn. eexists. split; [reflexivity | exact Hq].
Qed.

Definition idleBroker : broker :=
  mkBroker (fun n => 1700000000000 + Z.of_nat n) (fun _ => None)
    (fun n => pretty (Z.of_nat n + 1)).

Definition idleScheduler : scheduler := mkScheduler [] 0 0.

Lemma range_above_15_days_is_not_queued_witness :
  (exists s',
      scheduleOrderStatusSync idleBroker
        (mkSyncOptions (Some (DateMs 1700000000000)) (Some (DateMs 1701296000001)) None)
        (idleScheduler, emptyWorld)
      = (Normal None, s')
      /\ added None idleScheduler (fst s'))
  /\ (exists s',
         manualOrderSync idleBroker (DateMs 1700000000000) (DateMs 1701296000001)
           (idleScheduler, emptyWorld)
         = (Normal (mkManualResult false None None
                      (Some "Cannot read properties of null (reading 'id')")), s')
         /\ added None idleScheduler (fst s')).
Proof.
  apply (range_above_15_days_is_not_queued idleBroker 1700000000000 1701296000001 None
           (idleScheduler, emptyWorld)).
  unfold fifteenDays. lia.
Defined.

(** X21: a range of at most 15 days between two dates is queued when the
    queue accepts the addition: one job named syncOrderStatuses with the two
    dates is added behind the jobs of the queue, with no delay when
    [immediate] is true and a delay of 60000 ms otherwise. *)
Theorem range_within_15_days_is_queued
    (q : broker) (startMs endMs : Z) (immediate : option bool) (s : scheduler * world)
    (Hshort : endMs - startMs <= fifteenDays)
    (Haccepted : refusal q (additions (fst s)) = None) :
  exists j s',
    scheduleOrderStatusSync q
      (mkSyncOptions (Some (DateMs startMs)) (Some (DateMs endMs)) immediate) s
    = (Normal (Some j), s')
    /\ added (Some j) (fst s) (fst s')
    /\ job_name j = "syncOrderStatuses"
    /\ jd_startDate (job_data j) = DateMs startMs
    /\ jd_endDate (job_data j) = DateMs endMs
    /\ job_delay j = match immediate with Some true => 0 | _ => 60000 end.
Proof.
  pose proof (scheduleOrderStatusSync_cases q (DateMs startMs) (DateMs endMs) immediate s)
    as H.
  cbv zeta in H.
  destruct (exceeds_limit (DateMs startMs) (DateMs endMs)) eqn:Hlimit.
  - apply exceeds_limit_spec in Hlimit. lia.
  - rewrite Haccepted in H. destruct H as [Hr Hq].
    destruct (scheduleOrderStatusSync q _ s) as [r s'] eqn:Hrun. cbn [fst snd] in *.
    subst r. eexists. exists s'. split; [reflexivity|]. split; [exact Hq|].
    cbn. destruct immediate as [[|]|]; easy.
Qed.

Lemma range_within_15_days_is_queued_witness :
  exists j s',
    scheduleOrderStatusSync idleBroker
      (mkSyncOptions (Some (DateMs 1700000000000)) (Some (DateMs 1701296000000)) None)
      (idleScheduler, emptyWorld)
    = (Normal (Some j), s')
    /\ added (Some j) idleScheduler (fst s')
    /\ job_name j = "syncOrderStatuses"
    /\ jd_startDate (job_data j) = DateMs 1700000000000
    /\ jd_endDate (job_data j) = DateMs 1701296000000
    /\ job_delay j = 60000.
Proof.
  apply (range_within_15_days_is_queued idleBroker 1700000000000 1701296000000 None
           (idleScheduler, emptyWorld)).
  - unfold fifteenDays. lia.
  - reflexivity.
Defined.

(** X22: a date that is no date passes the check of the range: when the queue
    accepts the addition, [manualOrderSync] with a start or an end that
    [new Date] cannot read answers with [success: true] and has added a job
    with these dates. *)
Theorem unreadable_date_is_queued
    (q : broker) (startDate endDate : jsDate) (s : scheduler * world)
    (Hunreadable : startDate = InvalidDate \/ endDate = InvalidDate)
    (Haccepted : refusal q (additions (fst s)) = None) :
  exists r j s',
    manualOrderSync q startDate endDate s = (Normal r, s')
    /\ mr_success r = true
    /\ mr_jobId r = Some (job_id j)
    /\ added (Some j) (fst s) (fst s')
    /\ jd_startDate (job_data j) = startDate
    /\ jd_endDate (job_data j) = endDate.
Proof.
  assert (Hlimit : exceeds_limit startDate endDate = false)
    by (destruct Hunreadable as [-> | ->]; [|destruct startDate]; reflexivity).
  destruct s as [l w]. unfold manualOrderSync. rewrite logger_bind.
  pose proof (scheduleOrderStatusSync_cases q startDate endDate (Some true)
                (l, record_log LInfo "[OrderSyncScheduler] Manual order sync requested" w))
    as H.
  cbv zeta in H. rewrite Hlimit in H. cbn [fst snd] in *. rewrite Haccepted in H.
  destruct H as [Hr Hq].
  unfold try_catch at 1. unfold bind at 1.
  destruct (scheduleOrderStatusSync q _ _) as [r [l' w']] eqn:Hrun. cbn [fst snd] in *.
  subst r. cbn [ret]. eexists.
  match type of Hq with added (Some ?j) _ _ => exists j end.
  eexists. split; [reflexivity|].
  cbn. split; [reflexivity|]. split; [reflexivity|]. split; [exact Hq|]. easy.
Qed.

Lemma unreadable_date_is_queued_witness :
  exists r j s',
    manualOrderSync idleBroker InvalidDate (DateMs 1700000000000)
      (idleScheduler, emptyWorld)
    = (Normal r, s')
    /\ mr_success r = true
    /\ mr_jobId r = Some (job_id j)
    /\ added (Some j) idleScheduler (fst s')
    /\ jd_startDate (job_data j) = InvalidDate
    /\ jd_endDate (job_data j) = DateMs 1700000000000.
Proof.
  apply (unreadable_date_is_queued idleBroker InvalidDate (DateMs 1700000000000)
           (idleScheduler, emptyWorld)).
  - left. reflexivity.
  - reflexivity.
Defined.

(** X23: the task of every full hour never throws, not even when the queue
    refuses the addition, and it adds at most one job: a job without delay
    whose range starts two hours before the first reading of the clock and
    ends at the second. *)
Theorem hourlySync_never_throws
    (q : broker) (s : scheduler * world) :
  exists s' j,
    hourlySync q s = (Normal tt, s')
    /\ added j (fst s) (fst s')
    /\ (j = None
        \/ exists id scheduledAt,
             j = Some (mkJob id "syncOrderStatuses"
                         (mkJobData (Date_of_ms (clock q (readings (fst s)) - 7200000))
                            (DateMs (clock q (S (readings (fst s))))) scheduledAt) 0)).
Proof.
  destruct s as [[queue n k] w]. unfold hourlySync. rewrite logger_bind.
  unfold try_catch at 1. unfold bind at 1. unfold Date_now at 1.
  cbn [bind get_local set_local ret fst snd readings orderStatusSyncQueue additions].
  unfold bind at 1. unfold Date_now at 1.
  cbn [bind get_local set_local ret fst snd readings orderStatusSyncQueue additions].
  unfold bind at 1.
  match goal with
  | |- context [scheduleOrderStatusSync q (mkSyncOptions (Some ?a) (Some ?b) ?i) ?st] =>
      pose proof (scheduleOrderStatusSync_cases q a b i st) as H;
      cbv zeta in H;
      destruct (scheduleOrderStatusSync q (mkSyncOptions (Some a) (Some b) i) st)
        as [r [l' w']] eqn:Hrun
  end.
  cbn [fst snd additions readings] in H.
  destruct (exceeds_limit _ _).
  - destruct H as [-> Hq]. cbn. eexists. exists None. split; [reflexivity|].
    split; [exact Hq | now left].
  - destruct (refusal q k) as [e|].
    + destruct H as [-> Hq]. cbn. eexists. exists None. split; [reflexivity|].
      split; [exact Hq | now left].
    + destruct H as [-> Hq]. cbn. eexists. eexists (Some _). split; [reflexivity|].
      split; [exact Hq|]. right. eexists. eexists. reflexivity.
Qed.
